(** * pixelpet: the cat-food factory page and its sound subsystem

    A shallow embedding of the page script (js/app.js), the audio settings
    (js/audio/audio-settings.js), the sound mapping system, the sound factory
    and the audio system, followed by the properties established for them.

    Conventions of the embedding:
    - a JavaScript number is a rational ([Q]) where fractions occur and an
      integer ([Z]) where the code only produces integers ([parseInt],
      [Date.now()]); NaN and the infinities are outside the model;
    - a JavaScript string is a [string] (the code only inspects ASCII
      characters; other text is carried as UTF-8 bytes);
    - an object used as a dictionary is a [gmap] over strings, an
      insertion-ordered [Map] whose order is observable is an association
      list, a [Set] of audio nodes is a [gset] of node identifiers;
    - a function that may throw returns a [completion];
    - [async] code is cut at its [await] points: the synchronous prefix and
      each continuation are separate transitions of the event loop. *)

From Stdlib Require Import ZArith NArith QArith Qround Lia Lqa List String Ascii.
From stdpp Require Import gmap strings.
Import ListNotations.

Open Scope Z_scope.

(* ================================================================== *)
(** * Part I. The embedding *)
(* ================================================================== *)

(** ** JavaScript primitives used by the scripts *)

Module JS.

(** What a call produces: a value, or a thrown error with its message. *)
Inductive completion (A : Type) : Type :=
| Return (a : A)
| Throw (msg : string).
Arguments Return {A} a.
Arguments Throw {A} msg.

Definition digit_char (d : N) : ascii := ascii_of_N (48 + d).


(** Decimal digits of a natural number, least significant first. *)
Fixpoint digits_le (fuel : nat) (n : N) : list ascii :=
  match fuel with
  | O => []
  | S f =>
      digit_char (n mod 10) ::
      (if (n <? 10)%N then [] else digits_le f (n / 10))
  end.

Definition N_toString (n : N) : string :=
  string_of_list_ascii (rev (digits_le (S (N.to_nat (N.size n))) n)).

(** [Number.prototype.toString()] on an integer. *)
Definition Number_toString (z : Z) : string :=
  match z with
  | Z0 => "0"
  | Zpos p => N_toString (Npos p)
  | Zneg p => String "-" (N_toString (Npos p))
  end.

Fixpoint string_drop (k : nat) (s : string) : string :=
  match k, s with
  | O, _ => s
  | S k', EmptyString => EmptyString
  | S k', String _ s' => string_drop k' s'
  end.

(** [String.prototype.slice(start)]: a negative start counts from the
    end, and the start is clamped into [0, length]. *)
Definition String_slice (start : Z) (s : string) : string :=
  let len := Z.of_nat (String.length s) in
  let from := if start <? 0 then Z.max (len + start) 0 else Z.min start len in
  string_drop (Z.to_nat from) s.


(** [String.prototype.includes(needle)] *)
Fixpoint string_prefix (p s : string) : bool :=
  match p, s with
  | EmptyString, _ => true
  | String a p', String b s' => Ascii.eqb a b && string_prefix p' s'
  | String _ _, EmptyString => false
  end.

Fixpoint String_includes (needle s : string) : bool :=
  string_prefix needle s ||
  match s with
  | EmptyString => false
  | String _ s' => String_includes needle s'
  end.

Definition is_alnum (c : ascii) : bool :=
  let n := N_of_ascii c in
  (((48 <=? n) && (n <=? 57)) || ((65 <=? n) && (n <=? 90))
   || ((97 <=? n) && (n <=? 122)))%N.

(** [s.replace(/[^a-zA-Z0-9]/g, '_')].  The pattern replaces every
    UTF-16 code unit that is no ASCII letter or digit; a string here holds
    the UTF-8 bytes of the text, so a character outside ASCII is replaced
    where its lead byte stands: by one ['_'] when it takes two or three
    bytes (one code unit), by two when it takes four (a surrogate pair),
    and its continuation bytes are dropped. *)
Fixpoint replace_non_alnum (s : string) : string :=
  match s with
  | EmptyString => EmptyString
  | String c s' =>
      let n := N_of_ascii c in
      if is_alnum c then String c (replace_non_alnum s')
      else if (n <? 128)%N then String "_" (replace_non_alnum s')
      else if (n <? 192)%N then replace_non_alnum s'
      else if (n <? 240)%N then String "_" (replace_non_alnum s')
      else String "_" (String "_" (replace_non_alnum s'))
  end.

(** [s.replace('-', '_')]: a string pattern replaces the first
    occurrence only. *)
Fixpoint replace_first_hyphen (s : string) : string :=
  match s with
  | EmptyString => EmptyString
  | String c s' =>
      if Ascii.eqb c "-" then String "_" s' else String c (replace_first_hyphen s')
  end.

(** An insertion-ordered [Map] with string keys.  [Map_set] keeps the
    position of a key that is already present. *)
Fixpoint Map_set {V : Type} (k : string) (v : V) (m : list (string * V))
  : list (string * V) :=
  match m with
  | [] => [(k, v)]
  | (k', v') :: m' =>
      if String.eqb k k' then (k, v) :: m' else (k', v') :: Map_set k v m'
  end.

Fixpoint Map_get {V : Type} (k : string) (m : list (string * V)) : option V :=
  match m with
  | [] => None
  | (k', v') :: m' => if String.eqb k k' then Some v' else Map_get k m'
  end.

(** An object used as a dictionary, given by its own enumerable
    properties in [Object.entries] order.  [obj[k] = v] replaces the value
    of a key that is present, where it stands, and puts a new key last
    (keys that are array indices, which a script engine lists first, do not
    occur among the keys assigned here). *)
Definition Object_set {V : Type} := @Map_set V.
Definition Object_get {V : Type} := @Map_get V.

(** [obj[k] = v] on an object made by [{}]: an assignment to
    ['__proto__'] goes to the setter the object inherits from
    [Object.prototype]; it makes no property of the object's own. *)
Definition Object_assign {V : Type} (k : string) (v : V) (o : list (string * V))
  : list (string * V) :=
  if String.eqb k "__proto__" then o else Object_set k v o.

(** What [fetch(path)] followed by reading the body comes to: the
    request is rejected, the response is not [ok], the body does not parse
    ([response.json()]) or decode ([decodeAudioData]), or it yields a
    value. *)
Inductive FetchResult (A : Type) : Type :=
| NetworkError
| HttpError (status : Z) (statusText : string)
| InvalidBody
| Body (a : A).
Arguments NetworkError {A}.
Arguments HttpError {A} status statusText.
Arguments InvalidBody {A}.
Arguments Body {A} a.

(** The fetch, or the reading of the body, failed. *)
Definition failed {A : Type} (r : FetchResult A) : Prop :=
  match r with
  | Body _ => False
  | NetworkError | HttpError _ _ | InvalidBody => True
  end.

(** A JSON value. *)
#[local] Unset Elimination Schemes.
Inductive json : Type :=
| JNull
| JBool (b : bool)
| JNumber (q : Q)
| JString (s : string)
| JArray (items : list json)
| JObject (fields : list (string * json)).
#[local] Set Elimination Schemes.

(** Whether a JSON value is truthy. *)
Definition truthy (j : json) : bool :=
  match j with
  | JNull => false
  | JBool b => b
  | JNumber q => negb (Qeq_bool q 0)
  | JString s => negb (String.eqb s "")
  | JArray _ | JObject _ => true
  end.

(** The number a list of decimal digits, least significant first,
    stands for. *)
Fixpoint digits_value (l : list ascii) : N :=
  match l with
  | [] => 0
  | c :: l' => (N_of_ascii c - 48) + 10 * digits_value l'
  end%N.

(** A JavaScript number: NaN, an infinity, or a finite value.  A finite
    value is kept as the fraction it stands for: products are exact where
    the script rounds to a double, and the two zeros are one. *)
Inductive number : Type :=
| NaN
| NegInfinity
| Finite (q : Q)
| Infinity.

(** [a <= b]; a comparison with NaN is false. *)
Definition Number_leb (a b : number) : bool :=
  match a, b with
  | NaN, _ | _, NaN => false
  | NegInfinity, _ => true
  | _, Infinity => true
  | Finite p, Finite q => Qle_bool p q
  | _, _ => false
  end.

(** [a < b] *)
Definition Number_ltb (a b : number) : bool :=
  match a, b with
  | NaN, _ | _, NaN => false
  | _, _ => negb (Number_leb b a)
  end.

(** [Math.max] and [Math.min] of two arguments: NaN when one of them is. *)
Definition Math_max (a b : number) : number :=
  match a, b with
  | NaN, _ | _, NaN => NaN
  | _, _ => if Number_leb a b then b else a
  end.

Definition Math_min (a b : number) : number :=
  match a, b with
  | NaN, _ | _, NaN => NaN
  | _, _ => if Number_leb a b then a else b
  end.

Definition Number_sign (a : number) : Z :=
  match a with
  | NaN => 0
  | NegInfinity => -1
  | Finite q => Z.sgn (Qnum q)
  | Infinity => 1
  end.

(** [a * b]: an infinity times zero is NaN. *)
Definition Number_mul (a b : number) : number :=
  match a, b with
  | NaN, _ | _, NaN => NaN
  | Finite p, Finite q => Finite (p * q)
  | _, _ =>
      match (Number_sign a * Number_sign b)%Z with
      | Z0 => NaN
      | Zpos _ => Infinity
      | Zneg _ => NegInfinity
      end
  end.

(** Whether a number is truthy: neither zero nor NaN. *)
Definition Number_truthy (a : number) : bool :=
  match a with
  | NaN => false
  | Finite q => negb (Qeq_bool q 0)
  | NegInfinity | Infinity => true
  end.

(** What a slot meant for a number can hold: nothing, [null] (what
    [JSON.stringify] makes of NaN and of the infinities), or a number. *)
Inductive value : Type :=
| Undefined
| Null
| Number (n : number).

(** The conversion the arithmetic operators and [Math.min] apply. *)
Definition ToNumber (v : value) : number :=
  match v with
  | Undefined => NaN
  | Null => Finite 0
  | Number n => n
  end.

(** A value after [JSON.parse(JSON.stringify(..))]. *)
Definition JSON_copy (v : value) : value :=
  match v with
  | Number (Finite q) => Number (Finite q)
  | Number _ | Null => Null
  | Undefined => Undefined
  end.

(** The names every object inherits a member for from
    [Object.prototype]. *)
Definition Object_prototype_member (k : string) : bool :=
  existsb (String.eqb k)
    ["constructor"; "__defineGetter__"; "__defineSetter__"; "hasOwnProperty";
     "__lookupGetter__"; "__lookupSetter__"; "isPrototypeOf";
     "propertyIsEnumerable"; "toString"; "valueOf"; "__proto__";
     "toLocaleString"]%string.

End JS.

(** ** js/app.js *)

(** The five process types, the keys ['recipe'] ... ['logistics']. *)
Inductive ProcessType : Set :=
| Recipe | Production | Quality | Packaging | Logistics.

(** An object with one field per process type, as [AppState.processConfig]
    and the groups of [DOMCache] are. *)
Record ByType (A : Type) : Type := mkByType {
  recipe : A;
  production : A;
  quality : A;
  packaging : A;
  logistics : A
}.
Arguments mkByType {A}.
Arguments recipe {A}.
Arguments production {A}.
Arguments quality {A}.
Arguments packaging {A}.
Arguments logistics {A}.

(** [obj[type]] *)
Definition get {A} (ty : ProcessType) (o : ByType A) : A :=
  match ty with
  | Recipe => recipe o
  | Production => production o
  | Quality => quality o
  | Packaging => packaging o
  | Logistics => logistics o
  end.

(** [obj[type] = v] *)
Definition set {A} (ty : ProcessType) (v : A) (o : ByType A) : ByType A :=
  match ty with
  | Recipe => mkByType v (production o) (quality o) (packaging o) (logistics o)
  | Production => mkByType (recipe o) v (quality o) (packaging o) (logistics o)
  | Quality => mkByType (recipe o) (production o) v (packaging o) (logistics o)
  | Packaging => mkByType (recipe o) (production o) (quality o) v (logistics o)
  | Logistics => mkByType (recipe o) (production o) (quality o) (packaging o) v
  end.

Record AppState : Type := mkAppState {
  selectedService : string;
  selectedEmoji : string;
  currentStep : nat;
  processConfig : ByType Z
}.

(** The element [step-i]: its class list and its inline opacity. *)
Record StepElement : Type := mkStep {
  step_active : bool;
  step_completed : bool;
  step_opacity : Q
}.

(** The element [connector-i]. *)
Record ConnectorElement : Type := mkConnector {
  connector_active : bool;
  connector_background : string;
  connector_opacity : Q
}.

Record StatsElements : Type := mkStats {
  stat_labels : ByType string;
  stat_cost : string
}.

(** The elements the script reads and writes.  The page is assumed to hold
    every element the script caches; the lists of service cards and emoji
    options are non-empty (a head and a tail), since the script
    dereferences [document.querySelector] on them without a check. *)
Record DOMCache : Type := mkDOM {
  sliders : ByType Z;               (* slider.value of the range inputs *)
  sliderValues : ByType string;     (* textContent *)
  stepValues : ByType string;       (* textContent *)
  steps : ByType StepElement;
  connectors : ByType ConnectorElement;
  productOutput_show : bool;        (* classList has 'show' *)
  productEmoji : string;
  productTitle : string;
  productImage : string;
  productionDate : string;
  expiryDate : string;
  trackingNumber : string;
  stats : StatsElements;
  brandName : string;               (* value of the input *)
  serviceCards : bool * list bool;  (* classList has 'active' *)
  emojiOptions : bool * list bool   (* classList has 'selected' *)
}.

Record Page : Type := mkPage {
  appState : AppState;
  domCache : DOMCache
}.

(** Field updates of the records above. *)
Definition with_processConfig (c : ByType Z) (a : AppState) : AppState :=
  mkAppState (selectedService a) (selectedEmoji a) (currentStep a) c.
Definition with_currentStep (n : nat) (a : AppState) : AppState :=
  mkAppState (selectedService a) (selectedEmoji a) n (processConfig a).
Definition with_selectedService (s : string) (a : AppState) : AppState :=
  mkAppState s (selectedEmoji a) (currentStep a) (processConfig a).
Definition with_selectedEmoji (s : string) (a : AppState) : AppState :=
  mkAppState (selectedService a) s (currentStep a) (processConfig a).

Definition with_sliders (v : ByType Z) (d : DOMCache) : DOMCache :=
  mkDOM v (sliderValues d) (stepValues d) (steps d) (connectors d)
    (productOutput_show d) (productEmoji d) (productTitle d) (productImage d)
    (productionDate d) (expiryDate d) (trackingNumber d) (stats d)
    (brandName d) (serviceCards d) (emojiOptions d).
Definition with_sliderValues (v : ByType string) (d : DOMCache) : DOMCache :=
  mkDOM (sliders d) v (stepValues d) (steps d) (connectors d)
    (productOutput_show d) (productEmoji d) (productTitle d) (productImage d)
    (productionDate d) (expiryDate d) (trackingNumber d) (stats d)
    (brandName d) (serviceCards d) (emojiOptions d).
Definition with_stepValues (v : ByType string) (d : DOMCache) : DOMCache :=
  mkDOM (sliders d) (sliderValues d) v (steps d) (connectors d)
    (productOutput_show d) (productEmoji d) (productTitle d) (productImage d)
    (productionDate d) (expiryDate d) (trackingNumber d) (stats d)
    (brandName d) (serviceCards d) (emojiOptions d).
Definition with_steps (v : ByType StepElement) (d : DOMCache) : DOMCache :=
  mkDOM (sliders d) (sliderValues d) (stepValues d) v (connectors d)
    (productOutput_show d) (productEmoji d) (productTitle d) (productImage d)
    (productionDate d) (expiryDate d) (trackingNumber d) (stats d)
    (brandName d) (serviceCards d) (emojiOptions d).
Definition with_connectors (v : ByType ConnectorElement) (d : DOMCache) : DOMCache :=
  mkDOM (sliders d) (sliderValues d) (stepValues d) (steps d) v
    (productOutput_show d) (productEmoji d) (productTitle d) (productImage d)
    (productionDate d) (expiryDate d) (trackingNumber d) (stats d)
    (brandName d) (serviceCards d) (emojiOptions d).
Definition with_show (v : bool) (d : DOMCache) : DOMCache :=
  mkDOM (sliders d) (sliderValues d) (stepValues d) (steps d) (connectors d)
    v (productEmoji d) (productTitle d) (productImage d)
    (productionDate d) (expiryDate d) (trackingNumber d) (stats d)
    (brandName d) (serviceCards d) (emojiOptions d).
Definition with_productInfo (emoji title image : string) (d : DOMCache) : DOMCache :=
  mkDOM (sliders d) (sliderValues d) (stepValues d) (steps d) (connectors d)
    (productOutput_show d) emoji title image
    (productionDate d) (expiryDate d) (trackingNumber d) (stats d)
    (brandName d) (serviceCards d) (emojiOptions d).
Definition with_dates (prod expiry : string) (d : DOMCache) : DOMCache :=
  mkDOM (sliders d) (sliderValues d) (stepValues d) (steps d) (connectors d)
    (productOutput_show d) (productEmoji d) (productTitle d) (productImage d)
    prod expiry (trackingNumber d) (stats d)
    (brandName d) (serviceCards d) (emojiOptions d).
Definition with_trackingNumber (v : string) (d : DOMCache) : DOMCache :=
  mkDOM (sliders d) (sliderValues d) (stepValues d) (steps d) (connectors d)
    (productOutput_show d) (productEmoji d) (productTitle d) (productImage d)
    (productionDate d) (expiryDate d) v (stats d)
    (brandName d) (serviceCards d) (emojiOptions d).
Definition with_stats (v : StatsElements) (d : DOMCache) : DOMCache :=
  mkDOM (sliders d) (sliderValues d) (stepValues d) (steps d) (connectors d)
    (productOutput_show d) (productEmoji d) (productTitle d) (productImage d)
    (productionDate d) (expiryDate d) (trackingNumber d) v
    (brandName d) (serviceCards d) (emojiOptions d).
Definition with_cards (cards emojis : bool * list bool) (d : DOMCache) : DOMCache :=
  mkDOM (sliders d) (sliderValues d) (stepValues d) (steps d) (connectors d)
    (productOutput_show d) (productEmoji d) (productTitle d) (productImage d)
    (productionDate d) (expiryDate d) (trackingNumber d) (stats d)
    (brandName d) cards emojis.

Definition on_app (f : AppState -> AppState) (p : Page) : Page :=
  mkPage (f (appState p)) (domCache p).
Definition on_dom (f : DOMCache -> DOMCache) (p : Page) : Page :=
  mkPage (appState p) (f (domCache p)).

Module Utils.

(** [getQualityLabel(value)] *)
Definition getQualityLabel (value : Q) : string :=
  if Qle_bool 80 value then "优秀"
  else if Qle_bool 60 value then "良好"
  else "一般".

(** [getCostLabel(totalScore)] *)
Definition getCostLabel (totalScore : Q) : string :=
  if Qle_bool 80 totalScore then "高"
  else if Qle_bool 60 totalScore then "中等"
  else "低".


(** [getTypeFromStep(step)]: [undefined] outside 1..5. *)
Definition getTypeFromStep (step : nat) : option ProcessType :=
  match step with
  | 1 => Some Recipe | 2 => Some Production | 3 => Some Quality
  | 4 => Some Packaging | 5 => Some Logistics
  | _ => None
  end%nat.

(** [getProcessColor(type)] *)
Definition getProcessColor (ty : ProcessType) : string :=
  match ty with
  | Recipe => "#FF6B6B" | Production => "#4ECDC4" | Quality => "#45B7D1"
  | Packaging => "#96CEB4" | Logistics => "#FFE66D"
  end.

End Utils.

Module SliderController.

(** [updateConnectorColor(type, value)]: [value / 100] is kept as the
    fraction [value # 100]. *)
Definition updateConnectorColor (ty : ProcessType) (value : Z) (p : Page) : Page :=
  let connectorElement := get ty (connectors (domCache p)) in
  let color := Utils.getProcessColor ty in
  let opacity := value # 100 in
  on_dom (with_connectors
            (set ty (mkConnector (connector_active connectorElement) color opacity)
                 (connectors (domCache p)))) p.

(** [updateSlider(type)] *)
Definition updateSlider (ty : ProcessType) (p : Page) : Page :=
  let value := get ty (sliders (domCache p)) in
  (* AppState.processConfig[type] = parseInt(value) *)
  let p := on_app (fun a => with_processConfig (set ty value (processConfig a)) a) p in
  (* valueDisplay.textContent = value + '%'; stepValue.textContent = value + '%' *)
  let text := (JS.Number_toString value ++ "%")%string in
  let p := on_dom (fun d => with_sliderValues (set ty text (sliderValues d)) d) p in
  let p := on_dom (fun d => with_stepValues (set ty text (stepValues d)) d) p in
  (* stepElement.style.opacity = value / 100 *)
  let opacity := value # 100 in
  let p := on_dom (fun d =>
             let stepElement := get ty (steps d) in
             with_steps (set ty (mkStep (step_active stepElement)
                                        (step_completed stepElement) opacity)
                             (steps d)) d) p in
  updateConnectorColor ty value p.

(** [initialize()] *)
Definition initialize (p : Page) : Page :=
  let p := updateSlider Recipe p in
  let p := updateSlider Production p in
  let p := updateSlider Quality p in
  let p := updateSlider Packaging p in
  updateSlider Logistics p.

End SliderController.

(** What the script reads from the clock: [Date.now()] in milliseconds and
    the date part of [new Date().toISOString()]. *)
Record Clock : Type := mkClock {
  now : Z;
  isoDate : string
}.

Module ProductionController.

(** One pass of the loop body of [resetProcess] for the step [i]. *)
Definition resetStep (i : nat) (p : Page) : Page :=
  match Utils.getTypeFromStep i with
  | Some ty =>
      let value := get ty (processConfig (appState p)) in
      (* classList.remove('active', 'completed'); style.opacity = value / 100 *)
      let p := on_dom (fun d =>
                 with_steps (set ty (mkStep false false (value # 100)) (steps d)) d) p in
      (* connectorElement.classList.remove('active') *)
      let p := on_dom (fun d =>
                 let c := get ty (connectors d) in
                 with_connectors
                   (set ty (mkConnector false (connector_background c)
                                        (connector_opacity c))
                        (connectors d)) d) p in
      SliderController.updateConnectorColor ty value p
  | None => p
  end.

(** [resetProcess()]: [for (let i = 1; i <= 5; i++)] *)
Definition resetProcess (p : Page) : Page :=
  fold_left (fun p i => resetStep i p) [1; 2; 3; 4; 5]%nat p.

(** [generateTrackingNumber()] *)
Definition generateTrackingNumber (clk : Clock) (p : Page) : Page :=
  on_dom (with_trackingNumber
            ("TRK-" ++ JS.String_slice (-8) (JS.Number_toString (now clk)))%string) p.

(** [updateDateInfo()] *)
Definition updateDateInfo (clk : Clock) (p : Page) : Page :=
  on_dom (with_dates (isoDate clk) "18个月") p.

(** [updateStats()] *)
Definition updateStats (p : Page) : Page :=
  let cfg := processConfig (appState p) in
  let labels :=
    mkByType
      (Utils.getQualityLabel (inject_Z (recipe cfg)))
      (Utils.getQualityLabel (inject_Z (production cfg)))
      (if (60 <=? quality cfg) then "通过" else "不通过")
      (Utils.getQualityLabel (inject_Z (packaging cfg)))
      (Utils.getQualityLabel (inject_Z (logistics cfg))) in
  let totalScore :=
    (recipe cfg + production cfg + packaging cfg + logistics cfg) # 4 in
  on_dom (with_stats (mkStats labels (Utils.getCostLabel totalScore))) p.

(** [updateProductInfo(brandName)] *)
Definition updateProductInfo (clk : Clock) (brand : string) (p : Page) : Page :=
  let emoji := selectedEmoji (appState p) in
  let p := on_dom (with_productInfo emoji brand (emoji ++ "🍖")%string) p in
  let p := updateDateInfo clk p in
  let p := updateStats p in
  generateTrackingNumber clk p.

(** [showFinalProduct()] *)
Definition showFinalProduct (clk : Clock) (p : Page) : Page :=
  let brand :=
    if String.eqb (brandName (domCache p)) "" then "喵星人优选"%string
    else brandName (domCache p) in
  let p := updateProductInfo clk brand p in
  on_dom (with_show true) p.

(** [activateStep(stepNumber, value)], up to the call of [setTimeout]. *)
Definition activateStep (ty : ProcessType) (p : Page) : Page :=
  let p := on_dom (fun d =>
             let s := get ty (steps d) in
             with_steps (set ty (mkStep true (step_completed s) (step_opacity s))
                             (steps d)) d) p in
  on_dom (fun d =>
    let c := get ty (connectors d) in
    with_connectors (set ty (mkConnector true (connector_background c)
                                         (connector_opacity c))
                         (connectors d)) d) p.

(** The callback [activateStep] registers with [setTimeout(.., 600)]. *)
Definition activateStep_timeout (ty : ProcessType) (p : Page) : Page :=
  on_dom (fun d =>
    let s := get ty (steps d) in
    with_steps (set ty (mkStep false true (step_opacity s)) (steps d)) d) p.

(** [startProductionAnimation()], up to the call of [setInterval]. *)
Definition startProductionAnimation (p : Page) : Page :=
  on_app (with_currentStep 0) p.

(** One run of the callback given to [setInterval(.., 800)].  The result
    tells whether the interval is still armed and which step, if any, was
    activated. *)
Definition intervalTick (clk : Clock) (p : Page) : Page * bool * option ProcessType :=
  let cs := currentStep (appState p) in
  if (cs <? 5)%nat then
    (* steps[cs] with steps = [1, 2, 3, 4, 5] *)
    match Utils.getTypeFromStep (S cs) with
    | Some ty =>
        (on_app (with_currentStep (S cs)) (activateStep ty p), true, Some ty)
    | None => (on_app (with_currentStep (S cs)) p, true, None)
    end
  else
    (* clearInterval(processInterval); this.showFinalProduct() *)
    (showFinalProduct clk p, false, None).

(** The animation left to itself: the interval fires every 800 ms and the
    600 ms timeout of an activated step fires before the next tick.
    [None] when the interval is still armed after [fuel] ticks. *)
Fixpoint runAnimation (fuel : nat) (clk : Clock) (p : Page) : option Page :=
  match fuel with
  | O => None
  | S f =>
      match intervalTick clk p with
      | (p', true, Some ty) => runAnimation f clk (activateStep_timeout ty p')
      | (p', true, None) => runAnimation f clk p'
      | (p', false, _) => Some p'
      end
  end.

End ProductionController.

Module UIController.

(** [resetUIState()] *)
Definition resetUIState (p : Page) : Page :=
  let clear (l : bool * list bool) := (true, map (fun _ => false) (snd l)) in
  let p := on_dom (fun d => with_cards (clear (serviceCards d))
                                       (clear (emojiOptions d)) d) p in
  on_app (with_selectedEmoji "🐱") p.

(** [resetSliders()] *)
Definition resetSliders (p : Page) : Page :=
  let p := on_dom (with_sliders (mkByType 75 80 90 70 85)) p in
  SliderController.initialize p.

(** [resetSystem()] *)
Definition resetSystem (p : Page) : Page :=
  let p := on_app (with_selectedService "premium") p in
  let p := on_app (with_currentStep 0) p in
  let p := resetUIState p in
  let p := resetSliders p in
  let p := ProductionController.resetProcess p in
  on_dom (with_show false) p.

(** [launchProduction()], up to the call of [setInterval]. *)
Definition launchProduction (p : Page) : Page :=
  ProductionController.startProductionAnimation
    (ProductionController.resetProcess p).

End UIController.


(** A page as the script leaves it after [initializeApp]: [AppState] as the
    script declares it, the sliders at the values of [processConfig], three
    service cards and four emoji options, nothing produced yet. *)
Definition loadedPage : Page :=
  SliderController.initialize
    (mkPage
       (mkAppState "premium" "🐱" 0 (mkByType 75 80 90 70 85))
       (mkDOM (mkByType 75 80 90 70 85)
          (mkByType "" "" "" "" "") (mkByType "" "" "" "" "")
          (let s := mkStep false false 1 in mkByType s s s s s)
          (let c := mkConnector false "" 1 in mkByType c c c c c)
          false "" "" "" "" "" ""
          (mkStats (mkByType "" "" "" "" "") "")
          "" (true, [false; false]) (true, [false; false; false]))).

(** The loaded page with the quality slider dragged to 42, before its
    [input] handler has run. *)
Definition P42 : Page :=
  on_dom (with_sliders (set Quality 42 (sliders (domCache loadedPage)))) loadedPage.

(** ** js/audio/audio-settings.js *)

Module AudioSettings.

Record GlobalSettings : Type := mkGlobal {
  enabled : bool;
  masterVolume : JS.value;
  mute : bool
}.

Record CategorySettings : Type := mkCategory {
  volume : JS.value;
  category_enabled : bool
}.

Record PerformanceSettings : Type := mkPerformance {
  maxConcurrentSounds : Z;
  bufferPoolSize : Z;
  preloadEnabled : bool;
  compressionEnabled : bool
}.

Record PlatformSettings : Type := mkPlatform {
  mobileOptimized : bool;
  lowLatencyMode : bool;
  batterySaverMode : bool
}.

Record QualitySettings : Type := mkQuality {
  sampleRate : Z;
  bitDepth : Z;
  spatialAudio : bool;
  hrtfEnabled : bool
}.

Record DebugSettings : Type := mkDebug {
  loggingEnabled : bool;
  performanceMonitoring : bool;
  eventTracing : bool
}.

Record CompatibilitySettings : Type := mkCompatibility {
  fallbackToOscillator : bool;
  useLegacyAudioAPI : bool;
  polyfillEnabled : bool
}.

Record PreferenceSettings : Type := mkPreferences {
  autoPlayEnabled : bool;
  interruptBehavior : string;
  crossfadeDuration : Q
}.

(** [this.settings].  The object [categories] is given by its own
    properties, in [Object.entries] order.  The switches are booleans and
    the counts integers, as the script documents them; a volume slot holds
    whatever a setter, the storage or [updateSettings] has put there. *)
Record Settings : Type := mkSettings {
  global : GlobalSettings;
  categories : list (string * CategorySettings);
  performance : PerformanceSettings;
  platform : PlatformSettings;
  quality : QualitySettings;
  debug : DebugSettings;
  compatibility : CompatibilitySettings;
  preferences : PreferenceSettings
}.

(** The custom events the settings object dispatches on [document]. *)
Inductive SettingsEvent : Type :=
| audioVolumeChanged (masterVolume : JS.value) (muted : bool)
| audioEnabledChanged (enabled : bool)
| audioCategoryChanged (category : string) (enabled : bool) (volume : JS.value)
| audioSettingsChanged (settings : Settings).

(** What [localStorage] holds under [storageKey]: nothing, text that
    [JSON.parse] rejects, or a JSON object of which each top-level group
    may be present. *)
Record StoredSettings : Type := mkStored {
  stored_global : option GlobalSettings;
  stored_categories : option (list (string * CategorySettings));
  stored_performance : option PerformanceSettings;
  stored_platform : option PlatformSettings;
  stored_quality : option QualitySettings;
  stored_debug : option DebugSettings;
  stored_compatibility : option CompatibilitySettings;
  stored_preferences : option PreferenceSettings
}.

Inductive StorageItem : Type :=
| NoItem
| Unparsable
| Parsable (blob : StoredSettings).

(** The settings object with the part of the browser it acts on: the
    storage item, whether [localStorage.setItem] throws (the storage is full
    or switched off), and the events dispatched so far, oldest first. *)
Record State : Type := mkState {
  settings : Settings;
  isInitialized : bool;
  storage : StorageItem;
  setItemThrows : bool;
  dispatched : list SettingsEvent
}.

(** What [detectPlatform] reads from [navigator]. *)
Record Navigator : Type := mkNavigator {
  userAgentIsMobile : bool;          (* the regular expression test *)
  deviceMemory : option Q;           (* GB; may be absent *)
  hardwareConcurrency : option Z     (* may be absent *)
}.

Definition with_global (g : GlobalSettings) (s : Settings) : Settings :=
  mkSettings g (categories s) (performance s) (platform s) (quality s)
    (debug s) (compatibility s) (preferences s).
Definition with_categories (c : list (string * CategorySettings)) (s : Settings)
  : Settings :=
  mkSettings (global s) c (performance s) (platform s) (quality s)
    (debug s) (compatibility s) (preferences s).

Definition vol (q : Q) : JS.value := JS.Number (JS.Finite q).

(** The settings the constructor builds. *)
Definition defaultSettings : Settings :=
  mkSettings
    (mkGlobal true (vol 0.8) false)
    [("ui", mkCategory (vol 0.7) true);
     ("game", mkCategory (vol 0.8) true);
     ("music", mkCategory (vol 0.6) true);
     ("environment", mkCategory (vol 0.5) true);
     ("production", mkCategory (vol 0.9) true);
     ("customer", mkCategory (vol 0.7) true)]%string
    (mkPerformance 8 10 true true)
    (mkPlatform true false false)
    (mkQuality 44100 16 false false)
    (mkDebug false false false)
    (mkCompatibility true false true)
    (mkPreferences true "duck" 0.5).

(** [new AudioSettings()], in a browser whose storage holds [item] and
    refuses writes or not. *)
Definition constructor (item : StorageItem) (throws : bool) : State :=
  mkState defaultSettings false item throws [].

(** [JSON.parse(JSON.stringify(settings))]: a volume that is NaN or
    infinite comes back as [null]. *)
Definition JSON_copy (s : Settings) : Settings :=
  mkSettings
    (mkGlobal (enabled (global s)) (JS.JSON_copy (masterVolume (global s)))
              (mute (global s)))
    (map (fun kv : string * CategorySettings =>
            (fst kv, mkCategory (JS.JSON_copy (volume (snd kv)))
                                (category_enabled (snd kv))))
         (categories s))
    (performance s) (platform s) (quality s) (debug s) (compatibility s)
    (preferences s).

(** [JSON.stringify(this.settings)] as [JSON.parse] reads it back: every
    group is present. *)
Definition stringify (s : Settings) : StoredSettings :=
  let c := JSON_copy s in
  mkStored (Some (global c)) (Some (categories c)) (Some (performance c))
    (Some (platform c)) (Some (quality c)) (Some (debug c))
    (Some (compatibility c)) (Some (preferences c)).

(** [{ ...this.settings, ...parsed }]: a group of [parsed] replaces the
    group of the same name as a whole. *)
Definition spread (s : Settings) (parsed : StoredSettings) : Settings :=
  mkSettings
    (default (global s) (stored_global parsed))
    (default (categories s) (stored_categories parsed))
    (default (performance s) (stored_performance parsed))
    (default (platform s) (stored_platform parsed))
    (default (quality s) (stored_quality parsed))
    (default (debug s) (stored_debug parsed))
    (default (compatibility s) (stored_compatibility parsed))
    (default (preferences s) (stored_preferences parsed)).

Definition with_settings (s : Settings) (a : State) : State :=
  mkState s (isInitialized a) (storage a) (setItemThrows a) (dispatched a).

(** [saveToStorage()]: an error of [setItem] is caught and logged, and
    the item stays what it was. *)
Definition saveToStorage (a : State) : State :=
  if setItemThrows a then a
  else mkState (settings a) (isInitialized a) (Parsable (stringify (settings a)))
         (setItemThrows a) (dispatched a).

(** [loadFromStorage()]: a parse error is caught and logged. *)
Definition loadFromStorage (a : State) : State :=
  match storage a with
  | Parsable parsed => with_settings (spread (settings a) parsed) a
  | NoItem | Unparsable => a
  end.

Definition dispatchEvent (e : SettingsEvent) (a : State) : State :=
  mkState (settings a) (isInitialized a) (storage a) (setItemThrows a)
    (dispatched a ++ [e]).

(** [notifyVolumeChange()] *)
Definition notifyVolumeChange (a : State) : State :=
  dispatchEvent (audioVolumeChanged (masterVolume (global (settings a)))
                                    (mute (global (settings a)))) a.

(** [notifyEnabledChange()] *)
Definition notifyEnabledChange (a : State) : State :=
  dispatchEvent (audioEnabledChanged (enabled (global (settings a)))) a.

(** [notifySettingsChange()], with [getAllSettings()] for its detail. *)
Definition notifySettingsChange (a : State) : State :=
  dispatchEvent (audioSettingsChanged (JSON_copy (settings a))) a.

(** [notifyCategoryChange(category)], with what it reads from
    [this.settings.categories[category]]. *)
Definition notifyCategoryChange (category : string) (enabled : bool)
           (volume : JS.value) (a : State) : State :=
  dispatchEvent (audioCategoryChanged category enabled volume) a.

(** What [this.settings.categories[category]] finds: an own property, a
    member inherited from [Object.prototype] (a function, or the prototype
    itself for ['__proto__']), or nothing.  An inherited member is taken as
    the browser provides it, with no [enabled] and no [volume]: what a
    setter called with such a name writes on the member is not followed. *)
Inductive CategoryLookup : Type :=
| Own (categorySettings : CategorySettings)
| Inherited
| Missing.

Definition lookupCategory (category : string) (s : Settings) : CategoryLookup :=
  match JS.Object_get category (categories s) with
  | Some cs => Own cs
  | None => if JS.Object_prototype_member category then Inherited else Missing
  end.

(** [isLowEndDevice()]: [navigator.deviceMemory || 4] and
    [navigator.hardwareConcurrency || 4]; a zero counts as absent. *)
Definition isLowEndDevice (nav : Navigator) : bool :=
  let memory :=
    match deviceMemory nav with
    | Some m => if Qeq_bool m 0 then 4%Q else m
    | None => 4%Q
    end in
  let cores :=
    match hardwareConcurrency nav with
    | Some c => if c =? 0 then 4 else c
    | None => 4
    end in
  negb (Qle_bool 4 memory) || (cores <? 4).

(** [detectPlatform()] *)
Definition detectPlatform (nav : Navigator) (a : State) : State :=
  let s := settings a in
  let isMobile := userAgentIsMobile nav in
  let lowEnd := isLowEndDevice nav in
  if isMobile || lowEnd then
    let pf := mkPlatform true (lowLatencyMode (platform s))
                (if lowEnd then true else batterySaverMode (platform s)) in
    let perf := mkPerformance 4 5
                  (if lowEnd then false else preloadEnabled (performance s))
                  (compressionEnabled (performance s)) in
    let q := mkQuality (sampleRate (quality s)) (bitDepth (quality s)) false
               (hrtfEnabled (quality s)) in
    with_settings
      (mkSettings (global s) (categories s) perf pf q (debug s)
         (compatibility s) (preferences s)) a
  else a.

(** [initialize()]: nothing in its body throws, so it returns [true]. *)
Definition initialize (nav : Navigator) (a : State) : State * bool :=
  let a := loadFromStorage a in
  let a := detectPlatform nav a in
  (mkState (settings a) true (storage a) (setItemThrows a) (dispatched a), true).

(** [Math.max(0, Math.min(1, volume))] *)
Definition clamp (volume : JS.number) : JS.number :=
  JS.Math_max (JS.Finite 0) (JS.Math_min (JS.Finite 1) volume).

(** [getVolume(category = null)].  An empty category name is falsy and
    counts as none.  For the name of a member of [Object.prototype] the
    lookup finds that member, which has no [enabled]: the result is 0. *)
Definition getVolume (category : option string) (a : State) : JS.number :=
  let s := settings a in
  if negb (enabled (global s)) || mute (global s) then JS.Finite 0
  else
    let volume0 := JS.ToNumber (masterVolume (global s)) in
    match category with
    | Some c =>
        if String.eqb c "" then clamp volume0
        else
          match lookupCategory c s with
          | Own categorySettings =>
              if negb (category_enabled categorySettings) then JS.Finite 0
              else clamp (JS.Number_mul volume0
                            (JS.ToNumber (volume categorySettings)))
          | Inherited => JS.Finite 0
          | Missing => clamp volume0
          end
    | None => clamp volume0
    end.

(** [setMasterVolume(volume)]; [v] is the number the argument converts
    to (NaN for a missing one). *)
Definition setMasterVolume (v : JS.number) (a : State) : State :=
  let s := settings a in
  let g := mkGlobal (enabled (global s)) (JS.Number (clamp v)) (mute (global s)) in
  notifyVolumeChange (saveToStorage (with_settings (with_global g s) a)).

(** [setCategoryVolume(category, volume)].  With the name of a member of
    [Object.prototype] the volume is written on that member, which is no
    part of the settings: the settings are saved and the event is dispatched
    as they are. *)
Definition setCategoryVolume (category : string) (v : JS.number) (a : State) : State :=
  let s := settings a in
  match lookupCategory category s with
  | Own cs =>
      let cs' := mkCategory (JS.Number (clamp v)) (category_enabled cs) in
      notifyVolumeChange
        (saveToStorage
           (with_settings
              (with_categories (JS.Object_set category cs' (categories s)) s) a))
  | Inherited => notifyVolumeChange (saveToStorage a)
  | Missing => a
  end.

(** [setEnabled(enabled)] *)
Definition setEnabled (b : bool) (a : State) : State :=
  let s := settings a in
  let g := mkGlobal b (masterVolume (global s)) (mute (global s)) in
  notifyEnabledChange (saveToStorage (with_settings (with_global g s) a)).

(** [setMute(mute)] *)
Definition setMute (b : bool) (a : State) : State :=
  let s := settings a in
  let g := mkGlobal (enabled (global s)) (masterVolume (global s)) b in
  notifyVolumeChange (saveToStorage (with_settings (with_global g s) a)).

(** [setCategoryEnabled(category, enabled)], with
    [notifyCategoryChange(category)].  With the name of a member of
    [Object.prototype] the switch is written on that member, which has no
    [volume]. *)
Definition setCategoryEnabled (category : string) (b : bool) (a : State) : State :=
  let s := settings a in
  match lookupCategory category s with
  | Own cs =>
      let cs' := mkCategory (volume cs) b in
      notifyCategoryChange category b (volume cs)
        (saveToStorage
           (with_settings
              (with_categories (JS.Object_set category cs' (categories s)) s) a))
  | Inherited =>
      notifyCategoryChange category b JS.Undefined (saveToStorage a)
  | Missing => a
  end.

(** [updateSettings(newSettings)] *)
Definition updateSettings (newSettings : StoredSettings) (a : State) : State :=
  notifySettingsChange
    (saveToStorage (with_settings (spread (settings a) newSettings) a)).

(** [resetToDefaults()] *)
Definition resetToDefaults (nav : Navigator) (a : State) : State :=
  notifySettingsChange
    (saveToStorage
       (detectPlatform nav (with_settings (JSON_copy defaultSettings) a))).

(** [importSettings(settingsJson)]: [None] stands for text that
    [JSON.parse] rejects. *)
Definition importSettings (settingsJson : option StoredSettings) (a : State)
  : State * bool :=
  match settingsJson with
  | Some parsed => (updateSettings parsed a, true)
  | None => (a, false)
  end.

(** The errors [validateSettings] can report. *)
Inductive ValidationError : Type :=
| MasterVolumeOutOfRange
| CategoryVolumeOutOfRange (category : string)
| MaxConcurrentSoundsTooSmall
| BufferPoolSizeNegative.

(** [volume < 0 || volume > 1] *)
Definition outOfRange (v : JS.value) : bool :=
  JS.Number_ltb (JS.ToNumber v) (JS.Finite 0)
  || JS.Number_ltb (JS.Finite 1) (JS.ToNumber v).

(** [validateSettings()]: the list [errors]; [isValid] is its
    emptiness. *)
Definition validateSettings (a : State) : list ValidationError :=
  let s := settings a in
  (if outOfRange (masterVolume (global s)) then [MasterVolumeOutOfRange] else [])
  ++ flat_map (fun kv : string * CategorySettings =>
                 if outOfRange (volume (snd kv))
                 then [CategoryVolumeOutOfRange (fst kv)] else [])
              (categories s)
  ++ (if maxConcurrentSounds (performance s) <? 1
      then [MaxConcurrentSoundsTooSmall] else [])
  ++ (if bufferPoolSize (performance s) <? 0
      then [BufferPoolSizeNegative] else []).

(** The states the four volume and switch setters lead to from [a0],
    when the volumes they are called with satisfy [P]. *)
Inductive reachable (P : JS.number -> Prop) (a0 : State) : State -> Prop :=
| reach_start : reachable P a0 a0
| reach_setMasterVolume v a :
    reachable P a0 a -> P v -> reachable P a0 (setMasterVolume v a)
| reach_setCategoryVolume c v a :
    reachable P a0 a -> P v -> reachable P a0 (setCategoryVolume c v a)
| reach_setMute b a :
    reachable P a0 a -> reachable P a0 (setMute b a)
| reach_setEnabled b a :
    reachable P a0 a -> reachable P a0 (setEnabled b a).

(** The value converts to a number of [0, 1]. *)
Definition unit_volume (v : JS.value) : Prop :=
  exists q, JS.ToNumber v = JS.Finite q /\ (0 <= q <= 1)%Q.

(** The volumes a settings state stores all convert to numbers of
    [0, 1]. *)
Definition volumes_clamped (a : State) : Prop :=
  let s := settings a in
  unit_volume (masterVolume (global s)) /\
  forall c cs, In (c, cs) (categories s) -> unit_volume (volume cs).

(** The stored volumes pass the range test of [validateSettings], and
    the performance settings are the constructor's. *)
Definition in_range (a : State) : Prop :=
  let s := settings a in
  outOfRange (masterVolume (global s)) = false /\
  (forall c cs, In (c, cs) (categories s) -> outOfRange (volume cs) = false) /\
  performance s = performance defaultSettings.

(** The storage item is the present settings, as [saveToStorage] writes
    them. *)
Definition saved (a : State) : Prop :=
  storage a = Parsable (stringify (settings a)).

(** A browser that [detectPlatform] leaves alone. *)
Definition desktop (nav : Navigator) : Prop :=
  userAgentIsMobile nav = false /\ isLowEndDevice nav = false.

End AudioSettings.

(** ** The sound mapping system *)

Module SoundMappingSystem.

(** The data object of an audio event, as far as the conditions of the
    script read it; a field that is absent is [undefined].  The data is an
    object: [getSoundForAction] puts [{}] in the place of [undefined], and
    the audio system hands on the payload it has read [eventType] from. *)
Record EventData : Type := mkEventData {
  delta : option Q;
  quality : option Q;
  time_of_day : option string;
  mood : option string
}.

(** The value under [condition] in a conditional mapping: absent (or
    falsy), a function, or a truthy value that is no function (all a JSON
    file can hold).  A function is given by what a call of it comes to on
    each data object: the truthiness of the value it returns, or the error
    it throws. *)
Inductive Condition : Type :=
| NoCondition
| Predicate (f : EventData -> JS.completion bool)
| NotCallable.

Record ConditionalMapping : Type := mkConditional {
  condition : Condition;
  sound : string
}.

(** [this.mappings] is only read by key; [this.conditionalMappings] is
    iterated in insertion order. *)
Record State : Type := mkState {
  mappings : gmap string string;
  conditionalMappings : list (string * ConditionalMapping);
  isInitialized : bool
}.

(** The argument of [loadConfig]: each of the two objects may be absent;
    an object is given by its entries in [Object.entries] order. *)
Record Config : Type := mkConfig {
  config_mappings : option (list (string * string));
  config_conditional_mappings : option (list (string * ConditionalMapping))
}.

(** The JSON of a mappings file.  A missing [sound_name] is the empty
    string: the script tests it for truthiness only. *)
Record ActionConfig : Type := mkAction {
  sound_name : string
}.

Record CategoryConfig : Type := mkCategoryConfig {
  actions : option (list (string * ActionConfig))
}.

Record Rule : Type := mkRule {
  rule_condition : string;       (* empty when absent *)
  rule_mappings : option (list (string * ActionConfig))
}.

Inductive ConditionalFile : Type :=
| Rules (rules : list Rule)
| Direct (entries : list (string * ConditionalMapping)).

Inductive MappingsFile : Type :=
| Nested (file_mappings : list (string * CategoryConfig))
         (file_conditional_mappings : option ConditionalFile)
| Flat (entries : list (string * string)).

(** The argument of [initialize]. *)
Inductive InitArg : Type :=
| NoConfig
| ConfigPath (path : string)
| ConfigObject (config : Config).

(** [new SoundMappingSystem()] *)
Definition constructor : State := mkState ∅ [] false.

(** [loadConfig(config)] *)
Definition loadConfig (config : Config) (s : State) : State :=
  let basic :=
    match config_mappings config with
    | Some entries =>
        fold_left (fun (m : gmap string string) kv => <[fst kv := snd kv]> m)
                  entries ∅
    | None => ∅
    end in
  let conditional :=
    match config_conditional_mappings config with
    | Some entries =>
        fold_left (fun m (kv : string * ConditionalMapping) =>
                     JS.Map_set (fst kv) (snd kv) m)
                  entries []
    | None => []
    end in
  mkState basic conditional (isInitialized s).

(** The assignments [flattened[fullActionName] = actionConfig.sound_name]
    that [flattenMappings] makes, in the order it makes them. *)
Definition flattenMappings_assignments (nested : list (string * CategoryConfig))
  : list (string * string) :=
  flat_map
    (fun cat : string * CategoryConfig =>
       match actions (snd cat) with
       | Some acts =>
           map (fun act : string * ActionConfig =>
                  ((fst cat ++ "_" ++ fst act)%string, sound_name (snd act)))
               acts
       | None => []
       end)
    nested.

(** [flattenMappings(mappings)]: the object [flattened]; a later
    assignment to a name replaces the earlier one. *)
Definition flattenMappings (nested : list (string * CategoryConfig))
  : list (string * string) :=
  fold_left (fun flattened (kv : string * string) =>
               JS.Object_assign (fst kv) (snd kv) flattened)
            (flattenMappings_assignments nested) [].

(** The condition function [flattenConditionalMappings] builds for a
    rule. *)
Definition ruleCondition (rc : string) (data : EventData) : JS.completion bool :=
  JS.Return
    (if JS.String_includes "time_of_day" rc then
       match time_of_day data with
       | Some t => String.eqb t "night"
       | None => false
       end
     else if JS.String_includes "production_quality" rc then
       match quality data with
       | Some q => Qle_bool 90 q
       | None => false
       end
     else if JS.String_includes "customer_mood" rc then
       match mood data with
       | Some m => String.eqb m "happy"
       | None => false
       end
     else false).

(** [Object.values(rule.mappings)[0]?.sound_name || 'click_sound'] *)
Definition ruleSound (ms : list (string * ActionConfig)) : string :=
  match ms with
  | (_, a) :: _ => if String.eqb (sound_name a) "" then "click_sound" else sound_name a
  | [] => "click_sound"
  end.

(** [flattenConditionalMappings(conditionalMappings)]: the object
    [flattened]; two rules whose conditions give the same name leave one
    entry, with the mapping of the later rule. *)
Definition flattenConditionalMappings (cf : ConditionalFile)
  : list (string * ConditionalMapping) :=
  match cf with
  | Rules rules =>
      fold_left
        (fun flattened rule =>
           match rule_mappings rule with
           | Some ms =>
               if String.eqb (rule_condition rule) "" then flattened
               else
                 JS.Object_assign
                   ("rule_" ++ JS.replace_non_alnum (rule_condition rule))%string
                   (mkConditional (Predicate (ruleCondition (rule_condition rule)))
                                  (ruleSound ms))
                   flattened
           | None => flattened
           end)
        rules []
  | Direct entries =>
      fold_left (fun flattened (kv : string * ConditionalMapping) =>
                   JS.Object_assign (fst kv) (snd kv) flattened)
                entries []
  end.

(** The literal [defaultConfig] of [loadDefaultConfig]. *)
Definition defaultConfig : Config :=
  let gt (v : option Q) (bound : Q) :=
    match v with Some x => negb (Qle_bool x bound) | None => false end in
  let lt (v : option Q) (bound : Q) :=
    match v with Some x => negb (Qle_bool bound x) | None => false end in
  mkConfig
    (Some
       [("button_click", "click_sound");
        ("button_hover", "hover_sound");
        ("slider_adjusted", "slider_move");
        ("slider_released", "slider_release");
        ("ui_emoji_select", "click_sound");
        ("ui_slider_adjust", "slider_move");
        ("ui_service_select", "click_sound");
        ("ui_system_reset", "click_sound");
        ("ui_product_share", "click_sound");
        ("ui_product_download", "click_sound");
        ("money_changed", "coin_sound");
        ("level_up", "level_up_sound");
        ("production_started", "machine_start");
        ("production_completed", "success_sound");
        ("production_production_start", "machine_start");
        ("production_step_recipe", "click_sound");
        ("production_step_production", "click_sound");
        ("production_step_quality", "click_sound");
        ("production_step_packaging", "click_sound");
        ("production_step_logistics", "click_sound");
        ("production_step_complete", "success_sound");
        ("production_production_complete", "production_complete");
        ("background_music", "ambient_music");
        ("ui_transition", "transition_sound")]%string)
    (Some
       [("money_increased"%string,
         mkConditional (Predicate (fun data => JS.Return (gt (delta data) 0%Q)))
                       "coin_gain");
        ("money_decreased"%string,
         mkConditional (Predicate (fun data => JS.Return (lt (delta data) 0%Q)))
                       "coin_loss");
        ("high_quality"%string,
         mkConditional (Predicate (fun data => JS.Return (gt (quality data) 80%Q)))
                       "high_quality_sound");
        ("low_quality"%string,
         mkConditional (Predicate (fun data => JS.Return (lt (quality data) 30%Q)))
                       "low_quality_sound")]).

(** [loadDefaultConfig()] *)
Definition loadDefaultConfig (s : State) : State :=
  loadConfig defaultConfig s.

(** [loadConfigFromFile(configPath)]: an error of the fetch or of the
    parse is logged and thrown again. *)
Definition loadConfigFromFile (fetch : string -> JS.FetchResult MappingsFile)
           (configPath : string) (s : State) : JS.completion State :=
  match fetch configPath with
  | JS.NetworkError => JS.Throw "TypeError: Failed to fetch"
  | JS.HttpError status statusText =>
      JS.Throw ("配置文件加载失败: " ++ JS.Number_toString status ++ " " ++ statusText)
  | JS.InvalidBody => JS.Throw "SyntaxError: Unexpected token"
  | JS.Body (Nested ms cms) =>
      JS.Return
        (loadConfig
           (mkConfig (Some (flattenMappings ms))
              (Some (flattenConditionalMappings (default (Direct []) cms))))
           s)
  | JS.Body (Flat entries) =>
      JS.Return (loadConfig (mkConfig (Some entries) (Some [])) s)
  end.

(** [initialize(config = null)]: the state it leaves and the boolean it
    resolves to. *)
Definition initialize (fetch : string -> JS.FetchResult MappingsFile)
           (config : InitArg) (s : State) : State * bool :=
  let loaded :=
    match config with
    | ConfigPath path => loadConfigFromFile fetch path s
    | ConfigObject c => JS.Return (loadConfig c s)
    | NoConfig => JS.Return (loadDefaultConfig s)
    end in
  match loaded with
  | JS.Return s' =>
      (mkState (mappings s') (conditionalMappings s') true, true)
  | JS.Throw _ => (s, false)
  end.

(** The loop of [getSoundForAction] over the conditional mappings: the
    sound of the first mapping whose condition holds, [None] when the loop
    ends without a match, an error when it calls what is no function or
    when a condition throws. *)
Fixpoint firstMatch (data : EventData) (l : list (string * ConditionalMapping))
  : JS.completion (option string) :=
  match l with
  | [] => JS.Return None
  | (_, mapping) :: l' =>
      match condition mapping with
      | NoCondition => firstMatch data l'
      | Predicate f =>
          match f data with
          | JS.Return true => JS.Return (Some (sound mapping))
          | JS.Return false => firstMatch data l'
          | JS.Throw msg => JS.Throw msg
          end
      | NotCallable => JS.Throw "TypeError: mapping.condition is not a function"
      end
  end.

(** [getSoundForAction(action, data = {})]; [None] is [null]. *)
Definition getSoundForAction (action : string) (data : EventData) (s : State)
  : JS.completion (option string) :=
  if negb (isInitialized s) then JS.Return None
  else
    match firstMatch data (conditionalMappings s) with
    | JS.Return (Some snd) => JS.Return (Some snd)
    | JS.Return None =>
        (* this.mappings.get(action) || null *)
        match mappings s !! action with
        | Some name => JS.Return (if String.eqb name "" then None else Some name)
        | None => JS.Return None
        end
    | JS.Throw msg => JS.Throw msg
    end.

(** [addMapping(action, soundName)] *)
Definition addMapping (action soundName : string) (s : State) : State :=
  mkState (<[action := soundName]> (mappings s)) (conditionalMappings s)
    (isInitialized s).

(** [addConditionalMapping(conditionName, condition, soundName)] *)
Definition addConditionalMapping (conditionName : string) (c : Condition)
           (soundName : string) (s : State) : State :=
  mkState (mappings s)
    (JS.Map_set conditionName (mkConditional c soundName) (conditionalMappings s))
    (isInitialized s).

(** [removeMapping(action)] *)
Definition removeMapping (action : string) (s : State) : State :=
  mkState (delete action (mappings s)) (conditionalMappings s) (isInitialized s).

(** The errors [validateConfig] can report on a configuration of this
    type (names and sounds are strings already). *)
Inductive ConfigError : Type :=
| MissingMappings
| ConditionNotFunction (conditionName : string).

(** [validateConfig(config)]: the list [errors]. *)
Definition validateConfig (config : Config) : list ConfigError :=
  (match config_mappings config with
   | Some _ => []
   | None => [MissingMappings]
   end)
  ++ match config_conditional_mappings config with
     | Some entries =>
         flat_map (fun kv : string * ConditionalMapping =>
                     match condition (snd kv) with
                     | Predicate _ => []
                     | NoCondition | NotCallable => [ConditionNotFunction (fst kv)]
                     end)
                  entries
     | None => []
     end.

(** Every condition registered is absent or a function. *)
Definition callable (m : string * ConditionalMapping) : Prop :=
  condition (snd m) <> NotCallable.

(** The mapping [m] holds on [data]: its condition is a function that
    returns a truthy value. *)
Definition holds (data : EventData) (m : ConditionalMapping) : Prop :=
  exists f, condition m = Predicate f /\ f data = JS.Return true.

(** The loop of [getSoundForAction] steps over the mapping: its
    condition is absent, or a function that returns a falsy value. *)
Definition skips (data : EventData) (m : string * ConditionalMapping) : Prop :=
  match condition (snd m) with
  | NoCondition => True
  | Predicate f => f data = JS.Return false
  | NotCallable => False
  end.

End SoundMappingSystem.

(** ** The sound factory *)

Module SoundFactory.

(** An entry of [this.implementations]; a field that is absent is
    [None]. *)
Record Implementation : Type := mkImplementation {
  type : option string;
  generator : option string;
  params : option JS.json;
  file : option string;
  base_path : option string;
  name : option string;
  volume : option Q;
  loop : bool
}.

(** A sound of an implementations file, before [parameters] is renamed
    to [params]. *)
Record SoundConfig : Type := mkSoundConfig {
  config : Implementation;
  parameters : option JS.json
}.

Record ImplementationGroup : Type := mkGroup {
  group_sounds : option (list (string * SoundConfig))
}.

(** The JSON of an implementations file: grouped by implementation type
    under [implementations], or flat under [sounds]. *)
Inductive ImplementationsFile : Type :=
| Grouped (implementations : list (string * ImplementationGroup))
| Ungrouped (sounds : option (list (string * Implementation))).

(** The argument of [loadConfig]. *)
Record Config : Type := mkConfig {
  config_sounds : option (list (string * Implementation))
}.

Inductive InitArg : Type :=
| NoConfig
| ConfigPath (path : string)
| ConfigObject (config : Config).

(** An audio buffer: silence of a number of frames, or decoded data. *)
Inductive AudioBuffer : Type :=
| Silence (frameCount sampleRate : Z)
| Decoded (data : string).

(** The synthesis routines that build a node graph from parameters. *)
Inductive Synthesizer : Set :=
| simple_tone | noise_burst | frequency_sweep | pulse_sequence.

(** The node a generator returns: an oscillator or noise source built by
    a synthesis routine from the parameters it was handed (such a node is
    started by the routine), or a buffer source with whether it was
    started, the gain put in front of it, and whether it loops. *)
Inductive Source : Type :=
| Synthesized (by_routine : Synthesizer) (with_params : option JS.json)
| BufferSource (buffer : AudioBuffer) (started : bool) (gain : option Q)
               (looping : bool).

(** The audio context, as far as the factory reads it. *)
Record AudioContext : Type := mkContext {
  sampleRate : Z
}.

Record State : Type := mkState {
  audioContext : option AudioContext;
  implementations : gmap string Implementation;
  audioBufferPool : gmap string AudioBuffer;
  isInitialized : bool
}.

(** The options [generateSound] is called with, as far as it reads
    them. *)
Record Options : Type := mkOptions {
  option_volume : option Q
}.

(** [new SoundFactory(audioContext)] *)
Definition constructor (ctx : option AudioContext) : State :=
  mkState ctx ∅ ∅ false.

Definition with_implementations (m : gmap string Implementation) (s : State) : State :=
  mkState (audioContext s) m (audioBufferPool s) (isInitialized s).
Definition with_pool (m : gmap string AudioBuffer) (s : State) : State :=
  mkState (audioContext s) (implementations s) m (isInitialized s).

(** [loadConfig(config)] *)
Definition loadConfig (c : Config) (s : State) : State :=
  with_implementations
    (match config_sounds c with
     | Some entries =>
         fold_left (fun (m : gmap string Implementation) kv => <[fst kv := snd kv]> m)
                   entries ∅
     | None => ∅
     end) s.

Local Open Scope Q_scope.

Definition obj (fields : list (string * JS.json)) : option JS.json :=
  Some (JS.JObject fields).
Definition num (q : Q) : JS.json := JS.JNumber q.
Definition str (s : string) : JS.json := JS.JString s.

Definition web_audio (g : string) (p : option JS.json) : Implementation :=
  mkImplementation (Some "web_audio"%string) (Some g) p None None None None false.

(** The literal [defaultConfig] of [loadDefaultConfig]. *)
Definition defaultConfig : Config :=
  let tone (f d : Q) (w : string) (v : Q) :=
    obj [("frequency", num f); ("duration", num d); ("waveType", str w);
         ("volume", num v)]%string in
  let stage (f d v : Q) (w : string) :=
    JS.JObject [("frequency", num f); ("duration", num d); ("volume", num v);
                ("waveType", str w)]%string in
  let chord (a b c : Q) (d : Q) :=
    JS.JObject [("notes", JS.JArray [num a; num b; num c]); ("duration", num d);
                ("waveType", str "sine")]%string in
  mkConfig (Some
    [("click_sound", web_audio "simple_tone" (tone 800 0.05 "sine" 0.3));
     ("hover_sound", web_audio "simple_tone" (tone 600 0.03 "sine" 0.2));
     ("slider_move", web_audio "noise_burst"
        (obj [("duration", num 0.02); ("volume", num 0.15);
              ("filterType", str "lowpass"); ("filterFrequency", num 3000)]));
     ("slider_release", web_audio "simple_tone" (tone 400 0.08 "sine" 0.25));
     ("coin_sound", web_audio "complex_sequence"
        (obj [("sequence", JS.JArray
                 [JS.JObject [("type", str "tone"); ("frequency", num 800);
                              ("duration", num 0.05); ("volume", num 0.3)];
                  JS.JObject [("type", str "tone"); ("frequency", num 1200);
                              ("duration", num 0.1); ("volume", num 0.4)]])]));
     ("coin_gain", web_audio "chord_sequence"
        (obj [("chords", JS.JArray [chord 523 659 784 0.15]); ("volume", num 0.5)]));
     ("coin_loss", web_audio "simple_tone" (tone 200 0.2 "sawtooth" 0.3));
     ("level_up_sound", web_audio "envelope_sequence"
        (obj [("stages", JS.JArray [stage 300 0.1 0.3 "sine"; stage 600 0.1 0.5 "sine";
                                    stage 900 0.2 0.4 "sine"])]));
     ("machine_start", web_audio "envelope_sequence"
        (obj [("stages", JS.JArray [stage 100 0.3 0.2 "sawtooth";
                                    stage 200 0.5 0.4 "sawtooth"])]));
     ("success_sound", web_audio "chord_sequence"
        (obj [("chords", JS.JArray [chord 659 784 988 0.2; chord 784 988 1175 0.3]);
              ("volume", num 0.6)]));
     ("ambient_music", web_audio "filtered_noise"
        (obj [("duration", num 30); ("volume", num 0.1);
              ("filterType", str "lowpass"); ("filterFrequency", num 500);
              ("modulation", JS.JObject [("type", str "lfo"); ("frequency", num 0.5);
                                         ("depth", num 0.05)])]));
     ("transition_sound", web_audio "pulse_wave"
        (obj [("frequency", num 150); ("duration", num 0.3);
              ("pulseWidth", num 0.3); ("volume", num 0.3)]))]%string).

(** [loadDefaultConfig()] *)
Definition loadDefaultConfig (s : State) : State := loadConfig defaultConfig s.

(** The object [{ type: implType, ...soundConfig }] with [parameters]
    moved to [params] when it is truthy. *)
Definition flattenSound (implType : string) (sc : SoundConfig) : Implementation :=
  let c := config sc in
  let ty := match type c with Some t => Some t | None => Some implType end in
  let ps :=
    match parameters sc with
    | Some j => if JS.truthy j then Some j else params c
    | None => params c
    end in
  mkImplementation ty (generator c) ps (file c) (base_path c) (name c)
    (volume c) (loop c).

(** The object [flattenedConfig] that [loadConfigFromFile] builds from a
    grouped file: the assignments to [sounds], in the order made. *)
Definition flattenImplementations (groups : list (string * ImplementationGroup))
  : Config :=
  mkConfig (Some
    (flat_map
       (fun g : string * ImplementationGroup =>
          match group_sounds (snd g) with
          | Some ss =>
              map (fun kv : string * SoundConfig =>
                     (fst kv, flattenSound (fst g) (snd kv))) ss
          | None => []
          end)
       groups)).

(** [loadConfigFromFile(configPath)]: any error of the fetch or of the
    parse is caught, and the default configuration is loaded instead. *)
Definition loadConfigFromFile (fetch : string -> JS.FetchResult ImplementationsFile)
           (configPath : string) (s : State) : State :=
  match fetch configPath with
  | JS.Body (Grouped groups) => loadConfig (flattenImplementations groups) s
  | JS.Body (Ungrouped sounds) => loadConfig (mkConfig sounds) s
  | JS.NetworkError | JS.HttpError _ _ | JS.InvalidBody => loadDefaultConfig s
  end.

(** [initialize(config = null)]: an empty path is falsy and selects the
    default configuration. *)
Definition initialize (fetch : string -> JS.FetchResult ImplementationsFile)
           (arg : InitArg) (s : State) : State * bool :=
  let s' :=
    match arg with
    | ConfigPath path =>
        if String.eqb path "" then loadDefaultConfig s
        else loadConfigFromFile fetch path s
    | ConfigObject c => loadConfig c s
    | NoConfig => loadDefaultConfig s
    end in
  (mkState (audioContext s') (implementations s') (audioBufferPool s') true, true).

Section Generation.

(** [JSON.stringify] on the parameters of an implementation ([None]
    is [undefined]); the text it produces is left open. *)
Variable JSON_stringify : option JS.json -> string.

(** What fetching and decoding an audio file comes to. *)
Variable fetchAudio : string -> JS.FetchResult AudioBuffer.

(** [getCacheKey(soundName, params)] *)
Definition getCacheKey (soundName : string) (p : option JS.json) : string :=
  (soundName ++ "_" ++ JSON_stringify p)%string.

(** Reading [this.audioContext.x] when the context is [null]. *)
Definition nullContext {A} : JS.completion A :=
  JS.Throw "TypeError: Cannot read properties of null".

(** [generateSilentSound(duration = 0.1)].  The product is taken
    exactly.  The script passes the duration 0.1 only, for which flooring
    the exact product and flooring the product of the two doubles give the
    same frame count at every integer sample rate. *)
Definition generateSilentSound (duration : Q) (s : State) : JS.completion Source :=
  match audioContext s with
  | Some ctx =>
      let frameCount := Qfloor (inject_Z (sampleRate ctx) * duration) in
      JS.Return (BufferSource (Silence frameCount (sampleRate ctx)) false None false)
  | None => nullContext
  end.

(** [createSourceFromBuffer(buffer)] *)
Definition createSourceFromBuffer (b : AudioBuffer) (s : State) : JS.completion Source :=
  match audioContext s with
  | Some _ => JS.Return (BufferSource b true None false)
  | None => nullContext
  end.

(** A synthesis routine called with [p]; the Web Audio calls it makes
    on an existing context are taken to succeed. *)
Definition synthesize (r : Synthesizer) (p : option JS.json) (s : State)
  : JS.completion Source :=
  match audioContext s with
  | Some _ => JS.Return (Synthesized r p)
  | None => nullContext
  end.

Definition generateSimpleTone := synthesize simple_tone.
Definition generateNoiseBurst := synthesize noise_burst.
Definition generateFrequencySweep := synthesize frequency_sweep.
Definition generatePulseSequence := synthesize pulse_sequence.

Definition fixedTone (f d : Q) (w : string) (v : Q) : option JS.json :=
  obj [("frequency", num f); ("duration", num d); ("waveType", str w);
       ("volume", num v)]%string.

(** The generators that ignore their parameters. *)
Definition generateComplexSequence (_ : option JS.json) :=
  generateSimpleTone (fixedTone 800 0.15 "sine" 0.4).
Definition generateEnvelopeSequence (_ : option JS.json) :=
  generateSimpleTone (fixedTone 600 0.3 "sine" 0.5).
Definition generateChordSequence (_ : option JS.json) :=
  generateSimpleTone (fixedTone 500 0.25 "sine" 0.6).
Definition generatePulseWave (_ : option JS.json) :=
  generateSimpleTone (fixedTone 200 0.2 "square" 0.4).
Definition generateFilteredNoise (_ : option JS.json) :=
  generateNoiseBurst
    (obj [("duration", num 2); ("volume", num 0.1);
          ("filterType", str "lowpass"); ("filterFrequency", num 500)]%string).
Definition generateFromThirdParty (_ : Implementation) :=
  generateSimpleTone (fixedTone 660 0.3 "sine" 0.5).
Definition generateCustom (_ : Implementation) :=
  generateSimpleTone (fixedTone 880 0.4 "sine" 0.5).

(** [generateWebAudio(implementation, options)] *)
Definition generateWebAudio (impl : Implementation) (s : State)
  : JS.completion Source :=
  match generator impl with
  | None => JS.Throw "TypeError: Cannot read properties of undefined"
  | Some g =>
      let normalizedGenerator := JS.replace_first_hyphen g in
      let p := params impl in
      if String.eqb normalizedGenerator "simple_tone" then generateSimpleTone p s
      else if String.eqb normalizedGenerator "noise_burst" then generateNoiseBurst p s
      else if String.eqb normalizedGenerator "frequency_sweep" then generateFrequencySweep p s
      else if String.eqb normalizedGenerator "pulse_sequence" then generatePulseSequence p s
      else if String.eqb normalizedGenerator "complex_sequence" then generateComplexSequence p s
      else if String.eqb normalizedGenerator "envelope_sequence" then generateEnvelopeSequence p s
      else if String.eqb normalizedGenerator "chord_sequence" then generateChordSequence p s
      else if String.eqb normalizedGenerator "pulse_wave" then generatePulseWave p s
      else if String.eqb normalizedGenerator "filtered_noise" then generateFilteredNoise p s
      else JS.Throw ("不支持的生成器: " ++ g)
  end.

(** [options.volume || implementation.volume || 1.0] *)
Definition fileVolume (impl : Implementation) (o : Options) : Q :=
  let nonzero (v : option Q) :=
    match v with
    | Some q => if Qeq_bool q 0 then None else Some q
    | None => None
    end in
  match nonzero (option_volume o) with
  | Some q => q
  | None => match nonzero (volume impl) with
            | Some q => q
            | None => 1
            end
  end.

(** [generateFromFile(implementation, options)]: whatever its body
    throws is caught and answered with a silent sound. *)
Definition generateFromFile (impl : Implementation) (o : Options) (s : State)
  : JS.completion Source :=
  let implName :=
    match name impl with
    | Some n => if String.eqb n "" then "unknown"%string else n
    | None => "unknown"%string
    end in
  let cacheKey := getCacheKey implName (params impl) in
  let fromBuffer (b : AudioBuffer) : JS.completion Source :=
    match audioContext s with
    | Some _ => JS.Return (BufferSource b false (Some (fileVolume impl o)) (loop impl))
    | None => nullContext
    end in
  let attempt :=
    match audioBufferPool s !! cacheKey with
    | Some audioBuffer => fromBuffer audioBuffer
    | None =>
        let filePath := default "undefined"%string (file impl) in
        let basePath :=
          match base_path impl with
          | Some b => if String.eqb b "" then "assets/audio/"%string else b
          | None => "assets/audio/"%string
          end in
        match fetchAudio (basePath ++ filePath)%string with
        | JS.Body audioBuffer => fromBuffer audioBuffer
        | JS.NetworkError => JS.Throw "TypeError: Failed to fetch"
        | JS.HttpError _ _ => JS.Throw "音频文件加载失败"
        | JS.InvalidBody => JS.Throw "EncodingError: Unable to decode audio data"
        end
    end in
  match attempt with
  | JS.Return src => JS.Return src
  | JS.Throw _ => generateSilentSound 0.1 s
  end.

(** [generateSound(soundName, options = {})] *)
Definition generateSound (soundName : string) (o : Options) (s : State)
  : JS.completion Source :=
  if negb (isInitialized s) then JS.Throw "音效工厂未初始化"
  else
    match implementations s !! soundName with
    | None => generateSilentSound 0.1 s
    | Some implementation =>
        let cacheKey := getCacheKey soundName (params implementation) in
        match audioBufferPool s !! cacheKey with
        | Some b => createSourceFromBuffer b s
        | None =>
            match type implementation with
            | Some ty =>
                if String.eqb ty "web_audio" then generateWebAudio implementation s
                else if String.eqb ty "file" then generateFromFile implementation o s
                else if String.eqb ty "third_party" then generateFromThirdParty implementation s
                else if String.eqb ty "custom" then generateCustom implementation s
                else JS.Throw ("不支持的音效类型: " ++ ty)
            | None => JS.Throw "不支持的音效类型: undefined"
            end
        end
    end.

(** [preloadSound(soundName)]: the pool afterwards.  A sound that is
    not of type ['file'] is generated once and not pooled; an error is
    caught and logged. *)
Definition preloadSound (soundName : string) (s : State) : State :=
  match implementations s !! soundName with
  | None => s
  | Some implementation =>
      let cacheKey := getCacheKey soundName (params implementation) in
      match audioBufferPool s !! cacheKey with
      | Some _ => s
      | None =>
          if match type implementation with
             | Some ty => String.eqb ty "file"
             | None => false
             end
          then
            let filePath := default "undefined"%string (file implementation) in
            let basePath :=
              match base_path implementation with
              | Some b => if String.eqb b "" then "assets/audio/"%string else b
              | None => "assets/audio/"%string
              end in
            match fetchAudio (basePath ++ filePath)%string, audioContext s with
            | JS.Body audioBuffer, Some _ =>
                with_pool (<[cacheKey := audioBuffer]> (audioBufferPool s)) s
            | _, _ => s
            end
          else s
      end
  end.

(** [cleanupBufferPool()] *)
Definition cleanupBufferPool (s : State) : State := with_pool ∅ s.

End Generation.

Local Close Scope Q_scope.

(** The silent source [generateSilentSound(0.1)] builds on a context of
    sample rate [rate]. *)
Definition silentSource (rate : Z) : Source :=
  BufferSource
    (Silence (Qfloor (inject_Z rate * 0.1)) rate) false None false.

(** The implementation types [generateSound] has a case for. *)
Definition supportedType (ty : string) : bool :=
  String.eqb ty "web_audio" || String.eqb ty "file"
  || String.eqb ty "third_party" || String.eqb ty "custom".

(** The generator names [generateWebAudio] has a case for. *)
Definition supportedGenerator (g : string) : bool :=
  let n := JS.replace_first_hyphen g in
  existsb (String.eqb n)
    ["simple_tone"; "noise_burst"; "frequency_sweep"; "pulse_sequence";
     "complex_sequence"; "envelope_sequence"; "chord_sequence"; "pulse_wave";
     "filtered_noise"]%string.

(** [fullPath] of [generateFromFile] and [preloadSound]:
    [(implementation.base_path || 'assets/audio/') + implementation.file]. *)
Definition fullPath (impl : Implementation) : string :=
  ((match base_path impl with
    | Some b => if String.eqb b "" then "assets/audio/"%string else b
    | None => "assets/audio/"%string
    end) ++ default "undefined"%string (file impl))%string.

(** [implementation.name || 'unknown'], the name under which
    [generateFromFile] looks the pool up. *)
Definition implName (impl : Implementation) : string :=
  match name impl with
  | Some n => if String.eqb n "" then "unknown"%string else n
  | None => "unknown"%string
  end.

(** [getImplementationStats().total] *)
Definition statsTotal (s : State) : nat := size (implementations s).

(** [getImplementationStats().byType[ty]], 0 when the key is absent;
    an implementation without a type counts under ['undefined']. *)
Definition statsByType (ty : string) (s : State) : nat :=
  size (filter (fun kv : string * Implementation =>
                  default "undefined"%string (type (snd kv)) = ty)
               (implementations s)).

End SoundFactory.

(** ** The audio system *)

Module AudioSystem.

Inductive ContextState : Set := running | suspended.

(** An audio node the system has tracked: what the factory built, the
    value of its gain node, whether [stop()] was called on it by the
    system, and the time at which [trackActiveSound] admitted it (kept
    for stating properties; the script does not store it). *)
Record Node : Type := mkNode {
  source : SoundFactory.Source;
  gainNode : option Q;
  stopped : bool;
  tracked_at : Z
}.

(** A call of [playSound] suspended at an [await]: at
    [await this.unlockAudioContext()], or at
    [await this.soundFactory.generateSound(..)] with what that call comes
    to. *)
Inductive Continuation : Type :=
| AfterUnlock (soundName : string) (options : SoundFactory.Options)
| AfterGenerate (soundName : string) (volume : JS.number)
                (result : JS.completion SoundFactory.Source).

(** The system, with the part of the browser it acts on: the clock in
    milliseconds, the timers set by [setTimeout] (due time and node) in the
    order they were set, the suspended calls of [playSound], and the number
    of calls of [destroy] that wait on [audioContext.close()]. *)
Record State : Type := mkState {
  audioContext : option ContextState;
  soundFactory : option SoundFactory.State;
  soundMapping : option SoundMappingSystem.State;
  audioSettings : AudioSettings.State;
  isInitialized : bool;
  activeSounds : gset nat;
  maxConcurrentSounds : nat;
  nodes : list Node;
  pending : list Continuation;
  closing : nat;
  timers : list (Z * nat);
  clock : Z
}.

(** [new AudioSystem()], with the global settings object [settings] and
    the clock at [t]. *)
Definition constructor (settings : AudioSettings.State) (t : Z) : State :=
  mkState None None None settings false ∅ 8 [] [] 0 [] t.

Definition with_activeSounds (a : gset nat) (s : State) : State :=
  mkState (audioContext s) (soundFactory s) (soundMapping s) (audioSettings s)
    (isInitialized s) a (maxConcurrentSounds s) (nodes s) (pending s)
    (closing s) (timers s) (clock s).
Definition with_nodes (n : list Node) (s : State) : State :=
  mkState (audioContext s) (soundFactory s) (soundMapping s) (audioSettings s)
    (isInitialized s) (activeSounds s) (maxConcurrentSounds s) n (pending s)
    (closing s) (timers s) (clock s).
Definition with_pending (p : list Continuation) (s : State) : State :=
  mkState (audioContext s) (soundFactory s) (soundMapping s) (audioSettings s)
    (isInitialized s) (activeSounds s) (maxConcurrentSounds s) (nodes s) p
    (closing s) (timers s) (clock s).
Definition with_timers (t : list (Z * nat)) (s : State) : State :=
  mkState (audioContext s) (soundFactory s) (soundMapping s) (audioSettings s)
    (isInitialized s) (activeSounds s) (maxConcurrentSounds s) (nodes s)
    (pending s) (closing s) t (clock s).
Definition with_clock (t : Z) (s : State) : State :=
  mkState (audioContext s) (soundFactory s) (soundMapping s) (audioSettings s)
    (isInitialized s) (activeSounds s) (maxConcurrentSounds s) (nodes s)
    (pending s) (closing s) (timers s) t.
Definition with_audioContext (c : option ContextState) (s : State) : State :=
  mkState c (soundFactory s) (soundMapping s) (audioSettings s)
    (isInitialized s) (activeSounds s) (maxConcurrentSounds s) (nodes s)
    (pending s) (closing s) (timers s) (clock s).
Definition with_closing (n : nat) (s : State) : State :=
  mkState (audioContext s) (soundFactory s) (soundMapping s) (audioSettings s)
    (isInitialized s) (activeSounds s) (maxConcurrentSounds s) (nodes s)
    (pending s) n (timers s) (clock s).
Definition with_isInitialized (b : bool) (s : State) : State :=
  mkState (audioContext s) (soundFactory s) (soundMapping s) (audioSettings s)
    b (activeSounds s) (maxConcurrentSounds s) (nodes s)
    (pending s) (closing s) (timers s) (clock s).
Definition with_audioSettings (a : AudioSettings.State) (s : State) : State :=
  mkState (audioContext s) (soundFactory s) (soundMapping s) a
    (isInitialized s) (activeSounds s) (maxConcurrentSounds s) (nodes s)
    (pending s) (closing s) (timers s) (clock s).

(** [getSoundCategory(soundName)] *)
Definition getSoundCategory (soundName : string) : string :=
  let has (w : string) := JS.String_includes w soundName in
  if has "click" || has "hover" || has "slider" then "ui"
  else if has "coin" || has "level" || has "success" then "game"
  else if has "machine" || has "production" then "production"
  else if has "music" || has "ambient" then "music"
  else "game".

(** [source.stop()] inside [try]. *)
Definition stopNode (id : nat) (s : State) : State :=
  with_nodes
    (alter (fun n => mkNode (source n) (gainNode n) true (tracked_at n)) id (nodes s))
    s.

(** The handler [trackActiveSound] and [playSound] put on
    [source.onended]. *)
Definition onended (id : nat) (s : State) : State :=
  with_activeSounds (activeSounds s ∖ {[id]}) s.

(** The callback [trackActiveSound] hands to [setTimeout]. *)
Definition trackTimeout (id : nat) (s : State) : State :=
  if decide (id ∈ activeSounds s)
  then stopNode id (with_activeSounds (activeSounds s ∖ {[id]}) s)
  else s.

(** [applyVolumeToSource(source, volume)] for a volume the gain
    accepts, [trackActiveSound(source, soundName)] and the assignment to
    [source.onended] that follows, for the node [playSound] has just been
    handed by the factory: the node enters the store with its gain, joins
    [activeSounds], and a timer is set 10000 ms ahead. *)
Definition trackActiveSound (src : SoundFactory.Source) (vol : Q) (s : State) : State :=
  let id := List.length (nodes s) in
  let s := with_nodes (nodes s ++ [mkNode src (Some vol) false (clock s)]) s in
  let s := with_activeSounds ({[id]} ∪ activeSounds s) s in
  with_timers (timers s ++ [(clock s + 10000, id)]) s.

(** [stopAllSounds()] *)
Definition stopAllSounds (s : State) : State :=
  let s := fold_right stopNode s (elements (activeSounds s)) in
  with_activeSounds ∅ s.

(** [handleVolumeChange(detail)]: no node carries a [soundName], so the
    category is that of ['unknown'].  A gain refuses a value that is not
    finite with a TypeError, which ends the loop at the first node that has
    a gain: with the volume NaN no gain is changed. *)
Definition handleVolumeChange (s : State) : State :=
  match AudioSettings.getVolume (Some (getSoundCategory "unknown"))
          (audioSettings s) with
  | JS.Finite vol =>
      fold_right
        (fun id s =>
           with_nodes
             (alter (fun n => match gainNode n with
                              | Some _ => mkNode (source n) (Some vol) (stopped n)
                                                 (tracked_at n)
                              | None => n
                              end) id (nodes s)) s)
        s (elements (activeSounds s))
  | _ => s
  end.

(** [handleEnabledChange(detail)] *)
Definition handleEnabledChange (detail_enabled : bool) (s : State) : State :=
  if detail_enabled then s else stopAllSounds s.

(** [destroy()] up to its [await]: with an audio context the call waits
    on [audioContext.close()]; without one it runs to its end. *)
Definition destroy (s : State) : State :=
  let s := stopAllSounds s in
  match audioContext s with
  | Some _ => with_closing (S (closing s)) s
  | None => with_isInitialized false s
  end.

(** A call of [destroy] taken up again when [close()] has settled: the
    context is dropped and the system marked uninitialized, unless
    [close()] was rejected, which ends the call. *)
Definition destroy_closed (closeOk : bool) (s : State) : State :=
  match closing s with
  | O => s
  | S n =>
      let s := with_closing n s in
      if closeOk then with_isInitialized false (with_audioContext None s) else s
  end.

(** What [initialize] is called with. *)
Record InitConfig : Type := mkInitConfig {
  mappingsPath : option string;
  implementationsPath : option string
}.

Section Browser.

Variable JSON_stringify : option JS.json -> string.
Variable fetchAudio : string -> JS.FetchResult SoundFactory.AudioBuffer.
Variable fetchMappings : string -> JS.FetchResult SoundMappingSystem.MappingsFile.
Variable fetchImplementations :
  string -> JS.FetchResult SoundFactory.ImplementationsFile.
Variable navigator : AudioSettings.Navigator.
(** The context the browser hands out, if any, and its sample rate. *)
Variable newContext : option ContextState.
Variable contextSampleRate : Z.

(** The part of [playSound] from the check of [this.audioContext] to
    the [await] of [generateSound]: the state, and the value returned if
    the call ends here. *)
Definition playSound_generate (soundName : string) (o : SoundFactory.Options)
           (s : State) : State * option bool :=
  match audioContext s with
  | None => (s, Some false)
  | Some _ =>
      let category := getSoundCategory soundName in
      let volume := AudioSettings.getVolume (Some category) (audioSettings s) in
      if JS.Number_leb volume (JS.Finite 0) then (s, Some false)
      else
        match soundFactory s with
        | None => (s, Some false)
        | Some f =>
            let result :=
              SoundFactory.generateSound JSON_stringify fetchAudio soundName o f in
            (with_pending (pending s ++ [AfterGenerate soundName volume result]) s,
             None)
        end
  end.

(** [playSound(soundName, options)] up to its first [await]. *)
Definition playSound (soundName : string) (o : SoundFactory.Options) (s : State)
  : State * option bool :=
  if negb (isInitialized s) then (s, Some false)
  else
    match audioContext s with
    | Some suspended =>
        (with_pending (pending s ++ [AfterUnlock soundName o]) s, None)
    | _ => playSound_generate soundName o s
    end.

(** A suspended call of [playSound] taken up again; [resumeOk] tells
    whether [audioContext.resume()] succeeded, for a call that waits on
    it.  A volume that is not finite (NaN) makes the gain throw in
    [applyVolumeToSource]; the error is caught and nothing is tracked. *)
Definition continue (k : Continuation) (resumeOk : bool) (s : State)
  : State * option bool :=
  match k with
  | AfterUnlock soundName o =>
      match audioContext s with
      | None => (s, Some false)
      | Some _ =>
          if resumeOk
          then playSound_generate soundName o (with_audioContext (Some running) s)
          else (s, Some false)
      end
  | AfterGenerate soundName volume (JS.Return src) =>
      match audioContext s, volume with
      | Some _, JS.Finite vol => (trackActiveSound src vol s, Some true)
      | _, _ => (s, Some false)
      end
  | AfterGenerate _ _ (JS.Throw _) => (s, Some false)
  end.

(** [handleAudioEvent(eventType, data)] up to its first [await]. *)
Definition handleAudioEvent (eventType : string)
           (data : SoundMappingSystem.EventData) (s : State) : State :=
  if negb (isInitialized s) then s
  else if negb (JS.Number_truthy (AudioSettings.getVolume None (audioSettings s)))
  then s
  else
    match soundMapping s with
    | None => s
    | Some m =>
        match SoundMappingSystem.getSoundForAction eventType data m with
        | JS.Return (Some soundName) =>
            if String.eqb soundName "" then s
            else if (maxConcurrentSounds s <=? size (activeSounds s))%nat then s
            else fst (playSound soundName (SoundFactory.mkOptions None) s)
        | JS.Return None => s
        | JS.Throw _ => s
        end
    end.

(** [preloadCriticalSounds()] *)
Definition preloadCriticalSounds (s : State) : State :=
  if negb (AudioSettings.preloadEnabled
             (AudioSettings.performance (AudioSettings.settings (audioSettings s))))
  then s
  else
    match audioContext s, soundFactory s with
    | Some running, Some f =>
        let criticalSounds :=
          ["click_sound"; "hover_sound"; "slider_move"; "slider_release";
           "coin_sound"; "level_up_sound"; "machine_start"; "success_sound";
           "production_complete"]%string in
        let f' := fold_left
                    (fun f soundName =>
                       SoundFactory.preloadSound JSON_stringify fetchAudio soundName f)
                    criticalSounds f in
        mkState (audioContext s) (Some f') (soundMapping s) (audioSettings s)
          (isInitialized s) (activeSounds s) (maxConcurrentSounds s) (nodes s)
          (pending s) (closing s) (timers s) (clock s)
    | _, _ => s
    end.

(** [initialize(config = {})]: the results of the two sub-system
    initializations are not looked at. *)
Definition initialize (config : InitConfig) (s : State) : State * bool :=
  let settings := fst (AudioSettings.initialize navigator (audioSettings s)) in
  let ctx := newContext in
  let path (p : option string) :=
    match p with
    | Some x => if String.eqb x "" then None else Some x
    | None => None
    end in
  let mapping :=
    fst (SoundMappingSystem.initialize fetchMappings
           (match path (mappingsPath config) with
            | Some p => SoundMappingSystem.ConfigPath p
            | None => SoundMappingSystem.NoConfig
            end)
           SoundMappingSystem.constructor) in
  let factory :=
    fst (SoundFactory.initialize fetchImplementations
           (match path (implementationsPath config) with
            | Some p => SoundFactory.ConfigPath p
            | None => SoundFactory.NoConfig
            end)
           (SoundFactory.constructor
              (match ctx with
               | Some _ => Some (SoundFactory.mkContext contextSampleRate)
               | None => None
               end))) in
  let s := mkState ctx (Some factory) (Some mapping) settings (isInitialized s)
             (activeSounds s) (maxConcurrentSounds s) (nodes s) (pending s)
             (closing s) (timers s) (clock s) in
  let s := preloadCriticalSounds s in
  (with_isInitialized true s, true).

(** What can happen to the system, one event-loop turn at a time. *)
Inductive Label : Type :=
| AudioEvent (eventType : string) (data : SoundMappingSystem.EventData)
| PlaySound (soundName : string) (options : SoundFactory.Options)
| Resume (k : nat) (resumeOk : bool)   (* the k-th suspended call goes on *)
| Ended (id : nat)                     (* the node fires [ended] *)
| Advance (t : Z)                      (* the clock reaches [t] *)
| Timeout                              (* the browser runs the oldest timer *)
| VolumeChanged                        (* [audioVolumeChanged] *)
| EnabledChanged (enabled : bool)      (* [audioEnabledChanged] *)
| StopAll
| Destroy
| Closed (closeOk : bool)              (* a [close()] has settled *)
| Suspend                              (* [pause()], or the page is hidden *)
| ResumeContext.                       (* [resume()], or the page is shown *)

(** Time passes and the clock reaches [t]; no callback runs. *)
Definition advance (t : Z) (s : State) : State :=
  if t <? clock s then s else with_clock t s.

(** The browser runs the callback of the oldest timer, which it does no
    earlier than the timer is due, and as much later as it likes.  (The
    timers are all set 10000 ms ahead, so the oldest is due first.) *)
Definition timeout (s : State) : State :=
  match timers s with
  | (due, id) :: rest =>
      if due <=? clock s then trackTimeout id (with_timers rest s) else s
  | [] => s
  end.

Definition step (l : Label) (s : State) : State :=
  match l with
  | AudioEvent eventType data => handleAudioEvent eventType data s
  | PlaySound soundName o => fst (playSound soundName o s)
  | Resume k resumeOk =>
      match pending s !! k with
      | Some c => fst (continue c resumeOk (with_pending (delete k (pending s)) s))
      | None => s
      end
  | Ended id => onended id s
  | Advance t => advance t s
  | Timeout => timeout s
  | VolumeChanged => handleVolumeChange s
  | EnabledChanged b => handleEnabledChange b s
  | StopAll => stopAllSounds s
  | Destroy => destroy s
  | Closed closeOk => destroy_closed closeOk s
  | Suspend =>
      match audioContext s with
      | Some running => with_audioContext (Some suspended) s
      | _ => s
      end
  | ResumeContext =>
      match audioContext s with
      | Some suspended => with_audioContext (Some running) s
      | _ => s
      end
  end.

(** A run of the event loop. *)
Definition run (ls : list Label) (s : State) : State :=
  fold_left (fun s l => step l s) ls s.

(** The suspended calls taken up, oldest first, until none is left or
    [fuel] of them have run. *)
Fixpoint settle (fuel : nat) (resumeOk : bool) (s : State) : State :=
  match fuel with
  | O => s
  | S f =>
      match pending s with
      | [] => s
      | _ :: _ => settle f resumeOk (step (Resume 0 resumeOk) s)
      end
  end.

(** A turn of the event loop when no handler overlaps another: an audio
    event is handled to its end (its handler suspends at most twice) before
    anything else happens. *)
Inductive Turn : Type :=
| HandledEvent (eventType : string) (data : SoundMappingSystem.EventData)
               (resumeOk : bool)
| Other (l : Label).

(** The labels that neither start nor continue a handler. *)
Definition passive (l : Label) : bool :=
  match l with
  | AudioEvent _ _ | PlaySound _ _ | Resume _ _ => false
  | _ => true
  end.

Definition turn (t : Turn) (s : State) : State :=
  match t with
  | HandledEvent eventType data resumeOk =>
      settle 2 resumeOk (handleAudioEvent eventType data s)
  | Other l => if passive l then step l s else s
  end.

Definition turns (ts : list Turn) (s : State) : State :=
  fold_left (fun s t => turn t s) ts s.

End Browser.



(** Every active node is in the store with its 10-second timer still
    set, and every timer that is set is the 10-second timer of a node in
    the store. *)
Definition timers_cover (s : State) : Prop :=
  (forall id, id ∈ activeSounds s ->
              exists n, nodes s !! id = Some n /\
                        (tracked_at n + 10000, id) ∈ timers s) /\
  (forall due id, (due, id) ∈ timers s ->
                  exists n, nodes s !! id = Some n /\
                            due = tracked_at n + 10000).

(** No timer that is due is waiting for the browser to run it. *)
Definition timers_prompt (s : State) : Prop :=
  forall d, d ∈ timers s -> clock s < d.1.

(** Every active node is in the store. *)
Definition active_in_store (s : State) : Prop :=
  forall id, id ∈ activeSounds s -> (id < List.length (nodes s))%nat.

(** [s'] differs from [s] in nothing that concerns which nodes are active,
    when they were tracked and which timers are set. *)
Definition same_tracking (s s' : State) : Prop :=
  activeSounds s' = activeSounds s /\
  timers s' = timers s /\
  clock s' = clock s /\
  maxConcurrentSounds s' = maxConcurrentSounds s /\
  List.length (nodes s') = List.length (nodes s) /\
  forall id n, nodes s !! id = Some n ->
    exists n', nodes s' !! id = Some n' /\
               tracked_at n' = tracked_at n.

(** The two invariants of the tracking data together. *)
Definition tracked_well (s : State) : Prop :=
  timers_cover s /\ active_in_store s.

(** The cap is respected and nothing is suspended. *)
Definition capped (s : State) : Prop :=
  pending s = [] /\
  (size (activeSounds s) <= maxConcurrentSounds s)%nat /\
  active_in_store s.

(** [s'] has at most [n] active nodes more than [s], under the same cap. *)
Definition admits (n : nat) (s s' : State) : Prop :=
  active_in_store s ->
  active_in_store s' /\
  maxConcurrentSounds s' = maxConcurrentSounds s /\
  (size (activeSounds s') <= size (activeSounds s) + n)%nat.


End AudioSystem.

(** ** The audio manager *)

(** The event types the helpers of [window.AudioManager] hand to
    [playEvent]. *)
Module AudioManager.

(** [playUI(action)] plays the event [`ui_${action}`]. *)
Definition playUI (action : string) : string := ("ui_" ++ action)%string.

(** [playGame(action)] plays the event [`game_${action}`]. *)
Definition playGame (action : string) : string := ("game_" ++ action)%string.

(** [playProduction(action)] plays the event [`production_${action}`]. *)
Definition playProduction (action : string) : string :=
  ("production_" ++ action)%string.

End AudioManager.

(** ** A browser to run the system in *)

(** A desktop browser with a running audio context of 44.1 kHz, in which
    no audio file can be fetched; the system is set up by [initialize()]
    without configuration paths, so that both sub-systems load their default
    configuration.  [JSON.stringify] is replaced by a constant, which keeps
    the cache keys of distinct sound names distinct. *)
Module Desktop.

Definition JSON_stringify (_ : option JS.json) : string := "{}".
Definition fetchAudio (_ : string) : JS.FetchResult SoundFactory.AudioBuffer :=
  JS.NetworkError.
Definition fetchMappings (_ : string)
  : JS.FetchResult SoundMappingSystem.MappingsFile := JS.NetworkError.
Definition fetchImplementations (_ : string)
  : JS.FetchResult SoundFactory.ImplementationsFile := JS.NetworkError.
Definition navigator : AudioSettings.Navigator :=
  AudioSettings.mkNavigator false None None.

Definition initialize (config : AudioSystem.InitConfig) (s : AudioSystem.State) :=
  AudioSystem.initialize JSON_stringify fetchAudio fetchMappings
    fetchImplementations navigator (Some AudioSystem.running) 44100 config s.

(** The system after [initialize()], at time 0. *)
Definition system : AudioSystem.State :=
  fst (initialize (AudioSystem.mkInitConfig None None)
         (AudioSystem.constructor
            (AudioSettings.constructor AudioSettings.NoItem false) 0)).

Definition run := AudioSystem.run JSON_stringify fetchAudio.

Definition generateSound :=
  SoundFactory.generateSound JSON_stringify fetchAudio.

(** A factory on that context, initialized with [config]. *)
Definition factory (config : SoundFactory.InitArg) : SoundFactory.State :=
  fst (SoundFactory.initialize fetchImplementations config
         (SoundFactory.constructor (Some (SoundFactory.mkContext 44100)))).

(** An event without data. *)
Definition noData : SoundMappingSystem.EventData :=
  SoundMappingSystem.mkEventData None None None None.

End Desktop.


(* ================================================================== *)
(** * Part II. Properties *)
(* ================================================================== *)

#[local] Set Warnings "-clear-no-such-hyp".



(** ** Decimal rendering *)

Section Decimal.

Lemma digit_char_value (d : N) :
  (d < 10)%N -> (N_of_ascii (JS.digit_char d) - 48 = d)%N.
Proof.
  intros Hd. unfold JS.digit_char.
  rewrite N_ascii_embedding by lia. lia.
Qed.


Lemma mod10_lt (n : N) : (n mod 10 < 10)%N.
Proof. apply N.mod_lt. discriminate. Qed.

Lemma div10_lt_pow2 (n : N) (f : nat) :
  (n < 2 ^ N.of_nat (S f))%N -> (n / 10 < 2 ^ N.of_nat f)%N.
Proof.
  intros H. rewrite Nat2N.inj_succ, N.pow_succ_r' in H.
  apply N.Div0.div_lt_upper_bound. lia.
Qed.

(** The digits read back give the number: the rendering loses nothing. *)
Lemma digits_le_value (fuel : nat) :
  forall n, (n < 2 ^ N.of_nat fuel)%N -> JS.digits_value (JS.digits_le fuel n) = n.
Proof.
  induction fuel as [|f IH]; intros n Hn.
  - simpl in Hn. simpl. lia.
  - cbn [JS.digits_le JS.digits_value].
    rewrite digit_char_value by apply mod10_lt.
    destruct (N.ltb_spec n 10) as [Hlt|Hge].
    + simpl. rewrite N.mod_small by assumption. lia.
    + rewrite IH by (apply div10_lt_pow2; assumption).
      pose proof (N.div_mod n 10 ltac:(discriminate)). lia.
Qed.




End Decimal.

(** ** Strings *)
















(** ** Sliders *)

Lemma get_set_same {A} (ty : ProcessType) (v : A) (o : ByType A) :
  get ty (set ty v o) = v.
Proof. destruct ty; reflexivity. Qed.

Lemma get_set_other {A} (ty ty' : ProcessType) (v : A) (o : ByType A) :
  ty <> ty' -> get ty' (set ty v o) = get ty' o.
Proof. destruct ty, ty'; intros H; try reflexivity; contradiction H; reflexivity. Qed.

(** C8. For each of the five slider types and every value [v] of
    0..100, [updateSlider] writes [v] followed by ['%'] to the value display
    of the slider and to the display of its step, and sets the opacity of
    the step and of its connector to [v / 100]. *)
Theorem updateSlider_display (ty : ProcessType) (v : Z) (p : Page) :
  0 <= v <= 100 ->
  get ty (sliders (domCache p)) = v ->
  let p' := SliderController.updateSlider ty p in
  get ty (sliderValues (domCache p')) = (JS.Number_toString v ++ "%")%string /\
  get ty (stepValues (domCache p')) = (JS.Number_toString v ++ "%")%string /\
  step_opacity (get ty (steps (domCache p'))) = v # 100 /\
  connector_opacity (get ty (connectors (domCache p'))) = v # 100 /\
  get ty (processConfig (appState p')) = v.
Proof.
  intros _ Hv p'. subst p'.
  destruct p as [a d]; destruct d; destruct ty; simpl in Hv; subst v;
    repeat split.
Qed.

Lemma updateSlider_display_witness :
  0 <= 42 <= 100 /\
  get Quality (sliderValues (domCache (SliderController.updateSlider Quality P42)))
    = (JS.Number_toString 42 ++ "%")%string.
Proof.
  split; [lia|].
  exact (proj1 (updateSlider_display Quality 42 P42 ltac:(lia) eq_refl)).
Defined.

(** The other sliders' displays are left as they were. *)
Lemma updateSlider_frame (ty ty' : ProcessType) (p : Page) :
  ty <> ty' ->
  let p' := SliderController.updateSlider ty p in
  get ty' (sliderValues (domCache p')) = get ty' (sliderValues (domCache p)) /\
  get ty' (stepValues (domCache p')) = get ty' (stepValues (domCache p)) /\
  get ty' (steps (domCache p')) = get ty' (steps (domCache p)) /\
  get ty' (connectors (domCache p')) = get ty' (connectors (domCache p)).
Proof.
  intros Hne p'. subst p'.
  destruct p as [a d]; destruct d; destruct ty, ty';
    try (contradiction Hne; reflexivity); repeat split.
Qed.

(** C6. [resetSystem] puts every slider back to its default (75, 80, 90,
    70, 85), propagates the defaults to [processConfig], to both percentage
    displays and to the opacities of steps and connectors, and takes
    ['show'] off the product card. *)
Theorem resetSystem_defaults (p : Page) :
  let p' := UIController.resetSystem p in
  sliders (domCache p') = mkByType 75 80 90 70 85 /\
  processConfig (appState p') = mkByType 75 80 90 70 85 /\
  sliderValues (domCache p') = mkByType "75%" "80%" "90%" "70%" "85%" /\
  stepValues (domCache p') = mkByType "75%" "80%" "90%" "70%" "85%" /\
  (forall ty,
      step_opacity (get ty (steps (domCache p'))) =
        get ty (mkByType 75 80 90 70 85) # 100 /\
      connector_opacity (get ty (connectors (domCache p'))) =
        get ty (mkByType 75 80 90 70 85) # 100 /\
      step_active (get ty (steps (domCache p'))) = false /\
      step_completed (get ty (steps (domCache p'))) = false) /\
  productOutput_show (domCache p') = false /\
  selectedService (appState p') = "premium"%string /\
  currentStep (appState p') = 0%nat.
Proof.
  intros p'. subst p'. destruct p as [a d]; destruct d.
  repeat split; destruct ty; reflexivity.
Qed.

(** ** Labels *)

(** C7. [getQualityLabel] compares against the thresholds 80 and 60. *)
Theorem getQualityLabel_thresholds (value : Q) :
  ((80 <= value)%Q -> Utils.getQualityLabel value = "优秀"%string) /\
  ((60 <= value)%Q -> (value < 80)%Q -> Utils.getQualityLabel value = "良好"%string) /\
  ((value < 60)%Q -> Utils.getQualityLabel value = "一般"%string).
Proof.
  unfold Utils.getQualityLabel. split; [|split].
  - intros H. rewrite (proj2 (Qle_bool_iff 80 value) H). reflexivity.
  - intros H60 H80.
    destruct (Qle_bool 80 value) eqn:E; [apply Qle_bool_iff in E; lra|].
    rewrite (proj2 (Qle_bool_iff 60 value) H60). reflexivity.
  - intros H.
    destruct (Qle_bool 80 value) eqn:E; [apply Qle_bool_iff in E; lra|].
    destruct (Qle_bool 60 value) eqn:E'; [apply Qle_bool_iff in E'; lra|].
    reflexivity.
Qed.

Lemma getQualityLabel_thresholds_witness :
  Utils.getQualityLabel 85 = "优秀"%string /\
  Utils.getQualityLabel 72.5 = "良好"%string /\
  Utils.getQualityLabel 59 = "一般"%string.
Proof.
  split; [|split].
  - apply (proj1 (getQualityLabel_thresholds 85)). vm_compute; discriminate.
  - apply (proj1 (proj2 (getQualityLabel_thresholds 72.5))); vm_compute;
      [discriminate | reflexivity].
  - apply (proj2 (proj2 (getQualityLabel_thresholds 59))). vm_compute; reflexivity.
Defined.



(** ** Objects as dictionaries *)

Lemma Map_set_In {V} (k : string) (v : V) (m : list (string * V)) (kv : string * V) :
  In kv (JS.Map_set k v m) -> kv = (k, v) \/ In kv m.
Proof.
  induction m as [|[k' v'] m IH]; cbn.
  - intros [<-|[]]. left. reflexivity.
  - destruct (String.eqb k k'); cbn.
    + intros [<-|H]; [left; reflexivity | right; right; exact H].
    + intros [<-|H]; [right; left; reflexivity|].
      destruct (IH H) as [E|E]; [left; exact E | right; right; exact E].
Qed.

Lemma Map_get_In {V} (k : string) (v : V) (m : list (string * V)) :
  JS.Map_get k m = Some v -> In (k, v) m.
Proof.
  induction m as [|[k' v'] m IH]; cbn; [discriminate|].
  destruct (String.eqb_spec k k') as [->|Hne].
  - intros [= ->]. left. reflexivity.
  - intros H. right. apply IH, H.
Qed.

Lemma Map_get_Map_set {V} (k k' : string) (v : V) (m : list (string * V)) :
  JS.Map_get k' (JS.Map_set k v m)
  = if String.eqb k' k then Some v else JS.Map_get k' m.
Proof.
  induction m as [|[k0 v0] m IH]; cbn.
  - destruct (String.eqb k' k); reflexivity.
  - destruct (String.eqb_spec k k0) as [->|Hne]; cbn.
    + destruct (String.eqb k' k0); reflexivity.
    + rewrite IH. destruct (String.eqb_spec k' k0) as [->|Hne'].
      * destruct (String.eqb_spec k0 k) as [->|_]; [contradiction | reflexivity].
      * reflexivity.
Qed.

(** ** Audio settings *)

Section Clamp.
Open Scope Q_scope.

(** [Math.max(0, Math.min(1, v))] is a number of [0, 1] for every [v]
    that is not NaN. *)
Lemma clamp_range (v : JS.number) :
  v <> JS.NaN ->
  exists q, AudioSettings.clamp v = JS.Finite q /\ 0 <= q <= 1.
Proof.
  intros Hv. destruct v as [| |q|]; [contradiction| | |].
  - exists 0. split; [reflexivity | lra].
  - unfold AudioSettings.clamp, JS.Math_min, JS.Math_max, JS.Number_leb.
    destruct (Qle_bool 1 q) eqn:E1.
    + exists 1. split; [reflexivity | lra].
    + assert (H1 : q < 1).
      { apply Qnot_le_lt. intros H. apply Qle_bool_iff in H. congruence. }
      destruct (Qle_bool 0 q) eqn:E0.
      * apply Qle_bool_iff in E0. exists q. split; [reflexivity | lra].
      * exists 0. split; [reflexivity | lra].
  - exists 1. split; [reflexivity | lra].
Qed.

(** What it is on a finite value. *)
Lemma clamp_finite (q : Q) :
  exists r, AudioSettings.clamp (JS.Finite q) = JS.Finite r /\
            (0 <= q <= 1 -> r == q) /\ (q < 0 -> r == 0) /\ (1 < q -> r == 1).
Proof.
  unfold AudioSettings.clamp, JS.Math_min, JS.Math_max, JS.Number_leb.
  destruct (Qle_bool 1 q) eqn:E1.
  - apply Qle_bool_iff in E1. exists 1.
    split; [reflexivity|]. repeat split; intros; lra.
  - assert (H1 : q < 1).
    { apply Qnot_le_lt. intros H. apply Qle_bool_iff in H. congruence. }
    destruct (Qle_bool 0 q) eqn:E0.
    + apply Qle_bool_iff in E0. exists q.
      split; [reflexivity|]. repeat split; intros; lra.
    + assert (H0 : q < 0).
      { apply Qnot_le_lt. intros H. apply Qle_bool_iff in H. congruence. }
      exists 0. split; [reflexivity|]. repeat split; intros; lra.
Qed.

Lemma clamp_NaN : AudioSettings.clamp JS.NaN = JS.NaN.
Proof. reflexivity. Qed.


End Clamp.

Lemma setCategoryVolume_settings (c : string) (v : JS.number)
      (a : AudioSettings.State) :
  AudioSettings.settings (AudioSettings.setCategoryVolume c v a)
  = match JS.Object_get c (AudioSettings.categories (AudioSettings.settings a)) with
    | Some cs =>
        AudioSettings.with_categories
          (JS.Object_set c
             (AudioSettings.mkCategory (JS.Number (AudioSettings.clamp v))
                (AudioSettings.category_enabled cs))
             (AudioSettings.categories (AudioSettings.settings a)))
          (AudioSettings.settings a)
    | None => AudioSettings.settings a
    end.
Proof.
  unfold AudioSettings.setCategoryVolume, AudioSettings.lookupCategory,
    AudioSettings.saveToStorage.
  destruct (JS.Object_get c _) as [cs|].
  - cbn. destruct (AudioSettings.setItemThrows a); reflexivity.
  - destruct (JS.Object_prototype_member c); [|reflexivity].
    destruct (AudioSettings.setItemThrows a); reflexivity.
Qed.

Lemma setCategoryVolume_categories (c : string) (v : JS.number)
      (a : AudioSettings.State) :
  AudioSettings.categories (AudioSettings.settings (AudioSettings.setCategoryVolume c v a))
  = match JS.Object_get c (AudioSettings.categories (AudioSettings.settings a)) with
    | Some cs =>
        JS.Object_set c
          (AudioSettings.mkCategory (JS.Number (AudioSettings.clamp v))
             (AudioSettings.category_enabled cs))
          (AudioSettings.categories (AudioSettings.settings a))
    | None => AudioSettings.categories (AudioSettings.settings a)
    end /\
  AudioSettings.global (AudioSettings.settings (AudioSettings.setCategoryVolume c v a))
  = AudioSettings.global (AudioSettings.settings a) /\
  AudioSettings.performance (AudioSettings.settings (AudioSettings.setCategoryVolume c v a))
  = AudioSettings.performance (AudioSettings.settings a).
Proof.
  rewrite setCategoryVolume_settings.
  destruct (JS.Object_get c _); repeat split; reflexivity.
Qed.

Lemma setMasterVolume_settings (v : JS.number) (a : AudioSettings.State) :
  AudioSettings.settings (AudioSettings.setMasterVolume v a)
  = AudioSettings.with_global
      (AudioSettings.mkGlobal
         (AudioSettings.enabled (AudioSettings.global (AudioSettings.settings a)))
         (JS.Number (AudioSettings.clamp v))
         (AudioSettings.mute (AudioSettings.global (AudioSettings.settings a))))
      (AudioSettings.settings a).
Proof.
  unfold AudioSettings.setMasterVolume, AudioSettings.saveToStorage. cbn.
  destruct (AudioSettings.setItemThrows a); reflexivity.
Qed.

Lemma setMute_settings (b : bool) (a : AudioSettings.State) :
  AudioSettings.settings (AudioSettings.setMute b a)
  = AudioSettings.with_global
      (AudioSettings.mkGlobal
         (AudioSettings.enabled (AudioSettings.global (AudioSettings.settings a)))
         (AudioSettings.masterVolume (AudioSettings.global (AudioSettings.settings a)))
         b)
      (AudioSettings.settings a).
Proof.
  unfold AudioSettings.setMute, AudioSettings.saveToStorage. cbn.
  destruct (AudioSettings.setItemThrows a); reflexivity.
Qed.

Lemma setEnabled_settings (b : bool) (a : AudioSettings.State) :
  AudioSettings.settings (AudioSettings.setEnabled b a)
  = AudioSettings.with_global
      (AudioSettings.mkGlobal b
         (AudioSettings.masterVolume (AudioSettings.global (AudioSettings.settings a)))
         (AudioSettings.mute (AudioSettings.global (AudioSettings.settings a))))
      (AudioSettings.settings a).
Proof.
  unfold AudioSettings.setEnabled, AudioSettings.saveToStorage. cbn.
  destruct (AudioSettings.setItemThrows a); reflexivity.
Qed.

Lemma constructor_volumes_clamped (item : AudioSettings.StorageItem) (throws : bool) :
  AudioSettings.volumes_clamped (AudioSettings.constructor item throws).
Proof.
  split.
  - eexists. split; [reflexivity | lra].
  - intros c cs Hin. cbn in Hin.
    repeat (destruct Hin as [[= <- <-]|Hin];
            [eexists; split; [reflexivity | lra]|]).
    destruct Hin.
Qed.


(** [getVolume] on stored volumes of [0, 1]. *)
Lemma clamp_cases (n : JS.number) :
  AudioSettings.clamp n = JS.NaN \/
  exists q, AudioSettings.clamp n = JS.Finite q /\ (0 <= q <= 1)%Q.
Proof.
  destruct n as [| |q|]; [left; reflexivity| | |];
    right; apply clamp_range; discriminate.
Qed.

(** Whatever the settings hold, [getVolume] returns NaN or a number of
    [0, 1]. *)
Lemma getVolume_NaN_or_unit (category : option string) (a : AudioSettings.State) :
  AudioSettings.getVolume category a = JS.NaN \/
  exists q, AudioSettings.getVolume category a = JS.Finite q /\ (0 <= q <= 1)%Q.
Proof.
  assert (Hzero : exists q, JS.Finite 0 = JS.Finite q /\ (0 <= q <= 1)%Q)
    by (exists 0%Q; split; [reflexivity | lra]).
  unfold AudioSettings.getVolume.
  destruct (negb _ || _); [right; exact Hzero|]. cbv zeta.
  destruct category as [c|]; [|apply clamp_cases].
  destruct (String.eqb c ""); [apply clamp_cases|].
  destruct (AudioSettings.lookupCategory c _) as [cs| |];
    [|right; exact Hzero | apply clamp_cases].
  destruct (negb _); [right; exact Hzero | apply clamp_cases].
Qed.







(** ** The sound mapping system *)

Lemma firstMatch_skips (data : SoundMappingSystem.EventData)
      (l1 l2 : list (string * SoundMappingSystem.ConditionalMapping)) :
  Forall (SoundMappingSystem.skips data) l1 ->
  SoundMappingSystem.firstMatch data (l1 ++ l2) = SoundMappingSystem.firstMatch data l2.
Proof.
  induction 1 as [|[name m] l1 Hm Hl IH]; [reflexivity|].
  cbn [app SoundMappingSystem.firstMatch].
  unfold SoundMappingSystem.skips in Hm. cbn [snd] in Hm.
  destruct (SoundMappingSystem.condition m) as [|f|]; [exact IH| |contradiction].
  rewrite Hm. exact IH.
Qed.

(** The loop over the conditional mappings returns nothing when it steps
    over every mapping. *)
Lemma firstMatch_none (data : SoundMappingSystem.EventData)
      (l : list (string * SoundMappingSystem.ConditionalMapping)) :
  Forall (SoundMappingSystem.skips data) l ->
  SoundMappingSystem.firstMatch data l = JS.Return None.
Proof.
  intros H. rewrite <- (app_nil_r l). rewrite (firstMatch_skips data l [] H).
  reflexivity.
Qed.

(** The loop returns the sound of the first mapping that holds. *)
Lemma firstMatch_first (data : SoundMappingSystem.EventData)
      (l1 l2 : list (string * SoundMappingSystem.ConditionalMapping))
      (name : string) (m : SoundMappingSystem.ConditionalMapping) :
  Forall (SoundMappingSystem.skips data) l1 ->
  SoundMappingSystem.holds data m ->
  SoundMappingSystem.firstMatch data (l1 ++ (name, m) :: l2)
  = JS.Return (Some (SoundMappingSystem.sound m)).
Proof.
  intros Hl (f & Hf & Hd). rewrite (firstMatch_skips data l1 _ Hl).
  cbn. rewrite Hf, Hd. reflexivity.
Qed.

(** A mapping that holds is not stepped over. *)
Lemma holds_not_skips (data : SoundMappingSystem.EventData) (name : string)
      (m : SoundMappingSystem.ConditionalMapping) :
  SoundMappingSystem.holds data m -> ~ SoundMappingSystem.skips data (name, m).
Proof.
  intros (f & Hf & Hd). unfold SoundMappingSystem.skips. cbn [snd].
  rewrite Hf, Hd. discriminate.
Qed.

(** C10. In an initialized system, [getSoundForAction] returns the sound
    of the first conditional mapping, in registration order, whose
    condition holds on the data, provided the loop steps over every mapping
    before it (their conditions are absent, or functions that return a
    falsy value): this for every action, whatever the basic table holds for
    it, and whatever follows that mapping.  When the loop steps over every
    conditional mapping, the basic mapping of the action is returned, or
    [null] when there is none (or an empty one). *)
Theorem conditional_mappings_take_precedence
        (s : SoundMappingSystem.State) (action : string)
        (data : SoundMappingSystem.EventData) :
  SoundMappingSystem.isInitialized s = true ->
  (forall l1 name m l2,
      SoundMappingSystem.conditionalMappings s = l1 ++ (name, m) :: l2 ->
      Forall (SoundMappingSystem.skips data) l1 ->
      SoundMappingSystem.holds data m ->
      SoundMappingSystem.getSoundForAction action data s
      = JS.Return (Some (SoundMappingSystem.sound m))) /\
  (Forall (SoundMappingSystem.skips data) (SoundMappingSystem.conditionalMappings s) ->
   SoundMappingSystem.getSoundForAction action data s =
     JS.Return (match SoundMappingSystem.mappings s !! action with
                | Some name => if String.eqb name "" then None else Some name
                | None => None
                end)).
Proof.
  intros Hi. split.
  - intros l1 name m l2 Hl Hs Hh.
    unfold SoundMappingSystem.getSoundForAction.
    rewrite Hi, Hl, (firstMatch_first data l1 l2 name m Hs Hh). reflexivity.
  - intros Hs. unfold SoundMappingSystem.getSoundForAction.
    rewrite Hi, (firstMatch_none data _ Hs). cbn.
    destruct (SoundMappingSystem.mappings s !! action); reflexivity.
Qed.

Lemma conditional_mappings_take_precedence_witness :
  let s := fst (SoundMappingSystem.initialize (fun _ => JS.NetworkError)
                  SoundMappingSystem.NoConfig SoundMappingSystem.constructor) in
  let data := SoundMappingSystem.mkEventData None (Some 95%Q) None None in
  SoundMappingSystem.isInitialized s = true /\
  SoundMappingSystem.mappings s !! "button_click"%string = Some "click_sound"%string /\
  SoundMappingSystem.getSoundForAction "button_click" data s
  = JS.Return (Some "high_quality_sound"%string).
Proof.
  intros s data.
  assert (Hi : SoundMappingSystem.isInitialized s = true) by reflexivity.
  split; [exact Hi|]. split; [vm_compute; reflexivity|].
  refine (proj1 (conditional_mappings_take_precedence s "button_click" data Hi)
            [_; _] "high_quality"%string _ [_] eq_refl _ _).
  - repeat constructor.
  - eexists. split; reflexivity.
Defined.

(** C10, a mapping that holds and is not returned.  A conditional
    mapping registered on a system that [initialize] has not run on is not
    looked at: its condition holds on the data, and [getSoundForAction]
    returns [null].  In an initialized system, a mapping registered before
    it whose condition is a truthy value that is no function makes
    [getSoundForAction] throw. *)
Lemma conditional_mapping_not_returned :
  let always := SoundMappingSystem.Predicate (fun _ => JS.Return true) in
  let data := SoundMappingSystem.mkEventData None None None None in
  let s := SoundMappingSystem.addConditionalMapping "always" always "ding"
             SoundMappingSystem.constructor in
  let s' := SoundMappingSystem.addConditionalMapping "always" always "ding"
              (SoundMappingSystem.addConditionalMapping "broken"
                 SoundMappingSystem.NotCallable "buzz"
                 (fst (SoundMappingSystem.initialize (fun _ => JS.NetworkError)
                         SoundMappingSystem.NoConfig SoundMappingSystem.constructor))) in
  SoundMappingSystem.holds data (SoundMappingSystem.mkConditional always "ding") /\
  SoundMappingSystem.conditionalMappings s
  = [("always"%string, SoundMappingSystem.mkConditional always "ding")] /\
  SoundMappingSystem.getSoundForAction "button_click" data s = JS.Return None /\
  SoundMappingSystem.isInitialized s' = true /\
  In ("always"%string, SoundMappingSystem.mkConditional always "ding")
     (SoundMappingSystem.conditionalMappings s') /\
  SoundMappingSystem.getSoundForAction "button_click" data s'
  = JS.Throw "TypeError: mapping.condition is not a function".
Proof.
  intros always data s s'.
  split; [exists (fun _ => JS.Return true); split; reflexivity|].
  split; [reflexivity|]. split; [reflexivity|]. split; [reflexivity|].
  split; [|reflexivity].
  cbn. repeat (first [left; reflexivity | right]).
Qed.



(** ** The sound factory *)

Section Factory.

Variable JSON_stringify : option JS.json -> string.
Variable fetchAudio : string -> JS.FetchResult SoundFactory.AudioBuffer.

Let generateSound := SoundFactory.generateSound JSON_stringify fetchAudio.

Lemma generateSound_missing soundName o s ctx :
  SoundFactory.isInitialized s = true ->
  SoundFactory.audioContext s = Some ctx ->
  SoundFactory.implementations s !! soundName = None ->
  generateSound soundName o s = JS.Return (SoundFactory.silentSource (SoundFactory.sampleRate ctx)).
Proof.
  intros Hi Hc Hm. unfold generateSound, SoundFactory.generateSound.
  rewrite Hi, Hm. cbn. unfold SoundFactory.generateSilentSound. rewrite Hc.
  reflexivity.
Qed.

Lemma generateSound_unsupported_type soundName o s impl ty :
  SoundFactory.isInitialized s = true ->
  SoundFactory.implementations s !! soundName = Some impl ->
  SoundFactory.audioBufferPool s
    !! SoundFactory.getCacheKey JSON_stringify soundName (SoundFactory.params impl) = None ->
  SoundFactory.type impl = Some ty ->
  SoundFactory.supportedType ty = false ->
  generateSound soundName o s = JS.Throw ("不支持的音效类型: " ++ ty).
Proof.
  intros Hi Hm Hp Ht Hs. unfold generateSound, SoundFactory.generateSound.
  rewrite Hi, Hm. cbn. rewrite Hp, Ht.
  unfold SoundFactory.supportedType in Hs.
  apply orb_false_elim in Hs as [Hs H4].
  apply orb_false_elim in Hs as [Hs H3].
  apply orb_false_elim in Hs as [H1 H2].
  rewrite H1, H2, H3, H4. reflexivity.
Qed.

Lemma generateSound_unsupported_generator soundName o s impl g :
  SoundFactory.isInitialized s = true ->
  SoundFactory.implementations s !! soundName = Some impl ->
  SoundFactory.audioBufferPool s
    !! SoundFactory.getCacheKey JSON_stringify soundName (SoundFactory.params impl) = None ->
  SoundFactory.type impl = Some "web_audio"%string ->
  SoundFactory.generator impl = Some g ->
  SoundFactory.supportedGenerator g = false ->
  generateSound soundName o s = JS.Throw ("不支持的生成器: " ++ g).
Proof.
  intros Hi Hm Hp Ht Hg Hs. unfold generateSound, SoundFactory.generateSound.
  rewrite Hi, Hm. cbn. rewrite Hp, Ht. cbn.
  unfold SoundFactory.generateWebAudio. rewrite Hg. cbv zeta.
  unfold SoundFactory.supportedGenerator in Hs. cbn in Hs.
  repeat (apply orb_false_elim in Hs as [E Hs]; rewrite E; clear E).
  reflexivity.
Qed.

Lemma generateSound_file_failure soundName o s impl ctx :
  SoundFactory.isInitialized s = true ->
  SoundFactory.audioContext s = Some ctx ->
  SoundFactory.implementations s !! soundName = Some impl ->
  SoundFactory.type impl = Some "file"%string ->
  SoundFactory.audioBufferPool s
    !! SoundFactory.getCacheKey JSON_stringify soundName (SoundFactory.params impl) = None ->
  SoundFactory.audioBufferPool s
    !! SoundFactory.getCacheKey JSON_stringify (SoundFactory.implName impl)
         (SoundFactory.params impl) = None ->
  JS.failed (fetchAudio (SoundFactory.fullPath impl)) ->
  generateSound soundName o s = JS.Return (SoundFactory.silentSource (SoundFactory.sampleRate ctx)).
Proof.
  intros Hi Hc Hm Ht Hp1 Hp2 Hf. unfold generateSound, SoundFactory.generateSound.
  rewrite Hi, Hm. cbn [negb]. cbv zeta. rewrite Hp1, Ht.
  change (String.eqb "file" "web_audio") with false.
  change (String.eqb "file" "file") with true. cbv iota.
  unfold SoundFactory.generateFromFile. cbv zeta.
  change (SoundFactory.audioBufferPool s !! _)
    with (SoundFactory.audioBufferPool s
            !! SoundFactory.getCacheKey JSON_stringify (SoundFactory.implName impl)
                 (SoundFactory.params impl)).
  rewrite Hp2.
  change (fetchAudio _) with (fetchAudio (SoundFactory.fullPath impl)).
  destruct (fetchAudio (SoundFactory.fullPath impl)); try contradiction;
    unfold SoundFactory.generateSilentSound; rewrite Hc; reflexivity.
Qed.

(** With an audio context, [generateFromFile] returns a node whatever
    happens. *)
Lemma generateFromFile_returns impl o s ctx :
  SoundFactory.audioContext s = Some ctx ->
  exists src,
    SoundFactory.generateFromFile JSON_stringify fetchAudio impl o s = JS.Return src.
Proof.
  intros Hc. unfold SoundFactory.generateFromFile. cbv zeta.
  destruct (SoundFactory.audioBufferPool s !! _).
  - rewrite Hc. eexists. reflexivity.
  - destruct (fetchAudio _); try rewrite Hc;
      unfold SoundFactory.generateSilentSound; rewrite ?Hc; eexists; reflexivity.
Qed.

End Factory.

(** C2. What the four failures come to.
    - A sound name without implementation: a silent buffer source.
    - An audio file that cannot be fetched or decoded: [generateSound]
      never throws for an implementation of type ['file'], and returns the
      silent buffer source when the file is in the pool under neither of the
      two keys it is looked up with.
    - An implementation type, or a web-audio generator, that the factory
      has no case for: [generateSound] throws; the call of [playSound] that
      waits on it catches the error, tracks nothing and returns [false].
    - A configuration file that cannot be loaded: the factory loads its
      default implementations; the mapping system does not fall back, its
      [initialize] returns [false] and leaves it as it was.
    - A suspended audio context that cannot be resumed: [playSound] waits
      on [unlockAudioContext] and then returns [false]; nothing is generated
      or tracked. *)
Theorem generateSound_failure_handling
        (JSON_stringify : option JS.json -> string)
        (fetchAudio : string -> JS.FetchResult SoundFactory.AudioBuffer)
        (fetchI : string -> JS.FetchResult SoundFactory.ImplementationsFile)
        (fetchM : string -> JS.FetchResult SoundMappingSystem.MappingsFile)
        (soundName : string) (o : SoundFactory.Options)
        (s : SoundFactory.State) (ctx : SoundFactory.AudioContext) :
  SoundFactory.isInitialized s = true ->
  SoundFactory.audioContext s = Some ctx ->
  let result := SoundFactory.generateSound JSON_stringify fetchAudio soundName o s in
  let key name impl :=
    SoundFactory.getCacheKey JSON_stringify name (SoundFactory.params impl) in
  (SoundFactory.implementations s !! soundName = None ->
   result = JS.Return (SoundFactory.silentSource (SoundFactory.sampleRate ctx))) /\
  (forall impl,
      SoundFactory.implementations s !! soundName = Some impl ->
      SoundFactory.type impl = Some "file"%string ->
      (exists src, result = JS.Return src) /\
      (SoundFactory.audioBufferPool s !! key soundName impl = None ->
       SoundFactory.audioBufferPool s !! key (SoundFactory.implName impl) impl = None ->
       JS.failed (fetchAudio (SoundFactory.fullPath impl)) ->
       result = JS.Return (SoundFactory.silentSource (SoundFactory.sampleRate ctx)))) /\
  (forall impl ty,
      SoundFactory.implementations s !! soundName = Some impl ->
      SoundFactory.audioBufferPool s !! key soundName impl = None ->
      SoundFactory.type impl = Some ty -> SoundFactory.supportedType ty = false ->
      result = JS.Throw ("不支持的音效类型: " ++ ty)) /\
  (forall impl g,
      SoundFactory.implementations s !! soundName = Some impl ->
      SoundFactory.audioBufferPool s !! key soundName impl = None ->
      SoundFactory.type impl = Some "web_audio"%string ->
      SoundFactory.generator impl = Some g -> SoundFactory.supportedGenerator g = false ->
      result = JS.Throw ("不支持的生成器: " ++ g)) /\
  (forall name vol msg ok sys,
      AudioSystem.continue JSON_stringify fetchAudio
        (AudioSystem.AfterGenerate name vol (JS.Throw msg)) ok sys
      = (sys, Some false)) /\
  (forall path f m,
      JS.failed (fetchI path) -> JS.failed (fetchM path) ->
      SoundFactory.loadConfigFromFile fetchI path f = SoundFactory.loadDefaultConfig f /\
      SoundMappingSystem.initialize fetchM (SoundMappingSystem.ConfigPath path) m
      = (m, false)) /\
  (forall name sys,
      AudioSystem.isInitialized sys = true ->
      AudioSystem.audioContext sys = Some AudioSystem.suspended ->
      let waiting :=
        AudioSystem.with_pending
          (AudioSystem.pending sys ++ [AudioSystem.AfterUnlock name o]) sys in
      AudioSystem.playSound JSON_stringify fetchAudio name o sys = (waiting, None) /\
      AudioSystem.continue JSON_stringify fetchAudio
        (AudioSystem.AfterUnlock name o) false sys
      = (sys, Some false)).
Proof.
  intros Hi Hc result key. subst result key.
  split; [|split; [|split; [|split; [|split; [|split]]]]].
  - intros Hm. eapply generateSound_missing; eassumption.
  - intros impl Hm Ht. split.
    + unfold SoundFactory.generateSound. rewrite Hi, Hm. cbn [negb]. cbv zeta.
      destruct (SoundFactory.audioBufferPool s !! _).
      * unfold SoundFactory.createSourceFromBuffer. rewrite Hc. eexists. reflexivity.
      * rewrite Ht. change (String.eqb "file" "web_audio") with false.
        change (String.eqb "file" "file") with true. cbv iota.
        eapply generateFromFile_returns, Hc.
    + intros Hp1 Hp2 Hf. eapply generateSound_file_failure; eassumption.
  - intros impl ty Hm Hp Ht Hs. eapply generateSound_unsupported_type; eassumption.
  - intros impl g Hm Hp Ht Hg Hs.
    eapply generateSound_unsupported_generator; eassumption.
  - reflexivity.
  - intros path f m HI HM. split.
    + unfold SoundFactory.loadConfigFromFile.
      destruct (fetchI path); try reflexivity. contradiction.
    + unfold SoundMappingSystem.initialize, SoundMappingSystem.loadConfigFromFile.
      destruct (fetchM path); try reflexivity. contradiction.
  - intros name sys Hsi Hsc waiting. subst waiting. split.
    + unfold AudioSystem.playSound. rewrite Hsi, Hsc. reflexivity.
    + cbn. rewrite Hsc. reflexivity.
Qed.

Lemma generateSound_failure_handling_witness :
  let s := Desktop.factory SoundFactory.NoConfig in
  SoundFactory.isInitialized s = true /\
  SoundFactory.audioContext s = Some (SoundFactory.mkContext 44100) /\
  Desktop.generateSound "no_such_sound" (SoundFactory.mkOptions None) s
  = JS.Return (SoundFactory.silentSource 44100).
Proof.
  intros s.
  assert (Hi : SoundFactory.isInitialized s = true) by reflexivity.
  assert (Hc : SoundFactory.audioContext s = Some (SoundFactory.mkContext 44100))
    by reflexivity.
  split; [exact Hi|]. split; [exact Hc|].
  refine (proj1 (generateSound_failure_handling Desktop.JSON_stringify
                   Desktop.fetchAudio Desktop.fetchImplementations
                   Desktop.fetchMappings "no_such_sound"
                   (SoundFactory.mkOptions None)
                   s (SoundFactory.mkContext 44100) Hi Hc) _).
  vm_compute. reflexivity.
Defined.

(** [generateSound] throws for an implementation of type ['midi'] and for a
    web-audio implementation with the generator ['theremin']. *)
Lemma generateSound_throws_when_unsupported :
  let impl ty g :=
    SoundFactory.mkImplementation (Some ty) g None None None None None false in
  let s := Desktop.factory
             (SoundFactory.ConfigObject
                (SoundFactory.mkConfig
                   (Some [("beep"%string, impl "midi"%string None);
                          ("whirr"%string, impl "web_audio"%string
                                                (Some "theremin"%string))]))) in
  Desktop.generateSound "beep" (SoundFactory.mkOptions None) s
  = JS.Throw "不支持的音效类型: midi" /\
  Desktop.generateSound "whirr" (SoundFactory.mkOptions None) s
  = JS.Throw "不支持的生成器: theremin".
Proof. split; vm_compute; reflexivity. Qed.

(** C3. When the fetch or the parse of a configuration file fails,
    [SoundFactory.initialize] loads the default implementations, marks the
    factory initialized and returns [true]; [SoundMappingSystem.initialize]
    returns [false] and leaves the system as it was: not marked
    initialized, with the mappings it had.  Neither lets the error out. *)
Theorem initialize_on_failed_config
        (fetchI : string -> JS.FetchResult SoundFactory.ImplementationsFile)
        (fetchM : string -> JS.FetchResult SoundMappingSystem.MappingsFile)
        (pathI pathM : string)
        (sf : SoundFactory.State) (sm : SoundMappingSystem.State) :
  JS.failed (fetchI pathI) -> JS.failed (fetchM pathM) ->
  SoundFactory.initialize fetchI (SoundFactory.ConfigPath pathI) sf
  = (SoundFactory.mkState (SoundFactory.audioContext sf)
       (SoundFactory.implementations (SoundFactory.loadDefaultConfig sf))
       (SoundFactory.audioBufferPool sf) true, true) /\
  SoundMappingSystem.initialize fetchM (SoundMappingSystem.ConfigPath pathM) sm
  = (sm, false).
Proof.
  intros HI HM. split.
  - unfold SoundFactory.initialize. destruct (String.eqb pathI ""); [reflexivity|].
    unfold SoundFactory.loadConfigFromFile.
    destruct (fetchI pathI); try reflexivity. contradiction.
  - unfold SoundMappingSystem.initialize, SoundMappingSystem.loadConfigFromFile.
    destruct (fetchM pathM); try reflexivity. contradiction.
Qed.

Lemma initialize_on_failed_config_witness :
  JS.failed (Desktop.fetchImplementations "./js/audio/config/sound-implementations.json") /\
  JS.failed (Desktop.fetchMappings "./js/audio/config/sound-mappings.json") /\
  snd (SoundMappingSystem.initialize Desktop.fetchMappings
         (SoundMappingSystem.ConfigPath "./js/audio/config/sound-mappings.json")
         SoundMappingSystem.constructor) = false.
Proof.
  split; [exact I|]. split; [exact I|].
  exact (f_equal snd
           (proj2 (initialize_on_failed_config Desktop.fetchImplementations
                     Desktop.fetchMappings
                     "./js/audio/config/sound-implementations.json"
                     "./js/audio/config/sound-mappings.json"
                     (SoundFactory.constructor None)
                     SoundMappingSystem.constructor I I))).
Defined.

(** After a failed load the mapping system is not initialized and knows no
    mapping, where the default configuration maps ['button_click']. *)
Lemma mapping_initialize_without_defaults :
  let r := SoundMappingSystem.initialize Desktop.fetchMappings
             (SoundMappingSystem.ConfigPath "./js/audio/config/sound-mappings.json")
             SoundMappingSystem.constructor in
  snd r = false /\
  SoundMappingSystem.isInitialized (fst r) = false /\
  SoundMappingSystem.mappings (fst r) !! "button_click"%string = None /\
  SoundMappingSystem.mappings
    (SoundMappingSystem.loadDefaultConfig SoundMappingSystem.constructor)
    !! "button_click"%string = Some "click_sound"%string.
Proof. repeat split; vm_compute; reflexivity. Qed.



(** ** The audio system *)

Lemma same_tracking_refl s : AudioSystem.same_tracking s s.
Proof. repeat split. intros id n Hn. exists n. split; [exact Hn | reflexivity]. Qed.

Lemma same_tracking_trans s1 s2 s3 :
  AudioSystem.same_tracking s1 s2 -> AudioSystem.same_tracking s2 s3 -> AudioSystem.same_tracking s1 s3.
Proof.
  intros (Ha & Ht & Hc & Hm & Hl & Hn) (Ha' & Ht' & Hc' & Hm' & Hl' & Hn').
  repeat split; try congruence.
  intros id n H. destruct (Hn id n H) as (n' & H' & E').
  destruct (Hn' id n' H') as (n'' & H'' & E''). exists n''. split; congruence.
Qed.

Lemma same_tracking_eq s s' :
  AudioSystem.activeSounds s' = AudioSystem.activeSounds s ->
  AudioSystem.timers s' = AudioSystem.timers s ->
  AudioSystem.clock s' = AudioSystem.clock s ->
  AudioSystem.maxConcurrentSounds s' = AudioSystem.maxConcurrentSounds s ->
  AudioSystem.nodes s' = AudioSystem.nodes s ->
  AudioSystem.same_tracking s s'.
Proof.
  intros Ha Ht Hc Hm Hn. repeat split; try congruence.
  intros id n H. exists n. rewrite Hn. split; [exact H | reflexivity].
Qed.

Lemma timers_cover_same_tracking s s' :
  AudioSystem.same_tracking s s' -> AudioSystem.timers_cover s -> AudioSystem.timers_cover s'.
Proof.
  intros (Ha & Ht & Hc & _ & _ & Hn) [H1 H2]. split.
  - intros id Hid. rewrite Ha in Hid. destruct (H1 id Hid) as (n & Hl & Hin).
    destruct (Hn id n Hl) as (n' & Hl' & E). exists n'.
    split; [exact Hl'|]. rewrite E, Ht. exact Hin.
  - intros due id Hd. rewrite Ht in Hd. destruct (H2 due id Hd) as (n & Hl & E).
    destruct (Hn id n Hl) as (n' & Hl' & E'). exists n'.
    split; [exact Hl' | congruence].
Qed.

Lemma stopNode_same_tracking id s : AudioSystem.same_tracking s (AudioSystem.stopNode id s).
Proof.
  repeat split.
  - cbn. apply length_alter.
  - intros j n Hn. cbn. destruct (decide (id = j)) as [->|Hne].
    + rewrite list_lookup_alter_eq, Hn. cbn. eexists. split; reflexivity.
    + rewrite list_lookup_alter_ne by assumption. exists n. split; [exact Hn|reflexivity].
Qed.

Lemma fold_stopNode_same_tracking ids s :
  AudioSystem.same_tracking s (fold_right AudioSystem.stopNode s ids).
Proof.
  induction ids as [|id ids IH]; cbn; [apply same_tracking_refl|].
  eapply same_tracking_trans; [exact IH | apply stopNode_same_tracking].
Qed.

Lemma handleVolumeChange_same_tracking s :
  AudioSystem.same_tracking s (AudioSystem.handleVolumeChange s).
Proof.
  unfold AudioSystem.handleVolumeChange.
  destruct (AudioSettings.getVolume (Some (AudioSystem.getSoundCategory "unknown"))
              (AudioSystem.audioSettings s)) as [| |vol|];
    try apply same_tracking_refl.
  induction (elements (AudioSystem.activeSounds s)) as [|id ids IH]; cbn;
    [apply same_tracking_refl|].
  eapply same_tracking_trans; [exact IH|].
  repeat split.
  - cbn. apply length_alter.
  - intros j n Hn. cbn. destruct (decide (id = j)) as [->|Hne].
    + rewrite list_lookup_alter_eq, Hn. cbn. eexists. split; [reflexivity|].
      destruct (AudioSystem.gainNode n); reflexivity.
    + rewrite list_lookup_alter_ne by assumption. exists n. split; [exact Hn|reflexivity].
Qed.

Section Browser.

Variable JSON_stringify : option JS.json -> string.
Variable fetchAudio : string -> JS.FetchResult SoundFactory.AudioBuffer.

Lemma playSound_generate_same_tracking soundName o s :
  AudioSystem.same_tracking s (fst (AudioSystem.playSound_generate JSON_stringify fetchAudio
                          soundName o s)).
Proof.
  unfold AudioSystem.playSound_generate.
  destruct (AudioSystem.audioContext s); [|apply same_tracking_refl].
  destruct (JS.Number_leb _ _); [apply same_tracking_refl|].
  destruct (AudioSystem.soundFactory s); apply same_tracking_eq; reflexivity.
Qed.

Lemma playSound_same_tracking soundName o s :
  AudioSystem.same_tracking s (fst (AudioSystem.playSound JSON_stringify fetchAudio soundName o s)).
Proof.
  unfold AudioSystem.playSound.
  destruct (negb _); [apply same_tracking_refl|].
  destruct (AudioSystem.audioContext s) as [[]|] eqn:E;
    try (apply same_tracking_eq; reflexivity);
    apply playSound_generate_same_tracking.
Qed.

Lemma handleAudioEvent_same_tracking eventType data s :
  AudioSystem.same_tracking s (AudioSystem.handleAudioEvent JSON_stringify fetchAudio
                     eventType data s).
Proof.
  unfold AudioSystem.handleAudioEvent.
  destruct (negb (AudioSystem.isInitialized s)); [apply same_tracking_refl|].
  destruct (negb (JS.Number_truthy _)); [apply same_tracking_refl|].
  destruct (AudioSystem.soundMapping s) as [m|]; [|apply same_tracking_refl].
  destruct (SoundMappingSystem.getSoundForAction eventType data m) as [[name|]|];
    try apply same_tracking_refl.
  destruct (String.eqb name ""); [apply same_tracking_refl|].
  destruct (_ <=? _)%nat; [apply same_tracking_refl|].
  apply playSound_same_tracking.
Qed.


Lemma trackActiveSound_timers_cover src vol s :
  AudioSystem.active_in_store s ->
  AudioSystem.timers_cover s ->
  AudioSystem.timers_cover (AudioSystem.trackActiveSound src vol s).
Proof.
  intros Hs [H1 H2]. split.
  - intros id. cbn. rewrite elem_of_union, elem_of_singleton.
    intros [->|Hid].
    + eexists. split.
      * rewrite lookup_app_r by lia. rewrite Nat.sub_diag. reflexivity.
      * cbn. apply elem_of_app. right. apply list_elem_of_singleton. reflexivity.
    + destruct (H1 id Hid) as (n & Hl & Hin). exists n. split.
      * rewrite lookup_app_l by (apply Hs, Hid). exact Hl.
      * apply elem_of_app. left. exact Hin.
  - intros due id. cbn. rewrite elem_of_app, list_elem_of_singleton.
    intros [Hd|[= -> ->]].
    + destruct (H2 due id Hd) as (n & Hl & E). exists n. split; [|exact E].
      rewrite lookup_app_l; [exact Hl|]. apply lookup_lt_Some in Hl. exact Hl.
    + eexists. split.
      * rewrite lookup_app_r by lia. rewrite Nat.sub_diag. reflexivity.
      * reflexivity.
Qed.

Lemma trackActiveSound_active_in_store src vol s :
  AudioSystem.active_in_store s ->
  AudioSystem.active_in_store (AudioSystem.trackActiveSound src vol s).
Proof.
  intros Hs id. cbn. rewrite elem_of_union, elem_of_singleton, length_app. cbn.
  intros [->|Hid]; [lia|]. specialize (Hs id Hid). lia.
Qed.

Lemma active_in_store_same_tracking s s' :
  AudioSystem.same_tracking s s' -> AudioSystem.active_in_store s -> AudioSystem.active_in_store s'.
Proof.
  intros (Ha & _ & _ & _ & Hl & _) Hs id Hid. rewrite Ha in Hid. rewrite Hl.
  apply Hs, Hid.
Qed.

(** Dropping nodes from the active set keeps both invariants. *)
Lemma timers_cover_shrink s a :
  a ⊆ AudioSystem.activeSounds s ->
  AudioSystem.timers_cover s ->
  AudioSystem.timers_cover (AudioSystem.with_activeSounds a s).
Proof.
  intros Hsub [H1 H2]. split; [|exact H2].
  intros id Hid. apply H1, Hsub, Hid.
Qed.

Lemma active_in_store_shrink s a :
  a ⊆ AudioSystem.activeSounds s ->
  AudioSystem.active_in_store s ->
  AudioSystem.active_in_store (AudioSystem.with_activeSounds a s).
Proof. intros Hsub Hs id Hid. apply Hs, Hsub, Hid. Qed.

(** The timeout callback of a node leaves it inactive, and leaves the
    other nodes as they were. *)
Lemma trackTimeout_active id s :
  AudioSystem.activeSounds (AudioSystem.trackTimeout id s)
  = AudioSystem.activeSounds s ∖ {[id]}.
Proof.
  unfold AudioSystem.trackTimeout. case_decide; cbn; [reflexivity|].
  apply set_eq. intros x. rewrite elem_of_difference, elem_of_singleton.
  split; [|tauto]. intros Hx. split; [exact Hx | congruence].
Qed.

Lemma trackTimeout_same_elsewhere id s :
  AudioSystem.same_tracking (AudioSystem.with_activeSounds (AudioSystem.activeSounds s ∖ {[id]}) s)
                (AudioSystem.trackTimeout id s).
Proof.
  unfold AudioSystem.trackTimeout. case_decide.
  - apply stopNode_same_tracking.
  - apply same_tracking_eq; try reflexivity. cbn.
    apply set_eq. intros x. rewrite elem_of_difference, elem_of_singleton.
    split; [|tauto]. intros Hx. split; [exact Hx | congruence].
Qed.

Lemma tracked_well_same_tracking s s' :
  AudioSystem.same_tracking s s' -> AudioSystem.tracked_well s -> AudioSystem.tracked_well s'.
Proof.
  intros H [H1 H2]. split;
    [eapply timers_cover_same_tracking | eapply active_in_store_same_tracking]; eauto.
Qed.

Lemma advance_tracked_well t s :
  AudioSystem.tracked_well s -> AudioSystem.tracked_well (AudioSystem.advance t s).
Proof.
  intros Hw. unfold AudioSystem.advance.
  destruct (t <? AudioSystem.clock s); exact Hw.
Qed.

(** Dropping a timer whose node is not active keeps the invariants. *)
Lemma timeout_tracked_well s :
  AudioSystem.tracked_well s -> AudioSystem.tracked_well (AudioSystem.timeout s).
Proof.
  intros Hw. unfold AudioSystem.timeout.
  destruct (AudioSystem.timers s) as [|[due id] rest] eqn:Et; [exact Hw|].
  destruct (due <=? AudioSystem.clock s); [|exact Hw].
  destruct Hw as [[H1 H2] H3].
  set (s1 := AudioSystem.with_activeSounds (AudioSystem.activeSounds s ∖ {[id]})
               (AudioSystem.with_timers rest s)).
  assert (Hw1 : AudioSystem.tracked_well s1).
  { split; [split|].
    - intros j. cbn. rewrite elem_of_difference, elem_of_singleton.
      intros [Hj Hne]. destruct (H1 j Hj) as (n & Hl & Hin).
      exists n. split; [exact Hl|]. rewrite Et in Hin.
      apply elem_of_cons in Hin as [[= _ E]|Hin]; [congruence | exact Hin].
    - intros due' j. cbn. intros Hin. apply (H2 due' j). rewrite Et.
      apply elem_of_cons. right. exact Hin.
    - intros j. cbn. rewrite elem_of_difference. intros [Hj _]. apply H3, Hj. }
  eapply tracked_well_same_tracking; [|exact Hw1].
  pose proof (trackTimeout_same_elsewhere id (AudioSystem.with_timers rest s)) as H.
  exact H.
Qed.

Lemma timeout_active_subset s :
  AudioSystem.activeSounds (AudioSystem.timeout s) ⊆ AudioSystem.activeSounds s.
Proof.
  unfold AudioSystem.timeout.
  destruct (AudioSystem.timers s) as [|[due id] rest]; [reflexivity|].
  destruct (due <=? AudioSystem.clock s); [|reflexivity].
  rewrite trackTimeout_active. cbn. set_solver.
Qed.

Lemma stopAllSounds_active s :
  AudioSystem.activeSounds (AudioSystem.stopAllSounds s) = ∅.
Proof. reflexivity. Qed.

Lemma stopAllSounds_timers_cover s :
  AudioSystem.timers_cover s -> AudioSystem.timers_cover (AudioSystem.stopAllSounds s).
Proof.
  intros H. unfold AudioSystem.stopAllSounds.
  apply timers_cover_shrink; [set_solver|].
  eapply timers_cover_same_tracking; [apply fold_stopNode_same_tracking | exact H].
Qed.

Lemma stopAllSounds_active_in_store s :
  AudioSystem.active_in_store (AudioSystem.stopAllSounds s).
Proof. intros id. cbn. set_solver. Qed.

Lemma continue_tracked_well c ok s :
  AudioSystem.tracked_well s ->
  AudioSystem.tracked_well (fst (AudioSystem.continue JSON_stringify fetchAudio c ok s)).
Proof.
  intros Hw. destruct c as [name o|name vol [src|msg]]; unfold AudioSystem.continue.
  - destruct (AudioSystem.audioContext s); [|exact Hw].
    destruct ok; [|exact Hw].
    eapply tracked_well_same_tracking; [|exact Hw].
    apply (same_tracking_trans _
             (AudioSystem.with_audioContext (Some AudioSystem.running) s));
      [apply same_tracking_eq; reflexivity
      |apply playSound_generate_same_tracking].
  - destruct (AudioSystem.audioContext s); [|exact Hw].
    destruct vol as [| |vol|]; try exact Hw.
    destruct Hw as [H1 H2]. split;
      [apply trackActiveSound_timers_cover | apply trackActiveSound_active_in_store];
      assumption.
  - destruct (AudioSystem.audioContext s); [destruct vol|]; exact Hw.
Qed.

Lemma step_tracked_well l s :
  AudioSystem.tracked_well s -> AudioSystem.tracked_well (AudioSystem.step JSON_stringify fetchAudio l s).
Proof.
  intros Hw. destruct l as [e d|name o|k ok|id|t| | |b| | |ok| |]; cbn.
  - eapply tracked_well_same_tracking; [apply handleAudioEvent_same_tracking | exact Hw].
  - eapply tracked_well_same_tracking; [apply playSound_same_tracking | exact Hw].
  - destruct (AudioSystem.pending s !! k) as [c|]; [|exact Hw].
    apply continue_tracked_well.
    eapply tracked_well_same_tracking; [|exact Hw].
    apply same_tracking_eq; reflexivity.
  - destruct Hw as [H1 H2]. split;
      [apply timers_cover_shrink | apply active_in_store_shrink];
      try assumption; set_solver.
  - apply advance_tracked_well, Hw.
  - apply timeout_tracked_well, Hw.
  - eapply tracked_well_same_tracking; [apply handleVolumeChange_same_tracking | exact Hw].
  - destruct b; [exact Hw|]. destruct Hw as [H1 H2]. split;
      [apply stopAllSounds_timers_cover, H1 | apply stopAllSounds_active_in_store].
  - destruct Hw as [H1 H2]. split;
      [apply stopAllSounds_timers_cover, H1 | apply stopAllSounds_active_in_store].
  - destruct Hw as [H1 H2].
    apply (tracked_well_same_tracking (AudioSystem.stopAllSounds s)).
    + unfold AudioSystem.destroy.
      destruct (AudioSystem.audioContext (AudioSystem.stopAllSounds s));
        apply same_tracking_eq; reflexivity.
    + split; [apply stopAllSounds_timers_cover, H1 | apply stopAllSounds_active_in_store].
  - eapply tracked_well_same_tracking; [|exact Hw].
    unfold AudioSystem.destroy_closed.
    destruct (AudioSystem.closing s); [apply same_tracking_refl|].
    destruct ok; apply same_tracking_eq; reflexivity.
  - destruct (AudioSystem.audioContext s) as [[]|]; exact Hw.
  - destruct (AudioSystem.audioContext s) as [[]|]; exact Hw.
Qed.

Lemma run_tracked_well ls :
  forall s, AudioSystem.tracked_well s ->
            AudioSystem.tracked_well (AudioSystem.run JSON_stringify fetchAudio ls s).
Proof.
  induction ls as [|l ls IH]; intros s Hw; [exact Hw|].
  cbn. apply IH, step_tracked_well, Hw.
Qed.

Lemma constructor_tracked_well settings t :
  AudioSystem.tracked_well (AudioSystem.constructor settings t).
Proof.
  split; [split|]; cbn.
  - intros x Hx. exfalso. set_solver.
  - intros due id Hx. exfalso. apply not_elem_of_nil in Hx. exact Hx.
  - intros x Hx. exfalso. set_solver.
Qed.

End Browser.

Lemma desktop_system_idle :
  AudioSystem.activeSounds Desktop.system = ∅ /\
  AudioSystem.timers Desktop.system = [] /\
  AudioSystem.nodes Desktop.system = [].
Proof. repeat split; vm_compute; reflexivity. Qed.

Lemma desktop_system_tracked_well : AudioSystem.tracked_well Desktop.system.
Proof.
  destruct desktop_system_idle as (Ha & Ht & Hn).
  split; [split|].
  - intros x. rewrite Ha. intros Hx. exfalso. apply not_elem_of_empty in Hx. exact Hx.
  - intros due id. rewrite Ht. intros Hx. exfalso. apply not_elem_of_nil in Hx. exact Hx.
  - intros x. rewrite Ha. intros Hx. exfalso. apply not_elem_of_empty in Hx. exact Hx.
Qed.

(** C4. Whatever the event loop does (audio events, direct calls of
    [playSound], suspended calls going on, nodes ending, time passing, the
    browser running a timer, volume and switch changes, [stopAllSounds],
    [destroy]): a node in [activeSounds] has its timer set, 10000 ms after
    the time at which [trackActiveSound] admitted it, and nothing cancels
    that timer while the node is active.  The node leaves [activeSounds]
    when its [ended] handler runs or when the callback of that timer runs,
    which deletes it and stops it.  The browser runs the callback no earlier
    than the timer is due: a node that has not ended stays active until
    then, and whenever no timer that is due is waiting, every active node
    was tracked less than 10000 ms ago. *)
Theorem active_sound_evicted_by_timeout
        (JSON_stringify : option JS.json -> string)
        (fetchAudio : string -> JS.FetchResult SoundFactory.AudioBuffer)
        (ls : list AudioSystem.Label) (s0 : AudioSystem.State) :
  AudioSystem.timers_cover s0 -> AudioSystem.active_in_store s0 ->
  let s := AudioSystem.run JSON_stringify fetchAudio ls s0 in
  (forall id, id ∈ AudioSystem.activeSounds s ->
              exists n, AudioSystem.nodes s !! id = Some n /\
                        (AudioSystem.tracked_at n + 10000, id) ∈ AudioSystem.timers s) /\
  (AudioSystem.timers_prompt s ->
   forall id n, AudioSystem.nodes s !! id = Some n ->
                AudioSystem.tracked_at n + 10000 <= AudioSystem.clock s ->
                id ∉ AudioSystem.activeSounds s) /\
  (forall id, id ∉ AudioSystem.activeSounds (AudioSystem.onended id s)) /\
  (forall due id rest,
      AudioSystem.timers s = (due, id) :: rest ->
      (exists n, AudioSystem.nodes s !! id = Some n /\
                 due = AudioSystem.tracked_at n + 10000) /\
      (AudioSystem.clock s < due -> AudioSystem.timeout s = s) /\
      (due <= AudioSystem.clock s ->
       let s' := AudioSystem.timeout s in
       (id ∉ AudioSystem.activeSounds s') /\
       AudioSystem.timers s' = rest /\
       (id ∈ AudioSystem.activeSounds s ->
        exists n, AudioSystem.nodes s' !! id = Some n /\
                  AudioSystem.stopped n = true))) /\
  (forall src vol,
      let s' := AudioSystem.trackActiveSound src vol s in
      let id := List.length (AudioSystem.nodes s) in
      id ∈ AudioSystem.activeSounds s' /\
      (AudioSystem.clock s + 10000, id) ∈ AudioSystem.timers s' /\
      exists n, AudioSystem.nodes s' !! id = Some n /\
                AudioSystem.tracked_at n = AudioSystem.clock s).
Proof.
  intros Hc Hs s.
  destruct (run_tracked_well JSON_stringify fetchAudio ls s0 (conj Hc Hs)) as [[H1 H2] H3].
  fold s in H1, H2, H3.
  split; [|split; [|split; [|split]]].
  - exact H1.
  - intros Hp id n Hn Hdue Hid.
    destruct (H1 id Hid) as (n' & Hn' & Hin).
    assert (n' = n) by congruence. subst n'.
    specialize (Hp _ Hin). cbn in Hp. lia.
  - intros id. cbn. set_solver.
  - intros due id rest Et. split; [|split].
    + apply H2. rewrite Et. apply elem_of_cons. left. reflexivity.
    + intros Hlt. unfold AudioSystem.timeout. rewrite Et.
      destruct (Z.leb_spec due (AudioSystem.clock s)); [lia | reflexivity].
    + intros Hle s'. subst s'. unfold AudioSystem.timeout. rewrite Et.
      destruct (Z.leb_spec due (AudioSystem.clock s)); [|lia].
      split; [|split].
      * rewrite trackTimeout_active. set_solver.
      * unfold AudioSystem.trackTimeout. case_decide; reflexivity.
      * intros Hid. unfold AudioSystem.trackTimeout.
        rewrite decide_True by exact Hid.
        cbn. destruct (H1 id Hid) as (n & Hn & _).
        rewrite list_lookup_alter_eq, Hn. cbn. eexists. split; reflexivity.
  - intros src vol s' id. subst s' id. cbn. split; [set_solver|]. split.
    + apply elem_of_app. right. apply list_elem_of_singleton. reflexivity.
    + rewrite lookup_app_r by lia. rewrite Nat.sub_diag. cbn.
      eexists. split; reflexivity.
Qed.

Lemma active_sound_evicted_by_timeout_witness :
  let s := Desktop.run [AudioSystem.AudioEvent "button_click" Desktop.noData;
                        AudioSystem.Resume 0 true;
                        AudioSystem.Advance 10000;
                        AudioSystem.Timeout] Desktop.system in
  AudioSystem.timers_cover Desktop.system /\
  AudioSystem.active_in_store Desktop.system /\
  List.length (AudioSystem.nodes s) = 1%nat /\
  0%nat ∉ AudioSystem.activeSounds s.
Proof.
  intros s.
  pose proof desktop_system_tracked_well as [Hc Hs].
  split; [exact Hc|]. split; [exact Hs|].
  split; [vm_compute; reflexivity|].
  assert (Hn : exists n, AudioSystem.nodes s !! 0%nat = Some n /\
                         AudioSystem.tracked_at n + 10000 <= AudioSystem.clock s).
  { vm_compute. eexists. split; [reflexivity | discriminate]. }
  assert (Ht : AudioSystem.timers s = []) by (vm_compute; reflexivity).
  assert (Hp : AudioSystem.timers_prompt s).
  { intros d. rewrite Ht. intros Hd. exfalso. apply not_elem_of_nil in Hd. exact Hd. }
  destruct Hn as (n & Hn & Hdue).
  exact (proj1 (proj2 (active_sound_evicted_by_timeout Desktop.JSON_stringify
                         Desktop.fetchAudio _ Desktop.system Hc Hs))
           Hp 0%nat n Hn Hdue).
Defined.

(** C4, a late timer.  A timer that the browser runs
    late: one minute after a sound was tracked, with its [ended] event and
    the callback of its timer still to come, the sound is in
    [activeSounds]. *)
Lemma active_sound_outlives_10s :
  let s := Desktop.run [AudioSystem.AudioEvent "button_click" Desktop.noData;
                        AudioSystem.Resume 0 true;
                        AudioSystem.Advance 60000] Desktop.system in
  elements (AudioSystem.activeSounds s) = [0%nat] /\
  (exists n, AudioSystem.nodes s !! 0%nat = Some n /\ AudioSystem.tracked_at n = 0) /\
  AudioSystem.clock s = 60000 /\
  AudioSystem.timers s = [(10000, 0%nat)].
Proof.
  intros s. split; [vm_compute; reflexivity|]. split.
  - vm_compute. eexists. split; reflexivity.
  - split; vm_compute; reflexivity.
Qed.

(** C1. The cap is exceeded: nine ['button_click'] events published in
    one synchronous run all pass the check of [activeSounds.size] against
    [maxConcurrentSounds] while the set is still empty, since [playSound]
    tracks its node only after [await generateSound(..)]; when the nine
    suspended calls go on, nine nodes are active under a cap of 8. *)
Theorem cap_exceeded_by_overlapping_events :
  let s := Desktop.run
             (repeat (AudioSystem.AudioEvent "button_click" Desktop.noData) 9
              ++ repeat (AudioSystem.Resume 0 true) 9)
             Desktop.system in
  AudioSystem.maxConcurrentSounds s = 8%nat /\
  size (AudioSystem.activeSounds s) = 9%nat /\
  AudioSystem.clock s = 0.
Proof. repeat split; vm_compute; reflexivity. Qed.



(** ** The cap on concurrent sounds *)

Lemma trackActiveSound_size src vol s :
  AudioSystem.active_in_store s ->
  size (AudioSystem.activeSounds (AudioSystem.trackActiveSound src vol s))
  = S (size (AudioSystem.activeSounds s)).
Proof.
  intros Hs. cbn. rewrite size_union.
  - rewrite size_singleton. reflexivity.
  - apply disjoint_singleton_l. intros Hin. specialize (Hs _ Hin). lia.
Qed.

Section Browser.

Variable JSON_stringify : option JS.json -> string.
Variable fetchAudio : string -> JS.FetchResult SoundFactory.AudioBuffer.

Let handleAudioEvent := AudioSystem.handleAudioEvent JSON_stringify fetchAudio.
Let step := AudioSystem.step JSON_stringify fetchAudio.
Let settle := AudioSystem.settle JSON_stringify fetchAudio.

Lemma admits_same_tracking s s' : AudioSystem.same_tracking s s' -> AudioSystem.admits 0 s s'.
Proof.
  intros Hst Hs. split; [eapply active_in_store_same_tracking; eassumption|].
  destruct Hst as (Ha & _ & _ & Hm & _). rewrite Ha, Hm. split; [reflexivity | lia].
Qed.

Lemma admits_trans n m s1 s2 s3 :
  AudioSystem.admits n s1 s2 -> AudioSystem.admits m s2 s3 -> AudioSystem.admits (n + m) s1 s3.
Proof.
  intros H12 H23 Hs. destruct (H12 Hs) as (A1 & A2 & A3).
  destruct (H23 A1) as (B1 & B2 & B3). split; [exact B1|].
  split; [congruence | lia].
Qed.

Lemma step_resume_head c rest ok s :
  AudioSystem.pending s = c :: rest ->
  step (AudioSystem.Resume 0 ok) s
  = fst (AudioSystem.continue JSON_stringify fetchAudio c ok
           (AudioSystem.with_pending rest s)).
Proof. intros Hp. unfold step. cbn. rewrite Hp. reflexivity. Qed.

Lemma settle_nil fuel ok s : AudioSystem.pending s = [] -> settle fuel ok s = s.
Proof. intros Hp. destruct fuel; cbn; [reflexivity|]. rewrite Hp. reflexivity. Qed.

Lemma settle_cons fuel ok s c rest :
  AudioSystem.pending s = c :: rest ->
  settle (S fuel) ok s
  = settle fuel ok (fst (AudioSystem.continue JSON_stringify fetchAudio c ok
                           (AudioSystem.with_pending rest s))).
Proof.
  intros Hp. unfold settle. cbn [AudioSystem.settle]. rewrite Hp.
  fold step. rewrite (step_resume_head c rest ok s Hp). reflexivity.
Qed.

(** What [playSound_generate] leaves suspended: nothing more, or one call
    waiting on [generateSound]. *)
Lemma playSound_generate_pending name o s :
  let s' := fst (AudioSystem.playSound_generate JSON_stringify fetchAudio name o s) in
  AudioSystem.same_tracking s s' /\
  (AudioSystem.pending s' = AudioSystem.pending s \/
   exists vol r, AudioSystem.pending s'
                 = AudioSystem.pending s ++ [AudioSystem.AfterGenerate name vol r]).
Proof.
  intros s'. split; [apply playSound_generate_same_tracking|]. subst s'.
  unfold AudioSystem.playSound_generate.
  destruct (AudioSystem.audioContext s); [|left; reflexivity].
  destruct (JS.Number_leb _ _); [left; reflexivity|].
  destruct (AudioSystem.soundFactory s); [|left; reflexivity].
  right. eexists _, _. reflexivity.
Qed.

(** A call that waited on [generateSound] tracks at most one node and
    suspends nothing. *)
Lemma continue_generate name vol r ok q :
  let q' := fst (AudioSystem.continue JSON_stringify fetchAudio
                   (AudioSystem.AfterGenerate name vol r) ok q) in
  AudioSystem.pending q' = AudioSystem.pending q /\ AudioSystem.admits 1 q q'.
Proof.
  intros q'. subst q'.
  assert (Hsame : AudioSystem.pending q = AudioSystem.pending q /\
                  AudioSystem.admits 1 q q).
  { split; [reflexivity|]. intros Hs. split; [exact Hs|].
    split; [reflexivity | apply Nat.le_add_r]. }
  destruct r as [src|msg]; cbn [AudioSystem.continue]; [|exact Hsame].
  destruct (AudioSystem.audioContext q); [|destruct vol; exact Hsame].
  destruct vol as [| |vol|]; try exact Hsame. cbn [fst].
  split; [reflexivity|]. intros Hs.
  split; [apply trackActiveSound_active_in_store, Hs|].
  split; [reflexivity|]. rewrite trackActiveSound_size by exact Hs. lia.
Qed.

(** A call that waited on the audio context tracks nothing; it may
    suspend again, on [generateSound]. *)
Lemma continue_unlock name o ok q :
  let q' := fst (AudioSystem.continue JSON_stringify fetchAudio
                   (AudioSystem.AfterUnlock name o) ok q) in
  AudioSystem.admits 0 q q' /\
  (AudioSystem.pending q' = AudioSystem.pending q \/
   exists vol r, AudioSystem.pending q'
                 = AudioSystem.pending q ++ [AudioSystem.AfterGenerate name vol r]).
Proof.
  intros q'. subst q'. cbn [AudioSystem.continue].
  destruct (AudioSystem.audioContext q);
    [|split; [apply admits_same_tracking, same_tracking_refl | left; reflexivity]].
  destruct ok;
    [|split; [apply admits_same_tracking, same_tracking_refl | left; reflexivity]].
  destruct (playSound_generate_pending name o
              (AudioSystem.with_audioContext (Some AudioSystem.running) q))
    as [Hst Hpe].
  split; [|exact Hpe].
  apply admits_same_tracking.
  eapply same_tracking_trans; [|exact Hst]. apply same_tracking_eq; reflexivity.
Qed.

(** How [handleAudioEvent] leaves the system: as it was, or, with the
    active set below the cap, with one more call suspended. *)
Lemma handleAudioEvent_outcome e d s :
  let s' := handleAudioEvent e d s in
  s' = s \/
  ((size (AudioSystem.activeSounds s) < AudioSystem.maxConcurrentSounds s)%nat /\
   AudioSystem.same_tracking s s' /\
   exists c, AudioSystem.pending s' = AudioSystem.pending s ++ [c]).
Proof.
  intros s'. subst s'. unfold handleAudioEvent, AudioSystem.handleAudioEvent.
  destruct (negb (AudioSystem.isInitialized s)); [left; reflexivity|].
  destruct (negb (JS.Number_truthy _)); [left; reflexivity|].
  destruct (AudioSystem.soundMapping s) as [m|]; [|left; reflexivity].
  destruct (SoundMappingSystem.getSoundForAction e d m) as [[name|]|];
    try (left; reflexivity).
  destruct (String.eqb name ""); [left; reflexivity|].
  destruct (Nat.leb_spec (AudioSystem.maxConcurrentSounds s)
                         (size (AudioSystem.activeSounds s))) as [Hfull|Hroom];
    [left; reflexivity|].
  unfold AudioSystem.playSound.
  destruct (negb (AudioSystem.isInitialized s)); [left; reflexivity|].
  assert (Hgen :
    (AudioSystem.playSound_generate JSON_stringify fetchAudio name
       (SoundFactory.mkOptions None) s).1 = s \/
    ((size (AudioSystem.activeSounds s) < AudioSystem.maxConcurrentSounds s)%nat /\
     AudioSystem.same_tracking s
       (AudioSystem.playSound_generate JSON_stringify fetchAudio name
          (SoundFactory.mkOptions None) s).1 /\
     exists c, AudioSystem.pending
                 (AudioSystem.playSound_generate JSON_stringify fetchAudio name
                    (SoundFactory.mkOptions None) s).1
               = AudioSystem.pending s ++ [c])).
  { unfold AudioSystem.playSound_generate.
    destruct (AudioSystem.audioContext s); [|left; reflexivity].
    destruct (JS.Number_leb _ _); [left; reflexivity|].
    destruct (AudioSystem.soundFactory s); [|left; reflexivity].
    right. split; [exact Hroom|]. split; [apply same_tracking_eq; reflexivity|].
    eexists. reflexivity. }
  destruct (AudioSystem.audioContext s) as [[]|]; try exact Hgen.
  right. split; [exact Hroom|]. split; [apply same_tracking_eq; reflexivity|].
  eexists. reflexivity.
Qed.

(** Settling one suspended call of a handler. *)
Lemma settle_one_call c ok s :
  AudioSystem.pending s = [c] ->
  let s' := settle 2 ok s in
  AudioSystem.pending s' = [] /\ AudioSystem.admits 1 s s'.
Proof.
  intros Hp s'. subst s'. rewrite (settle_cons 1 ok s c [] Hp).
  set (q := AudioSystem.with_pending [] s).
  assert (Hq : AudioSystem.admits 0 s q) by (apply admits_same_tracking, same_tracking_eq; reflexivity).
  destruct c as [name o|name vol r].
  - destruct (continue_unlock name o ok q) as [Hadm [Hpe|(vol & r & Hpe)]].
    + rewrite settle_nil by exact Hpe. split; [exact Hpe|].
      intros Hs. destruct (admits_trans 0 0 _ _ _ Hq Hadm Hs) as (A & B & C).
      split; [exact A|]. split; [exact B | lia].
    + set (q1 := (AudioSystem.continue JSON_stringify fetchAudio
                    (AudioSystem.AfterUnlock name o) ok q).1) in *.
      assert (Hpe1 : AudioSystem.pending q1 = [AudioSystem.AfterGenerate name vol r])
        by exact Hpe.
      rewrite (settle_cons 0 ok q1 _ [] Hpe1).
      set (q2 := AudioSystem.with_pending [] q1).
      destruct (continue_generate name vol r ok q2) as [Hp2 Hadm2].
      rewrite settle_nil by exact Hp2.
      split; [exact Hp2|].
      intros Hs.
      destruct (Hq Hs) as (A1 & A2 & A3).
      destruct (Hadm A1) as (B1 & B2 & B3).
      assert (B1' : AudioSystem.active_in_store q2) by exact B1.
      destruct (Hadm2 B1') as (C1 & C2 & C3).
      split; [exact C1|]. split.
      * rewrite C2. transitivity (AudioSystem.maxConcurrentSounds q1); [reflexivity|].
        rewrite B2. exact A2.
      * eapply Nat.le_trans; [exact C3|].
        change (AudioSystem.activeSounds q2) with (AudioSystem.activeSounds q1).
        apply Nat.add_le_mono_r.
        eapply Nat.le_trans; [exact B3|]. rewrite Nat.add_0_r.
        eapply Nat.le_trans; [exact A3|]. rewrite Nat.add_0_r. apply le_n.
  - destruct (continue_generate name vol r ok q) as [Hpe Hadm].
    rewrite settle_nil by exact Hpe. split; [exact Hpe|].
    intros Hs. destruct (admits_trans 0 1 _ _ _ Hq Hadm Hs) as (A & B & C).
    split; [exact A|]. split; [exact B | lia].
Qed.

(** An event arriving while nothing is suspended, handled to its end. *)
Lemma handled_event_capped e d ok s :
  AudioSystem.capped s ->
  AudioSystem.capped (AudioSystem.turn JSON_stringify fetchAudio (AudioSystem.HandledEvent e d ok) s).
Proof.
  intros (Hp & Hsize & Hs). cbn [AudioSystem.turn]. fold settle. fold handleAudioEvent.
  destruct (handleAudioEvent_outcome e d s) as [E|(Hroom & Hst & c & Hpe)].
  - rewrite E, settle_nil by exact Hp. repeat split; assumption.
  - rewrite Hp in Hpe. cbn in Hpe.
    destruct (settle_one_call c ok _ Hpe) as [Hdone Hadm].
    assert (Hs1 : AudioSystem.active_in_store (handleAudioEvent e d s))
      by (eapply active_in_store_same_tracking; eassumption).
    destruct (Hadm Hs1) as (A & B & C).
    destruct Hst as (Ha & _ & _ & Hm & _).
    split; [exact Hdone|]. split; [|exact A].
    rewrite B, Hm. rewrite Ha in C. lia.
Qed.

Lemma fold_stopNode_pending ids s :
  AudioSystem.pending (fold_right AudioSystem.stopNode s ids) = AudioSystem.pending s.
Proof. induction ids as [|id ids IH]; cbn; [reflexivity | exact IH]. Qed.

Lemma handleVolumeChange_pending s :
  AudioSystem.pending (AudioSystem.handleVolumeChange s) = AudioSystem.pending s.
Proof.
  unfold AudioSystem.handleVolumeChange.
  destruct (AudioSettings.getVolume _ _); try reflexivity.
  induction (elements (AudioSystem.activeSounds s)) as [|id ids IH]; cbn;
    [reflexivity | exact IH].
Qed.

Lemma trackTimeout_pending id s :
  AudioSystem.pending (AudioSystem.trackTimeout id s) = AudioSystem.pending s.
Proof. unfold AudioSystem.trackTimeout. case_decide; reflexivity. Qed.

Lemma timeout_pending s :
  AudioSystem.pending (AudioSystem.timeout s) = AudioSystem.pending s.
Proof.
  unfold AudioSystem.timeout.
  destruct (AudioSystem.timers s) as [|[due id] rest]; [reflexivity|].
  destruct (due <=? AudioSystem.clock s); [|reflexivity].
  rewrite trackTimeout_pending. reflexivity.
Qed.

Lemma timeout_maxConcurrentSounds s :
  AudioSystem.maxConcurrentSounds (AudioSystem.timeout s)
  = AudioSystem.maxConcurrentSounds s.
Proof.
  unfold AudioSystem.timeout.
  destruct (AudioSystem.timers s) as [|[due id] rest]; [reflexivity|].
  destruct (due <=? AudioSystem.clock s); [|reflexivity].
  unfold AudioSystem.trackTimeout. case_decide; reflexivity.
Qed.

Lemma destroy_stops s :
  AudioSystem.activeSounds (AudioSystem.destroy s) = ∅ /\
  AudioSystem.pending (AudioSystem.destroy s) = AudioSystem.pending s /\
  AudioSystem.maxConcurrentSounds (AudioSystem.destroy s)
  = AudioSystem.maxConcurrentSounds s.
Proof.
  unfold AudioSystem.destroy.
  destruct (fold_stopNode_same_tracking (elements (AudioSystem.activeSounds s)) s)
    as (_ & _ & _ & Hm & _).
  destruct (AudioSystem.audioContext (AudioSystem.stopAllSounds s));
    (split; [reflexivity|]; split; [apply fold_stopNode_pending | exact Hm]).
Qed.

Lemma destroy_closed_frame ok s :
  AudioSystem.activeSounds (AudioSystem.destroy_closed ok s) = AudioSystem.activeSounds s /\
  AudioSystem.pending (AudioSystem.destroy_closed ok s) = AudioSystem.pending s /\
  AudioSystem.maxConcurrentSounds (AudioSystem.destroy_closed ok s)
  = AudioSystem.maxConcurrentSounds s /\
  AudioSystem.nodes (AudioSystem.destroy_closed ok s) = AudioSystem.nodes s.
Proof.
  unfold AudioSystem.destroy_closed.
  destruct (AudioSystem.closing s); [repeat split|].
  destruct ok; repeat split.
Qed.

(** A turn that neither starts nor continues a handler suspends nothing
    and adds no active node. *)
Lemma passive_step l s :
  AudioSystem.passive l = true ->
  AudioSystem.pending (step l s) = AudioSystem.pending s /\
  AudioSystem.activeSounds (step l s) ⊆ AudioSystem.activeSounds s /\
  AudioSystem.maxConcurrentSounds (step l s) = AudioSystem.maxConcurrentSounds s /\
  (AudioSystem.active_in_store s -> AudioSystem.active_in_store (step l s)).
Proof.
  intros Hl. unfold step.
  destruct l as [e d|name o|k ok|id|t| | |b| | |ok| |]; try discriminate Hl;
    cbn [AudioSystem.step].
  - split; [reflexivity|]. split; [cbn; set_solver|]. split; [reflexivity|].
    intros Hs. apply active_in_store_shrink; [set_solver | exact Hs].
  - unfold AudioSystem.advance. destruct (t <? AudioSystem.clock s);
      repeat split; auto.
  - split; [apply timeout_pending|]. split; [apply timeout_active_subset|].
    split; [apply timeout_maxConcurrentSounds|].
    intros Hs id Hid.
    assert (Hlen : List.length (AudioSystem.nodes (AudioSystem.timeout s))
                   = List.length (AudioSystem.nodes s)).
    { unfold AudioSystem.timeout.
      destruct (AudioSystem.timers s) as [|[due j] rest]; [reflexivity|].
      destruct (due <=? AudioSystem.clock s); [|reflexivity].
      unfold AudioSystem.trackTimeout. case_decide; [|reflexivity].
      cbn. apply length_alter. }
    rewrite Hlen. apply Hs, (timeout_active_subset s), Hid.
  - split; [apply handleVolumeChange_pending|].
    destruct (handleVolumeChange_same_tracking s) as (Ha & _ & _ & Hm & _).
    split; [rewrite Ha; reflexivity|]. split; [exact Hm|].
    apply active_in_store_same_tracking, handleVolumeChange_same_tracking.
  - destruct b; cbn [AudioSystem.handleEnabledChange].
    + repeat split; [reflexivity | auto].
    + split; [apply fold_stopNode_pending|]. split; [cbn; set_solver|].
      split; [|intros _; apply stopAllSounds_active_in_store].
      destruct (fold_stopNode_same_tracking (elements (AudioSystem.activeSounds s)) s)
        as (_ & _ & _ & Hm & _). exact Hm.
  - split; [apply fold_stopNode_pending|]. split; [cbn; set_solver|].
    split; [|intros _; apply stopAllSounds_active_in_store].
    destruct (fold_stopNode_same_tracking (elements (AudioSystem.activeSounds s)) s)
      as (_ & _ & _ & Hm & _). exact Hm.
  - destruct (destroy_stops s) as (Ha & Hp & Hm).
    split; [exact Hp|]. split; [rewrite Ha; set_solver|].
    split; [exact Hm|]. intros _ id Hid. rewrite Ha in Hid. set_solver.
  - destruct (destroy_closed_frame ok s) as (Ha & Hp & Hm & Hn).
    split; [exact Hp|]. split; [rewrite Ha; reflexivity|].
    split; [exact Hm|]. intros Hs id Hid. rewrite Ha in Hid. rewrite Hn.
    apply Hs, Hid.
  - destruct (AudioSystem.audioContext s) as [[]|]; repeat split; auto.
  - destruct (AudioSystem.audioContext s) as [[]|]; repeat split; auto.
Qed.

Lemma turn_capped t s :
  AudioSystem.capped s -> AudioSystem.capped (AudioSystem.turn JSON_stringify fetchAudio t s).
Proof.
  intros Hc. destruct t as [e d ok|l]; [apply handled_event_capped, Hc|].
  cbn [AudioSystem.turn]. destruct (AudioSystem.passive l) eqn:Hl; [|exact Hc].
  destruct Hc as (Hp & Hsize & Hs).
  destruct (passive_step l s Hl) as (E1 & E2 & E3 & E4). fold step.
  split; [rewrite E1; exact Hp|]. split; [|apply E4, Hs].
  rewrite E3. eapply Nat.le_trans; [apply subseteq_size, E2 | exact Hsize].
Qed.

Lemma turns_capped ts :
  forall s, AudioSystem.capped s ->
            AudioSystem.capped (AudioSystem.turns JSON_stringify fetchAudio ts s).
Proof.
  induction ts as [|t ts IH]; intros s Hc; [exact Hc|].
  cbn. apply IH, turn_capped, Hc.
Qed.

End Browser.

(** X1. When every audio event is handled to its end before the next
    turn of the event loop (no handler is suspended when an event arrives),
    the number of active nodes never exceeds [maxConcurrentSounds], whatever
    else happens in between: nodes ending, time passing, timers running,
    volume and switch changes, [stopAllSounds], [destroy] and the end of its
    wait on [close()], the context pausing. *)
Theorem cap_holds_without_overlap
        (JSON_stringify : option JS.json -> string)
        (fetchAudio : string -> JS.FetchResult SoundFactory.AudioBuffer)
        (ts : list AudioSystem.Turn) (s0 : AudioSystem.State) :
  AudioSystem.pending s0 = [] ->
  (size (AudioSystem.activeSounds s0) <= AudioSystem.maxConcurrentSounds s0)%nat ->
  AudioSystem.active_in_store s0 ->
  let s := AudioSystem.turns JSON_stringify fetchAudio ts s0 in
  (size (AudioSystem.activeSounds s) <= AudioSystem.maxConcurrentSounds s0)%nat /\
  AudioSystem.maxConcurrentSounds s = AudioSystem.maxConcurrentSounds s0 /\
  AudioSystem.pending s = [].
Proof.
  intros Hp Hsize Hs s. subst s.
  assert (H : AudioSystem.capped s0) by (repeat split; assumption).
  clear Hp Hsize Hs.
  assert (Hgoal : forall s1,
             AudioSystem.capped s1 ->
             AudioSystem.maxConcurrentSounds s1 = AudioSystem.maxConcurrentSounds s0 ->
             AudioSystem.capped (AudioSystem.turns JSON_stringify fetchAudio ts s1) /\
             AudioSystem.maxConcurrentSounds
               (AudioSystem.turns JSON_stringify fetchAudio ts s1)
             = AudioSystem.maxConcurrentSounds s0).
  { induction ts as [|t ts IH]; intros s1 Hc Hm; [split; assumption|].
    cbn. apply IH; [apply turn_capped, Hc|].
    rewrite <- Hm. destruct t as [e d ok|l].
    - cbn [AudioSystem.turn].
      destruct (handleAudioEvent_outcome JSON_stringify fetchAudio e d s1)
        as [E|(_ & Hst & c & Hpe)].
      + rewrite E. destruct Hc as (Hp & _). rewrite settle_nil by exact Hp. reflexivity.
      + destruct Hc as (Hp & _ & Hs). rewrite Hp in Hpe.
        destruct (settle_one_call JSON_stringify fetchAudio c ok _ Hpe) as [_ Hadm].
        destruct (Hadm (active_in_store_same_tracking _ _ Hst Hs)) as (_ & B & _).
        rewrite B. destruct Hst as (_ & _ & _ & Hm' & _). exact Hm'.
    - cbn [AudioSystem.turn]. destruct (AudioSystem.passive l) eqn:Hl; [|reflexivity].
      destruct (passive_step JSON_stringify fetchAudio l s1 Hl) as (_ & _ & E & _).
      exact E. }
  destruct (Hgoal s0 H eq_refl) as [(A & B & _) C].
  split; [rewrite <- C; exact B|]. split; [exact C | exact A].
Qed.

Lemma cap_holds_without_overlap_witness :
  let ts := repeat (AudioSystem.HandledEvent "button_click" Desktop.noData true) 12 in
  let s := AudioSystem.turns Desktop.JSON_stringify Desktop.fetchAudio ts Desktop.system in
  AudioSystem.pending Desktop.system = [] /\
  (size (AudioSystem.activeSounds Desktop.system)
   <= AudioSystem.maxConcurrentSounds Desktop.system)%nat /\
  AudioSystem.active_in_store Desktop.system /\
  (size (AudioSystem.activeSounds s) <= 8)%nat.
Proof.
  intros ts s.
  assert (Hp : AudioSystem.pending Desktop.system = []) by reflexivity.
  assert (Hsize : (size (AudioSystem.activeSounds Desktop.system)
                   <= AudioSystem.maxConcurrentSounds Desktop.system)%nat)
    by (vm_compute; lia).
  pose proof (proj2 desktop_system_tracked_well) as Hs.
  split; [exact Hp|]. split; [exact Hsize|]. split; [exact Hs|].
  exact (proj1 (cap_holds_without_overlap Desktop.JSON_stringify Desktop.fetchAudio
                  ts Desktop.system Hp Hsize Hs)).
Defined.



(** ** Events that are ignored, calls that are not *)

(** X2. [handleAudioEvent] leaves the system exactly as it was when the
    system is not initialized, when the overall volume is falsy (zero: global
    switch off, muted, or master volume 0; or NaN), and when the active set
    has reached [maxConcurrentSounds]: nothing is suspended, tracked or
    changed. *)
Theorem handleAudioEvent_ignored
        (JSON_stringify : option JS.json -> string)
        (fetchAudio : string -> JS.FetchResult SoundFactory.AudioBuffer)
        (eventType : string) (data : SoundMappingSystem.EventData)
        (s : AudioSystem.State) :
  AudioSystem.isInitialized s = false \/
  JS.Number_truthy (AudioSettings.getVolume None (AudioSystem.audioSettings s)) = false \/
  (AudioSystem.maxConcurrentSounds s <= size (AudioSystem.activeSounds s))%nat ->
  AudioSystem.handleAudioEvent JSON_stringify fetchAudio eventType data s = s.
Proof.
  intros H. unfold AudioSystem.handleAudioEvent.
  destruct (AudioSystem.isInitialized s) eqn:Hi; [|reflexivity]. cbn [negb].
  destruct (JS.Number_truthy _) eqn:Hv; [|reflexivity]. cbn [negb].
  destruct H as [H|[H|H]]; [discriminate H | discriminate H |].
  destruct (AudioSystem.soundMapping s) as [m|]; [|reflexivity].
  destruct (SoundMappingSystem.getSoundForAction eventType data m) as [[name|]|];
    try reflexivity.
  destruct (String.eqb name ""); [reflexivity|].
  apply Nat.leb_le in H. rewrite H. reflexivity.
Qed.

Lemma handleAudioEvent_ignored_witness :
  let muted := AudioSystem.with_audioSettings
                 (AudioSettings.setMute true (AudioSystem.audioSettings Desktop.system))
                 Desktop.system in
  AudioSettings.getVolume None (AudioSystem.audioSettings muted) = JS.Finite 0 /\
  AudioSystem.handleAudioEvent Desktop.JSON_stringify Desktop.fetchAudio
    "button_click" Desktop.noData muted = muted.
Proof.
  intros muted.
  assert (H : AudioSettings.getVolume None (AudioSystem.audioSettings muted) = JS.Finite 0)
    by reflexivity.
  split; [exact H|].
  exact (handleAudioEvent_ignored Desktop.JSON_stringify Desktop.fetchAudio
           "button_click" Desktop.noData muted
           (or_intror (or_introl (f_equal JS.Number_truthy H)))).
Defined.

(** X3. A direct call of [playSound] is not subject to the cap: when the
    system is initialized on a running context, the category of the sound is
    audible and the factory returns a node, the call followed by its
    continuation tracks that node, however many nodes are active. *)
Theorem playSound_not_capped
        (JSON_stringify : option JS.json -> string)
        (fetchAudio : string -> JS.FetchResult SoundFactory.AudioBuffer)
        (soundName : string) (o : SoundFactory.Options) (ok : bool)
        (s : AudioSystem.State) (f : SoundFactory.State) (src : SoundFactory.Source)
        (vol : Q) :
  AudioSystem.isInitialized s = true ->
  AudioSystem.audioContext s = Some AudioSystem.running ->
  AudioSystem.soundFactory s = Some f ->
  SoundFactory.generateSound JSON_stringify fetchAudio soundName o f = JS.Return src ->
  AudioSettings.getVolume (Some (AudioSystem.getSoundCategory soundName))
    (AudioSystem.audioSettings s) = JS.Finite vol ->
  (0 < vol)%Q ->
  AudioSystem.pending s = [] ->
  AudioSystem.active_in_store s ->
  let s' := AudioSystem.run JSON_stringify fetchAudio
              [AudioSystem.PlaySound soundName o; AudioSystem.Resume 0 ok] s in
  size (AudioSystem.activeSounds s') = S (size (AudioSystem.activeSounds s)) /\
  List.length (AudioSystem.nodes s) ∈ AudioSystem.activeSounds s'.
Proof.
  intros Hi Hc Hf Hg Hv Hpos Hp Hs s'. subst s'.
  cbn [AudioSystem.run fold_left AudioSystem.step].
  unfold AudioSystem.playSound. rewrite Hi, Hc. cbn [negb].
  unfold AudioSystem.playSound_generate. rewrite Hc, Hf, Hg, Hv.
  cbn [JS.Number_leb].
  destruct (Qle_bool vol 0) eqn:Hle.
  { apply Qle_bool_iff in Hle. exfalso. lra. }
  cbn [fst AudioSystem.with_pending AudioSystem.pending]. rewrite Hp.
  cbn [app lookup list_lookup delete list_delete AudioSystem.continue
       AudioSystem.audioContext AudioSystem.with_pending].
  rewrite Hc. cbn [fst].
  split.
  - apply (trackActiveSound_size src _
             (AudioSystem.with_pending [] (AudioSystem.with_pending _ s))). exact Hs.
  - cbn. set_solver.
Qed.

Lemma desktop_system_capped : AudioSystem.capped Desktop.system.
Proof.
  split; [reflexivity|]. split; [|exact (proj2 desktop_system_tracked_well)].
  destruct desktop_system_idle as (Ha & _). rewrite Ha, size_empty. apply Nat.le_0_l.
Qed.

Lemma playSound_not_capped_witness :
  let full := AudioSystem.turns Desktop.JSON_stringify Desktop.fetchAudio
                (repeat (AudioSystem.HandledEvent "button_click" Desktop.noData true) 8)
                Desktop.system in
  let s' := Desktop.run [AudioSystem.PlaySound "click_sound" (SoundFactory.mkOptions None);
                         AudioSystem.Resume 0 true] full in
  size (AudioSystem.activeSounds full) = 8%nat /\
  size (AudioSystem.activeSounds s') = 9%nat.
Proof.
  intros full s'.
  assert (H8 : size (AudioSystem.activeSounds full) = 8%nat) by (vm_compute; reflexivity).
  assert (Hi : AudioSystem.isInitialized full = true) by (vm_compute; reflexivity).
  assert (Hc : AudioSystem.audioContext full = Some AudioSystem.running)
    by (vm_compute; reflexivity).
  assert (Hf : AudioSystem.soundFactory full = Some (Desktop.factory SoundFactory.NoConfig))
    by (vm_compute; reflexivity).
  assert (Hg : exists src,
             Desktop.generateSound "click_sound" (SoundFactory.mkOptions None)
               (Desktop.factory SoundFactory.NoConfig) = JS.Return src)
    by (vm_compute; eexists; reflexivity).
  destruct Hg as [src Hg].
  assert (Hv : exists vol,
             AudioSettings.getVolume
               (Some (AudioSystem.getSoundCategory "click_sound"))
               (AudioSystem.audioSettings full) = JS.Finite vol /\ (0 < vol)%Q)
    by (vm_compute; eexists; split; reflexivity).
  destruct Hv as (vol & Hv & Hpos).
  destruct (turns_capped Desktop.JSON_stringify Desktop.fetchAudio
              (repeat (AudioSystem.HandledEvent "button_click" Desktop.noData true) 8)
              Desktop.system desktop_system_capped) as (Hp & _ & Hs).
  split; [exact H8|].
  exact (eq_trans
           (proj1 (playSound_not_capped Desktop.JSON_stringify Desktop.fetchAudio
                     "click_sound" (SoundFactory.mkOptions None) true full
                     (Desktop.factory SoundFactory.NoConfig) src vol Hi Hc Hf Hg Hv Hpos
                     Hp Hs))
           (f_equal S H8)).
Defined.



(** ** Initialization, the cap constant, stopping *)

Section Browser.

Variable JSON_stringify : option JS.json -> string.
Variable fetchAudio : string -> JS.FetchResult SoundFactory.AudioBuffer.
Variable fetchMappings : string -> JS.FetchResult SoundMappingSystem.MappingsFile.
Variable fetchImplementations :
  string -> JS.FetchResult SoundFactory.ImplementationsFile.
Variable navigator : AudioSettings.Navigator.
Variable newContext : option AudioSystem.ContextState.
Variable contextSampleRate : Z.

Let initialize :=
  AudioSystem.initialize JSON_stringify fetchAudio fetchMappings fetchImplementations
    navigator newContext contextSampleRate.
Let handleAudioEvent := AudioSystem.handleAudioEvent JSON_stringify fetchAudio.
Let step := AudioSystem.step JSON_stringify fetchAudio.

Lemma preloadCriticalSounds_frame s :
  let s' := AudioSystem.preloadCriticalSounds JSON_stringify fetchAudio s in
  AudioSystem.soundMapping s' = AudioSystem.soundMapping s /\
  AudioSystem.audioSettings s' = AudioSystem.audioSettings s /\
  AudioSystem.maxConcurrentSounds s' = AudioSystem.maxConcurrentSounds s /\
  AudioSystem.isInitialized s' = AudioSystem.isInitialized s /\
  AudioSystem.audioContext s' = AudioSystem.audioContext s /\
  AudioSystem.activeSounds s' = AudioSystem.activeSounds s /\
  AudioSystem.pending s' = AudioSystem.pending s.
Proof.
  intros s'. subst s'. unfold AudioSystem.preloadCriticalSounds.
  destruct (negb (AudioSettings.preloadEnabled _)); [repeat split|].
  destruct (AudioSystem.audioContext s) as [[]|] eqn:Hc;
    destruct (AudioSystem.soundFactory s); repeat split; try reflexivity;
    cbn; congruence.
Qed.

(** An event is ignored when the mapping system is not initialized. *)
Lemma handleAudioEvent_unmapped e d s m :
  AudioSystem.soundMapping s = Some m ->
  SoundMappingSystem.isInitialized m = false ->
  handleAudioEvent e d s = s.
Proof.
  intros Hm Hi. unfold handleAudioEvent, AudioSystem.handleAudioEvent.
  destruct (negb (AudioSystem.isInitialized s)); [reflexivity|].
  destruct (negb (JS.Number_truthy _)); [reflexivity|].
  rewrite Hm. unfold SoundMappingSystem.getSoundForAction. rewrite Hi. reflexivity.
Qed.

(** X4. When the mappings file cannot be fetched or parsed,
    [AudioSystem.initialize] still returns [true] and marks the system
    initialized, but the mapping system it holds is not initialized, and
    every audio event is ignored from then on. *)
Theorem initialize_succeeds_without_mappings
        (config : AudioSystem.InitConfig) (path : string) (s : AudioSystem.State) :
  AudioSystem.mappingsPath config = Some path ->
  path <> ""%string ->
  JS.failed (fetchMappings path) ->
  let r := initialize config s in
  snd r = true /\
  AudioSystem.isInitialized (fst r) = true /\
  AudioSystem.soundMapping (fst r) = Some SoundMappingSystem.constructor /\
  forall e d, handleAudioEvent e d (fst r) = fst r.
Proof.
  intros Hpath Hne Hfail r. subst r.
  assert (Hm : AudioSystem.soundMapping (fst (initialize config s))
               = Some SoundMappingSystem.constructor).
  { unfold initialize, AudioSystem.initialize. cbv zeta.
    cbn [fst AudioSystem.soundMapping AudioSystem.with_isInitialized].
    match goal with
    | |- AudioSystem.soundMapping (AudioSystem.preloadCriticalSounds _ _ ?q) = _ =>
        rewrite (proj1 (preloadCriticalSounds_frame q))
    end.
    cbn [AudioSystem.soundMapping]. rewrite Hpath.
    destruct (String.eqb_spec path ""); [contradiction|].
    unfold SoundMappingSystem.initialize, SoundMappingSystem.loadConfigFromFile.
    destruct (fetchMappings path); try reflexivity. contradiction. }
  split; [reflexivity|]. split; [reflexivity|]. split; [exact Hm|].
  intros e d. eapply handleAudioEvent_unmapped; [exact Hm | reflexivity].
Qed.

(** No turn of the event loop changes the cap constant. *)
Lemma step_maxConcurrentSounds l s :
  AudioSystem.maxConcurrentSounds (step l s) = AudioSystem.maxConcurrentSounds s.
Proof.
  destruct (AudioSystem.passive l) eqn:Hl.
  - exact (proj1 (proj2 (proj2 (passive_step JSON_stringify fetchAudio l s Hl)))).
  - destruct l as [e d|name o|k ok|id|t| | |b| | |ok'| |]; try discriminate Hl;
      unfold step;
      cbn [AudioSystem.step].
    + exact (proj1 (proj2 (proj2 (proj2
               (handleAudioEvent_same_tracking JSON_stringify fetchAudio e d s))))).
    + exact (proj1 (proj2 (proj2 (proj2
               (playSound_same_tracking JSON_stringify fetchAudio name o s))))).
    + destruct (AudioSystem.pending s !! k) as [c|]; [|reflexivity].
      set (q := AudioSystem.with_pending (delete k (AudioSystem.pending s)) s).
      change (AudioSystem.maxConcurrentSounds s) with (AudioSystem.maxConcurrentSounds q).
      destruct c as [name o|name vol [src|msg]]; cbn [AudioSystem.continue].
      * destruct (AudioSystem.audioContext q); [|reflexivity].
        destruct ok; [|reflexivity].
        exact (proj1 (proj2 (proj2 (proj2
                 (playSound_generate_same_tracking JSON_stringify fetchAudio name o
                    (AudioSystem.with_audioContext (Some AudioSystem.running) q)))))).
      * destruct (AudioSystem.audioContext q), vol; reflexivity.
      * reflexivity.
Qed.

Lemma run_maxConcurrentSounds ls :
  forall s, AudioSystem.maxConcurrentSounds (AudioSystem.run JSON_stringify fetchAudio ls s)
            = AudioSystem.maxConcurrentSounds s.
Proof.
  unfold AudioSystem.run.
  induction ls as [|l ls IH]; intros s; cbn [fold_left]; [reflexivity|].
  rewrite IH. apply step_maxConcurrentSounds.
Qed.

(** X5. The cap the audio system applies does not follow the performance
    setting: on a mobile device [detectPlatform] sets the setting
    [maxConcurrentSounds] to 4, while the system built by the constructor and
    [initialize] keeps its own constant 8 through every run of the event
    loop. *)
Theorem cap_ignores_performance_setting
        (config : AudioSystem.InitConfig) (settings : AudioSettings.State) (t : Z)
        (ls : list AudioSystem.Label) :
  AudioSettings.userAgentIsMobile navigator = true ->
  let s0 := fst (initialize config (AudioSystem.constructor settings t)) in
  AudioSettings.maxConcurrentSounds
    (AudioSettings.performance (AudioSettings.settings (AudioSystem.audioSettings s0)))
  = 4 /\
  AudioSystem.maxConcurrentSounds (AudioSystem.run JSON_stringify fetchAudio ls s0) = 8%nat.
Proof.
  intros Hmobile s0. split.
  - subst s0. unfold initialize, AudioSystem.initialize. cbv zeta.
    cbn [fst AudioSystem.audioSettings AudioSystem.with_isInitialized].
    match goal with
    | |- context [AudioSystem.audioSettings (AudioSystem.preloadCriticalSounds _ _ ?q)] =>
        rewrite (proj1 (proj2 (preloadCriticalSounds_frame q)))
    end.
    cbn [AudioSystem.audioSettings]. unfold AudioSettings.initialize. cbv zeta.
    cbn [fst AudioSettings.settings]. unfold AudioSettings.detectPlatform.
    rewrite Hmobile. reflexivity.
  - rewrite run_maxConcurrentSounds. subst s0.
    unfold initialize, AudioSystem.initialize. cbv zeta.
    cbn [fst AudioSystem.maxConcurrentSounds AudioSystem.with_isInitialized].
    match goal with
    | |- AudioSystem.maxConcurrentSounds (AudioSystem.preloadCriticalSounds _ _ ?q) = _ =>
        rewrite (proj1 (proj2 (proj2 (preloadCriticalSounds_frame q))))
    end.
    reflexivity.
Qed.

End Browser.

Lemma initialize_succeeds_without_mappings_witness :
  let r := AudioSystem.initialize Desktop.JSON_stringify Desktop.fetchAudio
             Desktop.fetchMappings Desktop.fetchImplementations Desktop.navigator
             (Some AudioSystem.running) 44100
             (AudioSystem.mkInitConfig
                (Some "./js/audio/config/sound-mappings.json"%string)
                (Some "./js/audio/config/sound-implementations.json"%string))
             (AudioSystem.constructor
                (AudioSettings.constructor AudioSettings.NoItem false) 0) in
  snd r = true /\
  AudioSystem.handleAudioEvent Desktop.JSON_stringify Desktop.fetchAudio
    "button_click" Desktop.noData (fst r) = fst r.
Proof.
  intros r.
  destruct (initialize_succeeds_without_mappings Desktop.JSON_stringify
              Desktop.fetchAudio Desktop.fetchMappings Desktop.fetchImplementations
              Desktop.navigator (Some AudioSystem.running) 44100
              (AudioSystem.mkInitConfig
                 (Some "./js/audio/config/sound-mappings.json"%string)
                 (Some "./js/audio/config/sound-implementations.json"%string))
              "./js/audio/config/sound-mappings.json"
              (AudioSystem.constructor
                (AudioSettings.constructor AudioSettings.NoItem false) 0)
              eq_refl ltac:(discriminate) I) as (A & _ & _ & B).
  split; [exact A | exact (B "button_click"%string Desktop.noData)].
Defined.

Lemma cap_ignores_performance_setting_witness :
  let phone := AudioSettings.mkNavigator true (Some 8%Q) (Some 8) in
  let s0 := fst (AudioSystem.initialize Desktop.JSON_stringify Desktop.fetchAudio
                   Desktop.fetchMappings Desktop.fetchImplementations phone
                   (Some AudioSystem.running) 48000
                   (AudioSystem.mkInitConfig None None)
                   (AudioSystem.constructor
                      (AudioSettings.constructor AudioSettings.NoItem false) 0)) in
  AudioSettings.userAgentIsMobile phone = true /\
  AudioSystem.maxConcurrentSounds
    (AudioSystem.run Desktop.JSON_stringify Desktop.fetchAudio
       [AudioSystem.AudioEvent "button_click" Desktop.noData] s0) = 8%nat.
Proof.
  intros phone s0. split; [reflexivity|].
  exact (proj2 (cap_ignores_performance_setting Desktop.JSON_stringify
                  Desktop.fetchAudio Desktop.fetchMappings Desktop.fetchImplementations
                  phone (Some AudioSystem.running) 48000
                  (AudioSystem.mkInitConfig None None)
                  (AudioSettings.constructor AudioSettings.NoItem false) 0
                  [AudioSystem.AudioEvent "button_click" Desktop.noData] eq_refl)).
Defined.

(** ** Stopping and re-levelling the active nodes *)

(** Altering the nodes of a list of identifiers with an idempotent
    function alters exactly those nodes, once. *)
Lemma fold_alter_lookup (f : AudioSystem.Node -> AudioSystem.Node) (ids : list nat)
      (s : AudioSystem.State) (id : nat) :
  (forall n, f (f n) = f n) ->
  AudioSystem.nodes
    (fold_right (fun id s => AudioSystem.with_nodes (alter f id (AudioSystem.nodes s)) s)
                s ids) !! id
  = if decide (id ∈ ids) then f <$> AudioSystem.nodes s !! id
    else AudioSystem.nodes s !! id.
Proof.
  intros Hf. induction ids as [|a ids IH]; cbn [fold_right].
  - rewrite decide_False by apply not_elem_of_nil. reflexivity.
  - cbn [AudioSystem.with_nodes AudioSystem.nodes].
    destruct (decide (a = id)) as [->|Hne].
    + rewrite list_lookup_alter_eq, IH.
      rewrite (decide_True (P := id ∈ id :: ids)) by (apply elem_of_cons; left; reflexivity).
      case_decide; [|reflexivity].
      destruct (AudioSystem.nodes s !! id); cbn; [rewrite Hf|]; reflexivity.
    + rewrite list_lookup_alter_ne by exact Hne. rewrite IH.
      destruct (decide (id ∈ ids)) as [Hin|Hnin].
      * rewrite decide_True by (apply elem_of_cons; right; exact Hin). reflexivity.
      * rewrite decide_False; [reflexivity|].
        intros Hin. apply elem_of_cons in Hin as [->|Hin]; [congruence | contradiction].
Qed.

(** X6. [stopAllSounds] empties the active set and calls [stop()] on
    every node that was active; the other nodes are left as they were, and
    the 10-second timers of the stopped nodes stay set. *)
Theorem stopAllSounds_stops_active (s : AudioSystem.State) :
  AudioSystem.active_in_store s ->
  let s' := AudioSystem.stopAllSounds s in
  AudioSystem.activeSounds s' = ∅ /\
  (forall id, id ∈ AudioSystem.activeSounds s ->
              exists n, AudioSystem.nodes s' !! id = Some n /\
                        AudioSystem.stopped n = true) /\
  (forall id, id ∉ AudioSystem.activeSounds s ->
              AudioSystem.nodes s' !! id = AudioSystem.nodes s !! id) /\
  AudioSystem.timers s' = AudioSystem.timers s.
Proof.
  intros Hs s'. subst s'.
  assert (Hlook : forall id,
             AudioSystem.nodes (AudioSystem.stopAllSounds s) !! id
             = if decide (id ∈ elements (AudioSystem.activeSounds s))
               then (fun n => AudioSystem.mkNode (AudioSystem.source n)
                                (AudioSystem.gainNode n) true (AudioSystem.tracked_at n))
                      <$> AudioSystem.nodes s !! id
               else AudioSystem.nodes s !! id).
  { intros id. unfold AudioSystem.stopAllSounds. cbn [AudioSystem.with_activeSounds
      AudioSystem.nodes].
    apply (fold_alter_lookup _ (elements (AudioSystem.activeSounds s)) s id).
    reflexivity. }
  split; [reflexivity|]. split; [|split].
  - intros id Hid. rewrite Hlook, decide_True by (apply elem_of_elements, Hid).
    destruct (lookup_lt_is_Some_2 (AudioSystem.nodes s) id (Hs id Hid)) as [n Hn].
    rewrite Hn. eexists. split; reflexivity.
  - intros id Hid. rewrite Hlook, decide_False; [reflexivity|].
    intros Hin. apply Hid, elem_of_elements, Hin.
  - destruct (fold_stopNode_same_tracking (elements (AudioSystem.activeSounds s)) s)
      as (_ & Ht & _). exact Ht.
Qed.

Lemma stopAllSounds_stops_active_witness :
  let s := Desktop.run [AudioSystem.AudioEvent "button_click" Desktop.noData;
                        AudioSystem.Resume 0 true] Desktop.system in
  AudioSystem.active_in_store s /\
  AudioSystem.activeSounds (AudioSystem.stopAllSounds s) = ∅.
Proof.
  intros s.
  assert (Hs : AudioSystem.active_in_store s)
    by exact (proj2 (run_tracked_well Desktop.JSON_stringify Desktop.fetchAudio _
                       Desktop.system desktop_system_tracked_well)).
  split; [exact Hs|].
  exact (proj1 (stopAllSounds_stops_active s Hs)).
Defined.

(** X7. On a volume change every active node that has a gain node gets
    the volume of the category ['game'], whatever sound it plays: no node
    carries a sound name, so the category is looked up for ['unknown'].
    Inactive nodes keep their gain.  When that volume is NaN the first gain
    refuses it and nothing changes. *)
Theorem handleVolumeChange_levels_active (s : AudioSystem.State) (id : nat)
        (n : AudioSystem.Node) (g : Q) :
  AudioSystem.nodes s !! id = Some n ->
  AudioSystem.gainNode n = Some g ->
  let s' := AudioSystem.handleVolumeChange s in
  let volume := AudioSettings.getVolume (Some "game"%string)
                  (AudioSystem.audioSettings s) in
  (forall vol, volume = JS.Finite vol ->
     id ∈ AudioSystem.activeSounds s ->
     exists n', AudioSystem.nodes s' !! id = Some n' /\
                AudioSystem.gainNode n' = Some vol) /\
  (id ∉ AudioSystem.activeSounds s -> AudioSystem.nodes s' !! id = Some n) /\
  AudioSystem.activeSounds s' = AudioSystem.activeSounds s /\
  (volume = JS.NaN -> s' = s) /\
  (volume = JS.NaN \/ exists vol, volume = JS.Finite vol).
Proof.
  intros Hn Hg s' volume. subst s' volume.
  change (Some "game"%string) with (Some (AudioSystem.getSoundCategory "unknown")).
  split; [|split; [|split; [|split]]].
  - intros vol Hv Hid.
    set (f := fun n : AudioSystem.Node =>
                match AudioSystem.gainNode n with
                | Some _ => AudioSystem.mkNode (AudioSystem.source n) (Some vol)
                              (AudioSystem.stopped n) (AudioSystem.tracked_at n)
                | None => n
                end).
    assert (Hlook :
              AudioSystem.nodes (AudioSystem.handleVolumeChange s) !! id
              = if decide (id ∈ elements (AudioSystem.activeSounds s))
                then f <$> AudioSystem.nodes s !! id
                else AudioSystem.nodes s !! id).
    { unfold AudioSystem.handleVolumeChange. rewrite Hv.
      apply (fold_alter_lookup f (elements (AudioSystem.activeSounds s)) s id).
      intros m. unfold f. destruct (AudioSystem.gainNode m) eqn:E; cbn; [reflexivity|].
      rewrite E. reflexivity. }
    rewrite Hlook, decide_True by (apply elem_of_elements, Hid).
    rewrite Hn. cbn. eexists. split; [reflexivity|]. unfold f. rewrite Hg. reflexivity.
  - intros Hid. unfold AudioSystem.handleVolumeChange.
    destruct (AudioSettings.getVolume _ _) as [| |vol|]; try exact Hn.
    rewrite (fold_alter_lookup
               (fun n : AudioSystem.Node =>
                  match AudioSystem.gainNode n with
                  | Some _ => AudioSystem.mkNode (AudioSystem.source n) (Some vol)
                                (AudioSystem.stopped n) (AudioSystem.tracked_at n)
                  | None => n
                  end) (elements (AudioSystem.activeSounds s)) s id).
    + rewrite decide_False; [exact Hn|].
      intros Hin. apply Hid, elem_of_elements, Hin.
    + intros m. destruct (AudioSystem.gainNode m) eqn:E; cbn; [reflexivity|].
      rewrite E. reflexivity.
  - exact (proj1 (handleVolumeChange_same_tracking s)).
  - intros Hv. unfold AudioSystem.handleVolumeChange. rewrite Hv. reflexivity.
  - destruct (getVolume_NaN_or_unit (Some (AudioSystem.getSoundCategory "unknown"))
                (AudioSystem.audioSettings s)) as [E|(q & E & _)];
      [left; exact E | right; exists q; exact E].
Qed.

Lemma handleVolumeChange_levels_active_witness :
  let s := Desktop.run [AudioSystem.AudioEvent "button_click" Desktop.noData;
                        AudioSystem.Resume 0 true] Desktop.system in
  exists n g vol n',
    AudioSystem.nodes s !! 0%nat = Some n /\
    AudioSystem.gainNode n = Some g /\
    AudioSettings.getVolume (Some "game"%string) (AudioSystem.audioSettings s)
    = JS.Finite vol /\
    AudioSystem.nodes (AudioSystem.handleVolumeChange s) !! 0%nat = Some n' /\
    AudioSystem.gainNode n' = Some vol.
Proof.
  intros s.
  assert (H : exists n g, AudioSystem.nodes s !! 0%nat = Some n /\
                          AudioSystem.gainNode n = Some g)
    by (vm_compute; eexists _, _; split; reflexivity).
  destruct H as (n & g & Hn & Hg).
  assert (Hv : exists vol,
             AudioSettings.getVolume (Some "game"%string) (AudioSystem.audioSettings s)
             = JS.Finite vol)
    by (vm_compute; eexists; reflexivity).
  destruct Hv as (vol & Hv).
  assert (Hid : 0%nat ∈ AudioSystem.activeSounds s).
  { assert (E : AudioSystem.activeSounds s = {[0%nat]} ∪ ∅) by reflexivity.
    rewrite E. set_solver. }
  destruct (proj1 (handleVolumeChange_levels_active s 0%nat n g Hn Hg) vol Hv Hid)
    as (n' & Hn' & Hg').
  exists n, g, vol, n'. repeat split; assumption.
Defined.

(** ** After [destroy], and while disabled *)











(** ** More on the audio settings *)



Lemma flat_map_nil {A B} (f : A -> list B) (l : list A) :
  (forall x, In x l -> f x = []) -> flat_map f l = [].
Proof.
  induction l as [|x l IH]; intros H; [reflexivity|].
  cbn. rewrite (H x) by (left; reflexivity). apply IH.
  intros y Hy. apply H. right. exact Hy.
Qed.

(** What a volume setter stores is never out of range for
    [validateSettings]: NaN is neither below 0 nor above 1. *)
Lemma outOfRange_clamp (v : JS.number) :
  AudioSettings.outOfRange (JS.Number (AudioSettings.clamp v)) = false.
Proof.
  destruct (clamp_cases v) as [E|(q & E & H0 & H1)];
    unfold AudioSettings.outOfRange; cbn [JS.ToNumber]; rewrite E; [reflexivity|].
  cbn. rewrite (proj2 (Qle_bool_iff 0 q) H0), (proj2 (Qle_bool_iff q 1) H1).
  reflexivity.
Qed.

Lemma reachable_in_range (item : AudioSettings.StorageItem) (throws : bool)
      (a : AudioSettings.State) :
  AudioSettings.reachable (fun _ => True) (AudioSettings.constructor item throws) a ->
  AudioSettings.in_range a.
Proof.
  induction 1 as [|v a Ha IH _|c v a Ha IH _|b a Ha IH|b a Ha IH].
  - split; [reflexivity|]. split; [|reflexivity].
    intros c cs Hin. cbn in Hin.
    repeat (destruct Hin as [[= <- <-]|Hin]; [reflexivity|]). destruct Hin.
  - destruct IH as (_ & IHc & IHp). unfold AudioSettings.in_range.
    rewrite setMasterVolume_settings. split; [apply outOfRange_clamp|].
    split; [exact IHc | exact IHp].
  - destruct IH as (IHm & IHc & IHp). unfold AudioSettings.in_range.
    destruct (setCategoryVolume_categories c v a) as (Ec & Eg & Ep).
    rewrite Ec, Eg, Ep.
    split; [exact IHm|]. split; [|exact IHp].
    destruct (JS.Object_get c _) as [cs0|]; [|exact IHc].
    intros c' cs' Hin. apply Map_set_In in Hin as [[= -> ->]|Hin].
    + apply outOfRange_clamp.
    + eapply IHc, Hin.
  - unfold AudioSettings.in_range. rewrite setMute_settings. exact IH.
  - unfold AudioSettings.in_range. rewrite setEnabled_settings. exact IH.
Qed.

(** X11. The settings reached from the constructor's through the volume
    and switch setters always pass [validateSettings], whatever numbers the
    setters are called with: its list of errors is empty. *)
Theorem reachable_settings_valid (item : AudioSettings.StorageItem) (throws : bool)
        (a : AudioSettings.State) :
  AudioSettings.reachable (fun _ => True) (AudioSettings.constructor item throws) a ->
  AudioSettings.validateSettings a = [].
Proof.
  intros Hr. destruct (reachable_in_range item throws a Hr) as (Hm & Hc & Hp).
  unfold AudioSettings.validateSettings. cbv zeta.
  rewrite Hm, Hp. cbn [app].
  rewrite flat_map_nil; [reflexivity|].
  intros [c cs] Hin. cbn [fst snd]. rewrite (Hc c cs Hin). reflexivity.
Qed.

Lemma reachable_settings_valid_witness :
  let a := AudioSettings.setCategoryVolume "music" (JS.Finite 7)
             (AudioSettings.setMasterVolume JS.NaN
                (AudioSettings.constructor AudioSettings.Unparsable true)) in
  AudioSettings.reachable (fun _ => True)
    (AudioSettings.constructor AudioSettings.Unparsable true) a /\
  AudioSettings.validateSettings a = [].
Proof.
  intros a.
  assert (Hr : AudioSettings.reachable (fun _ => True)
                 (AudioSettings.constructor AudioSettings.Unparsable true) a)
    by (repeat constructor).
  split; [exact Hr|].
  exact (reachable_settings_valid AudioSettings.Unparsable true a Hr).
Defined.

Lemma spread_stringify (s s0 : AudioSettings.Settings) :
  AudioSettings.spread s0 (AudioSettings.stringify s) = AudioSettings.JSON_copy s.
Proof. reflexivity. Qed.

Lemma JSON_copy_unit (v : JS.value) :
  AudioSettings.unit_volume v -> JS.JSON_copy v = v.
Proof.
  intros (q & Hq & _). destruct v as [| |[| |q'|]]; try discriminate Hq; reflexivity.
Qed.

Lemma JSON_copy_clamped (a : AudioSettings.State) :
  AudioSettings.volumes_clamped a ->
  AudioSettings.JSON_copy (AudioSettings.settings a) = AudioSettings.settings a.
Proof.
  intros [Hm Hc]. destruct (AudioSettings.settings a) as [g cats pf pl q dbg cp pr].
  cbn in *. unfold AudioSettings.JSON_copy. cbn.
  rewrite (JSON_copy_unit _ Hm). destruct g as [e m mu]. cbn. f_equal.
  induction cats as [|[c cs] cats IH]; [reflexivity|].
  cbn. rewrite IH by (intros c' cs' Hin; apply (Hc c' cs'); right; exact Hin).
  rewrite (JSON_copy_unit (AudioSettings.volume cs)) by (apply (Hc c cs); left; reflexivity).
  destruct cs. reflexivity.
Qed.

Lemma saveToStorage_saved (a : AudioSettings.State) :
  AudioSettings.setItemThrows a = false ->
  AudioSettings.saved (AudioSettings.saveToStorage a).
Proof.
  intros Ht. unfold AudioSettings.saveToStorage. rewrite Ht. reflexivity.
Qed.

(** X12. Settings survive a reload of the page when the storage takes
    them.  While [localStorage.setItem] succeeds, every setter leaves the
    storage item equal to the settings it has produced; when it throws, the
    settings change and the item stays what it was.  In a desktop browser a
    fresh settings object initialized from a saved item has the settings as
    JSON gives them back: the same settings when the stored volumes are
    numbers of [0, 1], and [null] in the place of a volume that was NaN. *)
Theorem settings_survive_reload (a : AudioSettings.State) (nav : AudioSettings.Navigator) :
  AudioSettings.desktop nav ->
  (AudioSettings.setItemThrows a = false ->
   (forall v, AudioSettings.saved (AudioSettings.setMasterVolume v a)) /\
   (forall b, AudioSettings.saved (AudioSettings.setMute b a)) /\
   (forall b, AudioSettings.saved (AudioSettings.setEnabled b a)) /\
   (forall c v,
       AudioSettings.lookupCategory c (AudioSettings.settings a) <> AudioSettings.Missing ->
       AudioSettings.saved (AudioSettings.setCategoryVolume c v a)) /\
   (forall c b,
       AudioSettings.lookupCategory c (AudioSettings.settings a) <> AudioSettings.Missing ->
       AudioSettings.saved (AudioSettings.setCategoryEnabled c b a))) /\
  (AudioSettings.setItemThrows a = true ->
   forall v,
     AudioSettings.storage (AudioSettings.setMasterVolume v a) = AudioSettings.storage a /\
     AudioSettings.masterVolume
       (AudioSettings.global (AudioSettings.settings (AudioSettings.setMasterVolume v a)))
     = JS.Number (AudioSettings.clamp v)) /\
  (forall a' throws,
      AudioSettings.saved a' ->
      let reloaded :=
        fst (AudioSettings.initialize nav
               (AudioSettings.constructor (AudioSettings.storage a') throws)) in
      AudioSettings.settings reloaded = AudioSettings.JSON_copy (AudioSettings.settings a') /\
      (AudioSettings.volumes_clamped a' ->
       AudioSettings.settings reloaded = AudioSettings.settings a') /\
      (AudioSettings.masterVolume (AudioSettings.global (AudioSettings.settings a'))
       = JS.Number JS.NaN ->
       AudioSettings.masterVolume (AudioSettings.global (AudioSettings.settings reloaded))
       = JS.Null)).
Proof.
  intros [Hmob Hlow]. split; [|split].
  - intros Ht. split; [|split; [|split; [|split]]].
    + intros v. unfold AudioSettings.setMasterVolume, AudioSettings.saveToStorage.
      cbn. rewrite Ht. reflexivity.
    + intros b. unfold AudioSettings.setMute, AudioSettings.saveToStorage.
      cbn. rewrite Ht. reflexivity.
    + intros b. unfold AudioSettings.setEnabled, AudioSettings.saveToStorage.
      cbn. rewrite Ht. reflexivity.
    + intros c v Hl. unfold AudioSettings.setCategoryVolume, AudioSettings.saveToStorage.
      destruct (AudioSettings.lookupCategory c _); [| |contradiction];
        cbn; rewrite Ht; reflexivity.
    + intros c b Hl. unfold AudioSettings.setCategoryEnabled, AudioSettings.saveToStorage.
      destruct (AudioSettings.lookupCategory c _); [| |contradiction];
        cbn; rewrite Ht; reflexivity.
  - intros Ht v. unfold AudioSettings.setMasterVolume, AudioSettings.saveToStorage.
    cbn. rewrite Ht. split; reflexivity.
  - intros a' throws Hs reloaded.
    assert (Hre : AudioSettings.settings reloaded
                  = AudioSettings.JSON_copy (AudioSettings.settings a')).
    { subst reloaded. unfold AudioSettings.initialize. cbv zeta.
      cbn [fst AudioSettings.settings].
      unfold AudioSettings.detectPlatform. rewrite Hmob, Hlow. cbn [orb].
      unfold AudioSettings.loadFromStorage.
      cbn [AudioSettings.constructor AudioSettings.storage].
      rewrite Hs. cbn [AudioSettings.with_settings AudioSettings.settings].
      apply spread_stringify. }
    split; [exact Hre|]. split.
    + intros Hc. rewrite Hre. apply JSON_copy_clamped, Hc.
    + intros Hn. rewrite Hre. cbn. rewrite Hn. reflexivity.
Qed.

Lemma settings_survive_reload_witness :
  let a := AudioSettings.setMasterVolume (JS.Finite 0.25)
             (AudioSettings.constructor AudioSettings.NoItem false) in
  AudioSettings.desktop Desktop.navigator /\
  AudioSettings.masterVolume
    (AudioSettings.global
       (AudioSettings.settings
          (fst (AudioSettings.initialize Desktop.navigator
                  (AudioSettings.constructor (AudioSettings.storage a) false)))))
  = AudioSettings.vol 0.25.
Proof.
  intros a.
  assert (Hd : AudioSettings.desktop Desktop.navigator) by (split; reflexivity).
  split; [exact Hd|].
  destruct (settings_survive_reload
              (AudioSettings.constructor AudioSettings.NoItem false)
              Desktop.navigator Hd) as (Hsaved & _ & Hload).
  destruct (Hload a false (proj1 (Hsaved eq_refl) (JS.Finite 0.25))) as (Hre & _ & _).
  exact (f_equal (fun s => AudioSettings.masterVolume (AudioSettings.global s)) Hre).
Defined.



(** X14. [detectPlatform] caps [maxConcurrentSounds] at 4 and the buffer
    pool at 5 and switches spatial audio off on a mobile or low-end device,
    turning preloading off on a low-end one; it leaves a desktop browser's
    settings alone; and running it again changes nothing more.  It never
    touches the volumes. *)
Theorem detectPlatform_effect (nav : AudioSettings.Navigator) (a : AudioSettings.State) :
  let a' := AudioSettings.detectPlatform nav a in
  let s' := AudioSettings.settings a' in
  (AudioSettings.userAgentIsMobile nav = true \/ AudioSettings.isLowEndDevice nav = true ->
   AudioSettings.maxConcurrentSounds (AudioSettings.performance s') = 4 /\
   AudioSettings.bufferPoolSize (AudioSettings.performance s') = 5 /\
   AudioSettings.spatialAudio (AudioSettings.quality s') = false /\
   AudioSettings.mobileOptimized (AudioSettings.platform s') = true) /\
  (AudioSettings.isLowEndDevice nav = true ->
   AudioSettings.preloadEnabled (AudioSettings.performance s') = false /\
   AudioSettings.batterySaverMode (AudioSettings.platform s') = true) /\
  (AudioSettings.desktop nav -> a' = a) /\
  AudioSettings.detectPlatform nav a' = a' /\
  AudioSettings.global s' = AudioSettings.global (AudioSettings.settings a) /\
  AudioSettings.categories s' = AudioSettings.categories (AudioSettings.settings a).
Proof.
  intros a' s'. subst s' a'. unfold AudioSettings.detectPlatform, AudioSettings.desktop.
  destruct (AudioSettings.userAgentIsMobile nav), (AudioSettings.isLowEndDevice nav);
    cbn [orb];
    (split; [|split; [|split; [|split; [|split]]]]);
    try reflexivity;
    try (intros _; repeat split; reflexivity);
    try (intros [H|H]; discriminate H);
    try (intros H; discriminate H);
    try (intros [H1 H2]; discriminate).
Qed.

Lemma detectPlatform_effect_witness :
  let nav := AudioSettings.mkNavigator true None None in
  let a := AudioSettings.constructor AudioSettings.NoItem false in
  AudioSettings.userAgentIsMobile nav = true /\
  AudioSettings.maxConcurrentSounds
    (AudioSettings.performance
       (AudioSettings.settings (AudioSettings.detectPlatform nav a))) = 4.
Proof.
  intros nav a. split; [reflexivity|].
  exact (proj1 (proj1 (detectPlatform_effect nav a) (or_introl eq_refl))).
Defined.

(** X15. Setting the master volume and reading it back: with the sound
    enabled and not muted, [getVolume()] after [setMasterVolume(v)] is [v]
    for a volume [v] of [0, 1], 0 for one below 0, 1 for one above 1, and
    NaN for NaN; and switching the sound off and on again gives every
    category the volume it had. *)
Theorem volume_set_and_read_back (a : AudioSettings.State) (v : Q) :
  let g := AudioSettings.global (AudioSettings.settings a) in
  AudioSettings.enabled g = true -> AudioSettings.mute g = false ->
  (exists r,
      AudioSettings.getVolume None (AudioSettings.setMasterVolume (JS.Finite v) a)
      = JS.Finite r /\
      ((0 <= v <= 1)%Q -> (r == v)%Q) /\
      ((v < 0)%Q -> (r == 0)%Q) /\
      ((1 < v)%Q -> (r == 1)%Q)) /\
  AudioSettings.getVolume None (AudioSettings.setMasterVolume JS.NaN a) = JS.NaN /\
  (forall c, AudioSettings.getVolume c
               (AudioSettings.setEnabled true (AudioSettings.setEnabled false a))
             = AudioSettings.getVolume c a).
Proof.
  intros g He Hm. subst g.
  assert (Hr : forall n,
             AudioSettings.getVolume None (AudioSettings.setMasterVolume n a)
             = AudioSettings.clamp (AudioSettings.clamp n)).
  { intros n. unfold AudioSettings.getVolume. rewrite setMasterVolume_settings.
    cbn. rewrite He, Hm. reflexivity. }
  split; [|split].
  - rewrite Hr. destruct (clamp_finite v) as (r1 & E1 & A1 & B1 & C1). rewrite E1.
    destruct (clamp_finite r1) as (r2 & E2 & A2 & B2 & C2). rewrite E2.
    exists r2. split; [reflexivity|].
    assert (Hin : (0 <= r1 <= 1)%Q).
    { destruct (clamp_range (JS.Finite v)) as (q & Eq & Hq); [discriminate|].
      rewrite E1 in Eq. injection Eq as <-. exact Hq. }
    specialize (A2 Hin). repeat split; intros H; rewrite A2; auto.
  - rewrite Hr. reflexivity.
  - intros c. unfold AudioSettings.getVolume.
    rewrite !setEnabled_settings. cbn. rewrite He, Hm. reflexivity.
Qed.

Lemma volume_set_and_read_back_witness :
  let a := AudioSettings.constructor AudioSettings.NoItem false in
  AudioSettings.enabled (AudioSettings.global (AudioSettings.settings a)) = true /\
  AudioSettings.mute (AudioSettings.global (AudioSettings.settings a)) = false /\
  AudioSettings.getVolume None (AudioSettings.setMasterVolume JS.NaN a) = JS.NaN.
Proof.
  intros a. split; [reflexivity|]. split; [reflexivity|].
  exact (proj1 (proj2 (volume_set_and_read_back a 0.4%Q eq_refl eq_refl))).
Defined.



(** ** More on the sound mapping system *)

(** X16. Mappings added with [addMapping] are found again, and removed
    ones are gone: in an initialized system in which the loop steps over
    every conditional mapping on the data, [getSoundForAction] returns the
    sound just added for the action, leaves the answer for every other
    action unchanged, and returns [null] after [removeMapping]. *)
Theorem addMapping_then_lookup
        (s : SoundMappingSystem.State) (action soundName : string)
        (data : SoundMappingSystem.EventData) :
  SoundMappingSystem.isInitialized s = true ->
  Forall (SoundMappingSystem.skips data) (SoundMappingSystem.conditionalMappings s) ->
  soundName <> ""%string ->
  SoundMappingSystem.getSoundForAction action data
    (SoundMappingSystem.addMapping action soundName s) = JS.Return (Some soundName) /\
  (forall other, other <> action ->
      SoundMappingSystem.getSoundForAction other data
        (SoundMappingSystem.addMapping action soundName s)
      = SoundMappingSystem.getSoundForAction other data s) /\
  SoundMappingSystem.getSoundForAction action data
    (SoundMappingSystem.removeMapping action
       (SoundMappingSystem.addMapping action soundName s)) = JS.Return None.
Proof.
  intros Hi Hs Hne.
  pose proof (firstMatch_none data _ Hs) as Hf.
  unfold SoundMappingSystem.getSoundForAction. cbn. rewrite Hi, Hf. cbn.
  split; [|split].
  - rewrite lookup_insert_eq. destruct (String.eqb_spec soundName ""); [contradiction|].
    reflexivity.
  - intros other Ho. rewrite lookup_insert_ne by congruence. reflexivity.
  - rewrite lookup_delete_eq. reflexivity.
Qed.

Lemma addMapping_then_lookup_witness :
  let s := fst (SoundMappingSystem.initialize Desktop.fetchMappings
                  (SoundMappingSystem.ConfigObject
                     (SoundMappingSystem.mkConfig (Some []) None))
                  SoundMappingSystem.constructor) in
  SoundMappingSystem.isInitialized s = true /\
  SoundMappingSystem.getSoundForAction "cat_purr" Desktop.noData
    (SoundMappingSystem.addMapping "cat_purr" "purr_sound" s)
  = JS.Return (Some "purr_sound"%string).
Proof.
  intros s. split; [reflexivity|].
  refine (proj1 (addMapping_then_lookup s "cat_purr" "purr_sound" Desktop.noData
                   eq_refl _ _)).
  - constructor.
  - discriminate.
Defined.

Lemma fold_Map_set_In {V} (entries : list (string * V)) :
  forall (m : list (string * V)) (kv : string * V),
    In kv (fold_left (fun m (e : string * V) => JS.Map_set e.1 e.2 m) entries m) ->
    In kv entries \/ In kv m.
Proof.
  induction entries as [|[k v] entries IH]; intros m kv; cbn.
  - intros H. right. exact H.
  - intros H. destruct (IH _ _ H) as [E|E]; [left; right; exact E|].
    destruct (Map_set_In _ _ _ _ E) as [->|E']; [left; left; reflexivity|].
    right. exact E'.
Qed.

(** What the loop comes to when every mapping it meets has a function
    for its condition: a result, or the error one of the functions
    throws. *)
Lemma firstMatch_functions (data : SoundMappingSystem.EventData)
      (l : list (string * SoundMappingSystem.ConditionalMapping)) :
  Forall SoundMappingSystem.callable l ->
  (exists answer, SoundMappingSystem.firstMatch data l = JS.Return answer) \/
  (exists name m f msg,
      In (name, m) l /\ SoundMappingSystem.condition m = SoundMappingSystem.Predicate f /\
      f data = JS.Throw msg /\
      SoundMappingSystem.firstMatch data l = JS.Throw msg).
Proof.
  induction 1 as [|[name m] l Hm Hl IH].
  - left. eexists. reflexivity.
  - cbn [SoundMappingSystem.firstMatch].
    unfold SoundMappingSystem.callable in Hm. cbn [snd] in Hm.
    assert (Hrest :
      (exists answer, SoundMappingSystem.firstMatch data l = JS.Return answer) \/
      (exists name' m' f msg,
          In (name', m') ((name, m) :: l) /\
          SoundMappingSystem.condition m' = SoundMappingSystem.Predicate f /\
          f data = JS.Throw msg /\
          SoundMappingSystem.firstMatch data l = JS.Throw msg)).
    { destruct IH as [IH|(n' & m' & f & msg & Hin & Hc & Hd & Hr)]; [left; exact IH|].
      right. exists n', m', f, msg. repeat split; try assumption. right. exact Hin. }
    destruct (SoundMappingSystem.condition m) as [|f|] eqn:E;
      [exact Hrest| |contradiction].
    destruct (f data) as [[|]|msg] eqn:Ed.
    + left. eexists. reflexivity.
    + exact Hrest.
    + right. exists name, m, f, msg. repeat split; try assumption. left. reflexivity.
Qed.

Lemma validateConfig_functions (c : SoundMappingSystem.Config)
      (entries : list (string * SoundMappingSystem.ConditionalMapping)) :
  SoundMappingSystem.validateConfig c = [] ->
  SoundMappingSystem.config_conditional_mappings c = Some entries ->
  Forall SoundMappingSystem.callable entries.
Proof.
  intros Hv He. unfold SoundMappingSystem.validateConfig in Hv.
  apply app_eq_nil in Hv as [_ Hv]. rewrite He in Hv. clear He.
  induction entries as [|[k m] entries IH]; [constructor|].
  cbn in Hv. apply app_eq_nil in Hv as [Hk Hv].
  constructor; [|apply IH, Hv].
  unfold SoundMappingSystem.callable. cbn. intros E. rewrite E in Hk. discriminate Hk.
Qed.

(** X17. With a configuration object that passes [validateConfig],
    [initialize] returns [true], and [getSoundForAction] never calls what is
    no function: a lookup returns a sound name or [null] on every data on
    which the condition functions of the configuration return, and an error
    it throws is the error one of those functions has thrown on the data
    ([validateConfig] looks at the type of a condition only, and the loop
    has no [try] around the call). *)
Theorem validated_config_calls_functions_only
        (fetch : string -> JS.FetchResult SoundMappingSystem.MappingsFile)
        (c : SoundMappingSystem.Config) (s : SoundMappingSystem.State) :
  SoundMappingSystem.validateConfig c = [] ->
  let r := SoundMappingSystem.initialize fetch (SoundMappingSystem.ConfigObject c) s in
  let entries := default [] (SoundMappingSystem.config_conditional_mappings c) in
  snd r = true /\
  forall action data,
    ((forall name m f,
         In (name, m) entries ->
         SoundMappingSystem.condition m = SoundMappingSystem.Predicate f ->
         exists b, f data = JS.Return b) ->
     exists answer,
       SoundMappingSystem.getSoundForAction action data (fst r) = JS.Return answer) /\
    (forall msg,
        SoundMappingSystem.getSoundForAction action data (fst r) = JS.Throw msg ->
        exists name m f,
          In (name, m) entries /\
          SoundMappingSystem.condition m = SoundMappingSystem.Predicate f /\
          f data = JS.Throw msg).
Proof.
  intros Hv r entries. subst r. split; [reflexivity|].
  intros action data. cbn [SoundMappingSystem.initialize fst].
  unfold SoundMappingSystem.getSoundForAction.
  cbn [SoundMappingSystem.isInitialized negb SoundMappingSystem.conditionalMappings
       SoundMappingSystem.mappings].
  set (l := SoundMappingSystem.conditionalMappings (SoundMappingSystem.loadConfig c s)).
  assert (Hsub : forall kv, In kv l -> In kv entries).
  { intros kv Hin. subst l entries. cbn in Hin.
    destruct (SoundMappingSystem.config_conditional_mappings c) as [es|]; [|destruct Hin].
    destruct (fold_Map_set_In es [] kv Hin) as [H|[]]. exact H. }
  assert (Hcall : Forall SoundMappingSystem.callable l).
  { apply Forall_forall. intros kv Hin. apply list_elem_of_In, Hsub in Hin.
    subst entries.
    destruct (SoundMappingSystem.config_conditional_mappings c) as [es|] eqn:E;
      [|destruct Hin].
    pose proof (validateConfig_functions c es Hv E) as Hall.
    rewrite Forall_forall in Hall. apply Hall. apply list_elem_of_In. exact Hin. }
  destruct (firstMatch_functions data l Hcall)
    as [[answer Hr]|(name & m & f & msg & Hin & Hc & Hd & Hr)]; rewrite Hr.
  - split.
    + intros _. destruct answer as [snd|]; [eexists; reflexivity|].
      destruct (_ !! action); eexists; reflexivity.
    + intros msg H. exfalso. destruct answer as [snd|]; [discriminate H|].
      destruct (_ !! action); discriminate H.
  - split.
    + intros Hsafe. destruct (Hsafe name m f (Hsub _ Hin) Hc) as [b Hb].
      rewrite Hb in Hd. discriminate Hd.
    + intros msg' [= <-]. exists name, m, f. repeat split; try assumption.
      apply Hsub, Hin.
Qed.

Lemma validated_config_calls_functions_only_witness :
  SoundMappingSystem.validateConfig SoundMappingSystem.defaultConfig = [] /\
  exists answer,
    SoundMappingSystem.getSoundForAction "level_up" Desktop.noData
      (fst (SoundMappingSystem.initialize Desktop.fetchMappings
              (SoundMappingSystem.ConfigObject SoundMappingSystem.defaultConfig)
              SoundMappingSystem.constructor))
    = JS.Return answer.
Proof.
  assert (H : SoundMappingSystem.validateConfig SoundMappingSystem.defaultConfig = [])
    by reflexivity.
  split; [exact H|].
  refine (proj1 (proj2 (validated_config_calls_functions_only Desktop.fetchMappings
                   SoundMappingSystem.defaultConfig SoundMappingSystem.constructor H)
            "level_up"%string Desktop.noData) _).
  intros name m f Hin Hc. cbn in Hin.
  repeat (destruct Hin as [[= <- <-]|Hin];
          [injection Hc as <-; eexists; reflexivity|]).
  destruct Hin.
Defined.

(** X18. A conditional mapping whose [condition] is a truthy value that
    is no function (all a JSON file can give a directly listed mapping)
    makes [getSoundForAction] throw a TypeError for every action, as soon as
    the loop reaches it; [handleAudioEvent] catches the error and ignores
    the event. *)
Theorem not_callable_condition_throws
        (s : SoundMappingSystem.State) (data : SoundMappingSystem.EventData)
        (l1 l2 : list (string * SoundMappingSystem.ConditionalMapping))
        (name : string) (m : SoundMappingSystem.ConditionalMapping) :
  SoundMappingSystem.isInitialized s = true ->
  SoundMappingSystem.conditionalMappings s = l1 ++ (name, m) :: l2 ->
  SoundMappingSystem.condition m = SoundMappingSystem.NotCallable ->
  Forall (SoundMappingSystem.skips data) l1 ->
  (forall action,
      SoundMappingSystem.getSoundForAction action data s
      = JS.Throw "TypeError: mapping.condition is not a function") /\
  (forall JSON_stringify fetchAudio eventType sys,
      AudioSystem.soundMapping sys = Some s ->
      AudioSystem.handleAudioEvent JSON_stringify fetchAudio eventType data sys = sys).
Proof.
  intros Hi Hl Hm Hs.
  assert (Hf : SoundMappingSystem.firstMatch data (SoundMappingSystem.conditionalMappings s)
               = JS.Throw "TypeError: mapping.condition is not a function").
  { rewrite Hl, (firstMatch_skips data l1 _ Hs). cbn. rewrite Hm. reflexivity. }
  assert (Hg : forall action,
             SoundMappingSystem.getSoundForAction action data s
             = JS.Throw "TypeError: mapping.condition is not a function").
  { intros action. unfold SoundMappingSystem.getSoundForAction. rewrite Hi, Hf.
    reflexivity. }
  split; [exact Hg|].
  intros JSON_stringify fetchAudio eventType sys Hsys.
  unfold AudioSystem.handleAudioEvent.
  destruct (negb (AudioSystem.isInitialized sys)); [reflexivity|].
  destruct (negb (JS.Number_truthy _)); [reflexivity|].
  rewrite Hsys, Hg. reflexivity.
Qed.

Lemma not_callable_condition_throws_witness :
  let file := SoundMappingSystem.Nested
                [("ui"%string,
                  SoundMappingSystem.mkCategoryConfig
                    (Some [("click"%string, SoundMappingSystem.mkAction "click_sound")]))]
                (Some (SoundMappingSystem.Direct
                         [("at_night"%string,
                           SoundMappingSystem.mkConditional
                             SoundMappingSystem.NotCallable "owl_sound")])) in
  let s := fst (SoundMappingSystem.initialize (fun _ => JS.Body file)
                  (SoundMappingSystem.ConfigPath "mappings.json")
                  SoundMappingSystem.constructor) in
  SoundMappingSystem.isInitialized s = true /\
  SoundMappingSystem.getSoundForAction "ui_click" Desktop.noData s
  = JS.Throw "TypeError: mapping.condition is not a function".
Proof.
  intros file s. split; [reflexivity|].
  refine (proj1 (not_callable_condition_throws s Desktop.noData [] []
                   "at_night"
                   (SoundMappingSystem.mkConditional SoundMappingSystem.NotCallable
                      "owl_sound")
                   eq_refl eq_refl eq_refl _) "ui_click"%string).
  constructor.
Defined.

Lemma Map_set_keys {V} (k : string) (v : V) (m : list (string * V)) :
  NoDup (map fst m) ->
  NoDup (map fst (JS.Map_set k v m)) /\
  forall k', In k' (map fst (JS.Map_set k v m)) <-> k' = k \/ In k' (map fst m).
Proof.
  induction m as [|[k0 v0] m IH]; cbn; intros Hnd.
  - split; [repeat constructor; apply not_elem_of_nil|].
    intros k'. split; [intros [<-|[]]; left; reflexivity | intros [->|[]]; left; reflexivity].
  - apply NoDup_cons in Hnd as [Hk0 Hnd]. destruct (IH Hnd) as [IH1 IH2].
    destruct (String.eqb_spec k k0) as [->|Hne]; cbn.
    + split; [apply NoDup_cons; split; assumption|].
      intros k'. split; [intros [<-|H]; [left; reflexivity | right; right; exact H]|].
      intros [->|[<-|H]]; [left; reflexivity | left; reflexivity | right; exact H].
    + split.
      * apply NoDup_cons. split; [|exact IH1].
        intros Hin. apply list_elem_of_In, IH2 in Hin as [->|Hin]; [contradiction|].
        apply Hk0, list_elem_of_In, Hin.
      * intros k'. rewrite IH2. tauto.
Qed.

Lemma Map_get_app {V} (k : string) (a b : list (string * V)) :
  JS.Map_get k (a ++ b)
  = match JS.Map_get k a with Some v => Some v | None => JS.Map_get k b end.
Proof.
  induction a as [|[ka va] a IHa]; cbn; [reflexivity|].
  destruct (String.eqb k ka); [reflexivity | apply IHa].
Qed.

Lemma Map_get_fold_assign {V} (l : list (string * V)) :
  forall (m : list (string * V)) (k : string),
    k <> "__proto__"%string ->
    JS.Map_get k (fold_left (fun o (kv : string * V) => JS.Object_assign kv.1 kv.2 o) l m)
    = match JS.Map_get k (rev l) with
      | Some v => Some v
      | None => JS.Map_get k m
      end.
Proof.
  induction l as [|[k0 v0] l IH]; intros m k Hk; cbn [fold_left rev].
  - reflexivity.
  - rewrite IH by exact Hk. rewrite Map_get_app. cbn [fst snd].
    destruct (JS.Map_get k (rev l)); [reflexivity|].
    unfold JS.Object_assign, JS.Object_set. cbn [JS.Map_get].
    destruct (String.eqb_spec k0 "__proto__") as [->|_].
    + destruct (String.eqb_spec k "__proto__"); [contradiction | reflexivity].
    + rewrite Map_get_Map_set. destruct (String.eqb k k0); reflexivity.
Qed.

Lemma fold_assign_keys {V} (l : list (string * V)) :
  forall m : list (string * V),
    NoDup (map fst m) ->
    ~ In "__proto__"%string (map fst m) ->
    let o := fold_left (fun o (kv : string * V) => JS.Object_assign kv.1 kv.2 o) l m in
    NoDup (map fst o) /\ ~ In "__proto__"%string (map fst o).
Proof.
  induction l as [|[k v] l IH]; intros m Hm Hp; cbn [fold_left]; [split; assumption|].
  cbn [fst snd].
  destruct (String.eqb_spec k "__proto__") as [->|Hk]; [apply IH; assumption|].
  assert (E : JS.Object_assign k v m = JS.Map_set k v m).
  { unfold JS.Object_assign. destruct (String.eqb_spec k "__proto__");
      [contradiction | reflexivity]. }
  rewrite E. destruct (Map_set_keys k v m Hm) as [Hnd Hkeys].
  apply IH; [exact Hnd|].
  intros Hin. apply Hkeys in Hin as [E'|Hin]; [congruence | contradiction].
Qed.

(** X19. [flattenMappings] builds an object, so a name is listed once:
    what it holds under a name is the sound of the last action, in file
    order, whose [category_action] is that name.  Two actions of different
    categories can meet in one name (['a'] with ['b_c'], ['a_b'] with
    ['c']), and then the earlier one is lost.  An action that comes to the
    name ['__proto__'] leaves no entry. *)
Theorem flattenMappings_last_wins
        (nested : list (string * SoundMappingSystem.CategoryConfig)) (key : string) :
  (key <> "__proto__"%string ->
   JS.Object_get key (SoundMappingSystem.flattenMappings nested)
   = JS.Map_get key (rev (SoundMappingSystem.flattenMappings_assignments nested))) /\
  JS.Object_get "__proto__" (SoundMappingSystem.flattenMappings nested) = None /\
  NoDup (map fst (SoundMappingSystem.flattenMappings nested)) /\
  forall s1 s2,
    SoundMappingSystem.flattenMappings
      [("a"%string,
        SoundMappingSystem.mkCategoryConfig
          (Some [("b_c"%string, SoundMappingSystem.mkAction s1)]));
       ("a_b"%string,
        SoundMappingSystem.mkCategoryConfig
          (Some [("c"%string, SoundMappingSystem.mkAction s2)]))]
    = [("a_b_c"%string, s2)].
Proof.
  destruct (fold_assign_keys (SoundMappingSystem.flattenMappings_assignments nested) []
              ltac:(constructor) ltac:(intros [])) as [Hnd Hp].
  split; [|split; [|split]].
  - intros Hk. unfold SoundMappingSystem.flattenMappings, JS.Object_get.
    rewrite Map_get_fold_assign by exact Hk. destruct (JS.Map_get key _); reflexivity.
  - unfold JS.Object_get.
    destruct (JS.Map_get _ _) as [v|] eqn:E; [|reflexivity].
    exfalso. apply Hp. apply Map_get_In in E.
    apply (in_map fst) in E. exact E.
  - exact Hnd.
  - intros s1 s2. reflexivity.
Qed.

Lemma flattenMappings_last_wins_witness :
  JS.Object_get "ui_click_x"
    (SoundMappingSystem.flattenMappings
       [("ui"%string,
         SoundMappingSystem.mkCategoryConfig
           (Some [("click_x"%string, SoundMappingSystem.mkAction "click_sound")]));
        ("ui_click"%string,
         SoundMappingSystem.mkCategoryConfig
           (Some [("x"%string, SoundMappingSystem.mkAction "tap_sound")]))])
  = Some "tap_sound"%string.
Proof.
  refine (eq_trans
            (proj1 (flattenMappings_last_wins
                      [("ui"%string,
                        SoundMappingSystem.mkCategoryConfig
                          (Some [("click_x"%string,
                                  SoundMappingSystem.mkAction "click_sound")]));
                       ("ui_click"%string,
                        SoundMappingSystem.mkCategoryConfig
                          (Some [("x"%string,
                                  SoundMappingSystem.mkAction "tap_sound")]))]
                      "ui_click_x") _) _).
  - discriminate.
  - reflexivity.
Defined.

Lemma lookup_fold_insert_nodup (entries : list (string * string)) :
  NoDup (map fst entries) ->
  forall (m : gmap string string) k v,
    (forall k', In k' (map fst entries) -> m !! k' = None) ->
    (fold_left (fun (m : gmap string string) kv => <[kv.1 := kv.2]> m) entries m !! k
     = Some v <-> In (k, v) entries \/ m !! k = Some v).
Proof.
  induction entries as [|[k0 v0] entries IH]; intros Hnd m k v Hm; cbn.
  - split; [intros H; right; exact H | intros [[]|H]; exact H].
  - inversion Hnd as [|? ? Hk0 Hnd']; subst.
    rewrite IH; [|exact Hnd'|].
    + split.
      * intros [Hin|Hl]; [left; right; exact Hin|].
        destruct (decide (k0 = k)) as [->|Hne].
        -- rewrite lookup_insert_eq in Hl. injection Hl as ->. left. left. reflexivity.
        -- rewrite lookup_insert_ne in Hl by exact Hne. right. exact Hl.
      * intros [[Heq|Hin]|Hl].
        -- injection Heq as -> ->. right. apply lookup_insert_eq.
        -- left. exact Hin.
        -- right. destruct (decide (k0 = k)) as [->|Hne].
           ++ rewrite (Hm k) in Hl by (left; reflexivity). discriminate Hl.
           ++ rewrite lookup_insert_ne by exact Hne. exact Hl.
    + intros k' Hk'. rewrite lookup_insert_ne.
      * apply Hm. right. exact Hk'.
      * intros ->. apply Hk0, list_elem_of_In, Hk'.
Qed.

(** X20. [loadConfig] replaces the basic table: whatever was registered
    before, afterwards an action maps to a sound exactly if the
    configuration lists that pair (for a configuration whose action names are
    distinct). *)
Theorem loadConfig_replaces (entries : list (string * string))
        (conditional : option (list (string * SoundMappingSystem.ConditionalMapping)))
        (s : SoundMappingSystem.State) (action soundName : string) :
  NoDup (map fst entries) ->
  SoundMappingSystem.mappings
    (SoundMappingSystem.loadConfig
       (SoundMappingSystem.mkConfig (Some entries) conditional) s) !! action
  = Some soundName
  <-> In (action, soundName) entries.
Proof.
  intros Hnd. cbn.
  rewrite (lookup_fold_insert_nodup entries Hnd ∅ action soundName).
  - rewrite lookup_empty. split; [intros [H|H]; [exact H | discriminate H] | intros H; left; exact H].
  - intros k' _. apply lookup_empty.
Qed.

Lemma loadConfig_replaces_witness :
  let entries := [("a"%string, "one"%string); ("b"%string, "two"%string)] in
  NoDup (map fst entries) /\
  SoundMappingSystem.mappings
    (SoundMappingSystem.loadConfig
       (SoundMappingSystem.mkConfig (Some entries) None)
       (SoundMappingSystem.addMapping "old" "gone" SoundMappingSystem.constructor))
    !! "b"%string = Some "two"%string.
Proof.
  intros entries.
  assert (Hnd : NoDup (map fst entries)).
  { refine (bool_decide_unpack _ _). vm_compute. exact I. }
  split; [exact Hnd|].
  apply (proj2 (loadConfig_replaces entries None
                  (SoundMappingSystem.addMapping "old" "gone" SoundMappingSystem.constructor)
                  "b" "two" Hnd)).
  right. left. reflexivity.
Defined.

(** X21. With the default mappings, no event that
    [AudioManager.playGame] publishes has a sound: for an event without
    [delta] and [quality] in its data, [getSoundForAction] answers [null] to
    every [game_...] event type, while [playProduction('production_start')]
    and [playUI('emoji_select')] reach the entries the default table holds
    under their prefixed names. *)
Theorem game_events_silent_by_default
        (fetch : string -> JS.FetchResult SoundMappingSystem.MappingsFile)
        (s0 : SoundMappingSystem.State) (action : string)
        (data : SoundMappingSystem.EventData) :
  SoundMappingSystem.delta data = None ->
  SoundMappingSystem.quality data = None ->
  let s := fst (SoundMappingSystem.initialize fetch SoundMappingSystem.NoConfig s0) in
  SoundMappingSystem.getSoundForAction (AudioManager.playGame action) data s
  = JS.Return None /\
  SoundMappingSystem.getSoundForAction
    (AudioManager.playProduction "production_start") data s
  = JS.Return (Some "machine_start"%string) /\
  SoundMappingSystem.getSoundForAction (AudioManager.playUI "emoji_select") data s
  = JS.Return (Some "click_sound"%string).
Proof.
  intros Hd Hq s. subst s.
  unfold SoundMappingSystem.getSoundForAction.
  cbn [SoundMappingSystem.initialize fst SoundMappingSystem.isInitialized negb
       SoundMappingSystem.conditionalMappings SoundMappingSystem.mappings].
  assert (Hf : SoundMappingSystem.firstMatch data
                 (SoundMappingSystem.conditionalMappings
                    (SoundMappingSystem.loadDefaultConfig s0)) = JS.Return None).
  { cbn. rewrite Hd, Hq. reflexivity. }
  rewrite Hf. split; [|split].
  - unfold SoundMappingSystem.loadDefaultConfig, SoundMappingSystem.loadConfig,
      SoundMappingSystem.defaultConfig, AudioManager.playGame.
    cbn [SoundMappingSystem.config_mappings SoundMappingSystem.mappings fold_left
         fst snd String.append].
    repeat (rewrite lookup_insert_ne by discriminate).
    rewrite lookup_empty. reflexivity.
  - vm_compute. reflexivity.
  - vm_compute. reflexivity.
Qed.

Lemma game_events_silent_by_default_witness :
  SoundMappingSystem.getSoundForAction (AudioManager.playGame "purchase")
    Desktop.noData
    (fst (SoundMappingSystem.initialize Desktop.fetchMappings
            SoundMappingSystem.NoConfig SoundMappingSystem.constructor))
  = JS.Return None.
Proof.
  exact (proj1 (game_events_silent_by_default Desktop.fetchMappings
                  SoundMappingSystem.constructor "purchase" Desktop.noData
                  eq_refl eq_refl)).
Defined.



(** ** More on the sound factory *)

Section Preloading.

Variable JSON_stringify : option JS.json -> string.
Variable fetchAudio : string -> JS.FetchResult SoundFactory.AudioBuffer.

Let generateSound := SoundFactory.generateSound JSON_stringify fetchAudio.
Let preloadSound := SoundFactory.preloadSound JSON_stringify fetchAudio.
Let getCacheKey := SoundFactory.getCacheKey JSON_stringify.

(** X22. A file sound that was preloaded is served from the pool:
    [generateSound] hands the decoded buffer to [createSourceFromBuffer],
    which starts the node and puts no gain in front of it, whatever volume
    the options or the implementation ask for and whether or not the
    implementation loops; without the preload the same sound comes from
    [generateFromFile], not started, behind a gain of that volume, looping
    as configured. *)
Theorem preloaded_sound_served_from_pool
        (soundName : string) (o : SoundFactory.Options) (s : SoundFactory.State)
        (impl : SoundFactory.Implementation) (ctx : SoundFactory.AudioContext)
        (b : SoundFactory.AudioBuffer) :
  SoundFactory.isInitialized s = true ->
  SoundFactory.audioContext s = Some ctx ->
  SoundFactory.implementations s !! soundName = Some impl ->
  SoundFactory.type impl = Some "file"%string ->
  SoundFactory.audioBufferPool s = ∅ ->
  fetchAudio (SoundFactory.fullPath impl) = JS.Body b ->
  generateSound soundName o (preloadSound soundName s)
  = JS.Return (SoundFactory.BufferSource b true None false) /\
  generateSound soundName o s
  = JS.Return (SoundFactory.BufferSource b false
                 (Some (SoundFactory.fileVolume impl o)) (SoundFactory.loop impl)).
Proof.
  intros Hi Hc Hm Ht Hp Hf.
  unfold generateSound, preloadSound, SoundFactory.preloadSound.
  rewrite Hm. cbv zeta. rewrite Hp, lookup_empty, Ht.
  change (String.eqb "file" "file") with true. cbv iota.
  change (fetchAudio _) with (fetchAudio (SoundFactory.fullPath impl)).
  rewrite Hf, Hc. split.
  - unfold SoundFactory.generateSound.
    cbn [SoundFactory.with_pool SoundFactory.isInitialized SoundFactory.implementations
         SoundFactory.audioBufferPool].
    rewrite Hi, Hm. cbn [negb]. cbv zeta. rewrite lookup_insert_eq.
    unfold SoundFactory.createSourceFromBuffer.
    cbn [SoundFactory.audioContext SoundFactory.with_pool]. rewrite Hc. reflexivity.
  - unfold SoundFactory.generateSound. rewrite Hi, Hm. cbn [negb]. cbv zeta.
    rewrite Hp, lookup_empty, Ht.
    change (String.eqb "file" "web_audio") with false.
    change (String.eqb "file" "file") with true. cbv iota.
    unfold SoundFactory.generateFromFile. cbv zeta. rewrite Hp, lookup_empty.
    change (fetchAudio _) with (fetchAudio (SoundFactory.fullPath impl)).
    rewrite Hf, Hc. reflexivity.
Qed.

(** X23. [preloadSound] only adds to the pool: it leaves the context,
    the implementations and the initialization flag alone, an entry of the
    pool stays what it was, and a second preload of the same sound changes
    nothing. *)
Theorem preloadSound_only_adds (soundName : string) (s : SoundFactory.State) :
  let s' := preloadSound soundName s in
  SoundFactory.audioContext s' = SoundFactory.audioContext s /\
  SoundFactory.implementations s' = SoundFactory.implementations s /\
  SoundFactory.isInitialized s' = SoundFactory.isInitialized s /\
  (forall key b,
      SoundFactory.audioBufferPool s !! key = Some b ->
      SoundFactory.audioBufferPool s' !! key = Some b) /\
  preloadSound soundName s' = s'.
Proof.
  intros s'. subst s'. unfold preloadSound, SoundFactory.preloadSound.
  destruct (SoundFactory.implementations s !! soundName) as [impl|] eqn:Hm.
  2: { rewrite Hm. repeat split; auto. }
  cbv zeta.
  destruct (SoundFactory.audioBufferPool s !! _) as [b0|] eqn:Hp.
  { rewrite Hm, Hp. repeat split; auto. }
  destruct (match SoundFactory.type impl with
            | Some ty => String.eqb ty "file"
            | None => false
            end) eqn:Ht.
  2: { rewrite Hm, Hp, Ht. repeat split; auto. }
  destruct (fetchAudio _) as [| | |b] eqn:Hf;
    try solve [rewrite Hm, Hp, Ht, Hf; repeat split; auto].
  destruct (SoundFactory.audioContext s) as [ctx|] eqn:Hc.
  2: { rewrite Hm, Hp, Ht, Hf, Hc. repeat split; auto. }
  cbn [SoundFactory.with_pool SoundFactory.audioContext SoundFactory.implementations
       SoundFactory.isInitialized SoundFactory.audioBufferPool].
  rewrite Hm, lookup_insert_eq. repeat split; auto.
  intros key b' Hk. rewrite lookup_insert_ne; [exact Hk|].
  intros <-. rewrite Hp in Hk. discriminate Hk.
Qed.

End Preloading.

Lemma preloaded_sound_served_from_pool_witness :
  let meow := SoundFactory.mkImplementation (Some "file"%string) None None
                (Some "meow.mp3"%string) None None (Some (1 # 2)) true in
  let s := fst (SoundFactory.initialize Desktop.fetchImplementations
                  (SoundFactory.ConfigObject
                     (SoundFactory.mkConfig (Some [("meow"%string, meow)])))
                  (SoundFactory.constructor (Some (SoundFactory.mkContext 44100)))) in
  let fetch := fun _ : string => JS.Body (SoundFactory.Decoded "meow") in
  SoundFactory.generateSound Desktop.JSON_stringify fetch "meow"
    (SoundFactory.mkOptions None)
    (SoundFactory.preloadSound Desktop.JSON_stringify fetch "meow" s)
  = JS.Return (SoundFactory.BufferSource (SoundFactory.Decoded "meow") true None false).
Proof.
  intros meow s fetch.
  exact (proj1 (preloaded_sound_served_from_pool Desktop.JSON_stringify fetch
                  "meow" (SoundFactory.mkOptions None) s meow
                  (SoundFactory.mkContext 44100) (SoundFactory.Decoded "meow")
                  eq_refl eq_refl eq_refl eq_refl eq_refl eq_refl)).
Defined.

Lemma preloadSound_only_adds_witness :
  let meow := SoundFactory.mkImplementation (Some "file"%string) None None
                (Some "meow.mp3"%string) None None None false in
  let s := fst (SoundFactory.initialize Desktop.fetchImplementations
                  (SoundFactory.ConfigObject
                     (SoundFactory.mkConfig (Some [("meow"%string, meow)])))
                  (SoundFactory.constructor (Some (SoundFactory.mkContext 44100)))) in
  let fetch := fun _ : string => JS.Body (SoundFactory.Decoded "meow") in
  let s' := SoundFactory.preloadSound Desktop.JSON_stringify fetch "meow" s in
  SoundFactory.audioBufferPool s' !! "meow_{}"%string
  = Some (SoundFactory.Decoded "meow") /\
  SoundFactory.audioBufferPool
    (SoundFactory.preloadSound Desktop.JSON_stringify fetch "purr" s')
    !! "meow_{}"%string
  = Some (SoundFactory.Decoded "meow").
Proof.
  intros meow s fetch s'.
  assert (H : SoundFactory.audioBufferPool s' !! "meow_{}"%string
              = Some (SoundFactory.Decoded "meow")) by (vm_compute; reflexivity).
  split; [exact H|].
  exact (proj1 (proj2 (proj2 (proj2
           (preloadSound_only_adds Desktop.JSON_stringify fetch "purr" s'))))
           "meow_{}"%string (SoundFactory.Decoded "meow") H).
Defined.

Lemma generateWebAudio_supported impl g s ctx :
  SoundFactory.generator impl = Some g ->
  SoundFactory.supportedGenerator g = true ->
  SoundFactory.audioContext s = Some ctx ->
  exists src, SoundFactory.generateWebAudio impl s = JS.Return src.
Proof.
  intros Hg Hs Hc. unfold SoundFactory.generateWebAudio. rewrite Hg. cbv zeta.
  unfold SoundFactory.supportedGenerator in Hs. cbn in Hs.
  unfold SoundFactory.generateComplexSequence, SoundFactory.generateEnvelopeSequence,
    SoundFactory.generateChordSequence, SoundFactory.generatePulseWave,
    SoundFactory.generateFilteredNoise, SoundFactory.generateSimpleTone,
    SoundFactory.generateNoiseBurst, SoundFactory.generateFrequencySweep,
    SoundFactory.generatePulseSequence, SoundFactory.synthesize.
  rewrite Hc.
  repeat (destruct (String.eqb _ _); [eexists; reflexivity|]).
  discriminate Hs.
Qed.

Lemma default_implementation
      (s : SoundFactory.State) (soundName : string) (impl : SoundFactory.Implementation) :
  SoundFactory.implementations (SoundFactory.loadDefaultConfig s) !! soundName
  = Some impl ->
  SoundFactory.type impl = Some "web_audio"%string /\
  exists g, SoundFactory.generator impl = Some g /\
            SoundFactory.supportedGenerator g = true.
Proof.
  unfold SoundFactory.loadDefaultConfig, SoundFactory.loadConfig,
    SoundFactory.defaultConfig.
  cbn [SoundFactory.config_sounds SoundFactory.with_implementations
       SoundFactory.implementations fold_left fst snd].
  intros H.
  repeat (apply lookup_insert_Some in H as [[_ <-]|[_ H]];
          [split; [reflexivity | eexists; split; reflexivity]|]).
  rewrite lookup_empty in H. discriminate H.
Qed.

(** X24. With the default implementations and an audio context,
    [generateSound] never throws: for every sound name, every option and
    whatever the pool holds it returns a node (every generator the default
    table names is one [generateWebAudio] has a case for). *)
Theorem default_sounds_always_generate
        (JSON_stringify : option JS.json -> string)
        (fetchAudio : string -> JS.FetchResult SoundFactory.AudioBuffer)
        (fetch : string -> JS.FetchResult SoundFactory.ImplementationsFile)
        (s0 : SoundFactory.State) (ctx : SoundFactory.AudioContext)
        (soundName : string) (o : SoundFactory.Options) :
  SoundFactory.audioContext s0 = Some ctx ->
  exists src,
    SoundFactory.generateSound JSON_stringify fetchAudio soundName o
      (fst (SoundFactory.initialize fetch SoundFactory.NoConfig s0))
    = JS.Return src.
Proof.
  intros Hc. cbn [SoundFactory.initialize fst].
  set (s := SoundFactory.mkState _ _ _ true).
  assert (Hcs : SoundFactory.audioContext s = Some ctx) by exact Hc.
  unfold SoundFactory.generateSound.
  change (SoundFactory.isInitialized s) with true. cbn [negb].
  change (SoundFactory.implementations s)
    with (SoundFactory.implementations (SoundFactory.loadDefaultConfig s0)).
  destruct (_ !! soundName) as [impl|] eqn:Hm.
  - cbv zeta. destruct (SoundFactory.audioBufferPool s !! _) as [b|].
    + unfold SoundFactory.createSourceFromBuffer. rewrite Hcs. eexists. reflexivity.
    + destruct (default_implementation s0 soundName impl Hm) as (Ht & g & Hg & Hs).
      rewrite Ht. change (String.eqb "web_audio" "web_audio") with true. cbv iota.
      exact (generateWebAudio_supported impl g s ctx Hg Hs Hcs).
  - unfold SoundFactory.generateSilentSound. rewrite Hcs. eexists. reflexivity.
Qed.

Lemma default_sounds_always_generate_witness :
  exists src,
    SoundFactory.generateSound Desktop.JSON_stringify Desktop.fetchAudio
      "success_sound" (SoundFactory.mkOptions None)
      (fst (SoundFactory.initialize Desktop.fetchImplementations SoundFactory.NoConfig
              (SoundFactory.constructor (Some (SoundFactory.mkContext 48000)))))
    = JS.Return src.
Proof.
  exact (default_sounds_always_generate Desktop.JSON_stringify Desktop.fetchAudio
           Desktop.fetchImplementations
           (SoundFactory.constructor (Some (SoundFactory.mkContext 48000)))
           (SoundFactory.mkContext 48000) "success_sound"
           (SoundFactory.mkOptions None) eq_refl).
Defined.

(** X25. With the default mappings and the default implementations, an
    event whose data carries a quality above 80 (and no [delta]) is mapped
    to ['high_quality_sound'] whatever its type, and the factory has no
    implementation of that name: what plays is the silent buffer. *)
Theorem high_quality_events_are_silent
        (JSON_stringify : option JS.json -> string)
        (fetchAudio : string -> JS.FetchResult SoundFactory.AudioBuffer)
        (fetchM : string -> JS.FetchResult SoundMappingSystem.MappingsFile)
        (fetchI : string -> JS.FetchResult SoundFactory.ImplementationsFile)
        (m0 : SoundMappingSystem.State) (f0 : SoundFactory.State)
        (ctx : SoundFactory.AudioContext)
        (action : string) (data : SoundMappingSystem.EventData) (q : Q)
        (o : SoundFactory.Options) :
  SoundFactory.audioContext f0 = Some ctx ->
  SoundMappingSystem.delta data = None ->
  SoundMappingSystem.quality data = Some q ->
  (80 < q)%Q ->
  SoundMappingSystem.getSoundForAction action data
    (fst (SoundMappingSystem.initialize fetchM SoundMappingSystem.NoConfig m0))
  = JS.Return (Some "high_quality_sound"%string) /\
  SoundFactory.generateSound JSON_stringify fetchAudio "high_quality_sound" o
    (fst (SoundFactory.initialize fetchI SoundFactory.NoConfig f0))
  = JS.Return (SoundFactory.silentSource (SoundFactory.sampleRate ctx)).
Proof.
  intros Hc Hd Hq Hlt. split.
  - unfold SoundMappingSystem.getSoundForAction.
    cbn [SoundMappingSystem.initialize fst SoundMappingSystem.isInitialized negb
         SoundMappingSystem.conditionalMappings].
    assert (Hf : SoundMappingSystem.firstMatch data
                   (SoundMappingSystem.conditionalMappings
                      (SoundMappingSystem.loadDefaultConfig m0))
                 = JS.Return (Some "high_quality_sound"%string)).
    { cbn. rewrite Hd, Hq.
      destruct (Qle_bool q 80) eqn:E; [|reflexivity].
      apply Qle_bool_iff in E. exfalso. lra. }
    rewrite Hf. reflexivity.
  - apply generateSound_missing; [reflexivity | exact Hc |].
    cbn [SoundFactory.initialize fst SoundFactory.implementations].
    destruct (_ !! _) as [impl|] eqn:Hm; [|reflexivity].
    exfalso. revert Hm.
    unfold SoundFactory.loadDefaultConfig, SoundFactory.loadConfig,
      SoundFactory.defaultConfig.
    cbn [SoundFactory.config_sounds SoundFactory.with_implementations
         SoundFactory.implementations fold_left fst snd].
    repeat (rewrite lookup_insert_ne by discriminate).
    rewrite lookup_empty. discriminate.
Qed.

Lemma high_quality_events_are_silent_witness :
  let data := SoundMappingSystem.mkEventData None (Some 95%Q) None None in
  SoundMappingSystem.getSoundForAction "button_click" data
    (fst (SoundMappingSystem.initialize Desktop.fetchMappings
            SoundMappingSystem.NoConfig SoundMappingSystem.constructor))
  = JS.Return (Some "high_quality_sound"%string) /\
  SoundFactory.generateSound Desktop.JSON_stringify Desktop.fetchAudio
    "high_quality_sound" (SoundFactory.mkOptions None)
    (fst (SoundFactory.initialize Desktop.fetchImplementations SoundFactory.NoConfig
            (SoundFactory.constructor (Some (SoundFactory.mkContext 44100)))))
  = JS.Return (SoundFactory.silentSource 44100).
Proof.
  intros data.
  refine (high_quality_events_are_silent Desktop.JSON_stringify Desktop.fetchAudio
            Desktop.fetchMappings Desktop.fetchImplementations
            SoundMappingSystem.constructor
            (SoundFactory.constructor (Some (SoundFactory.mkContext 44100)))
            (SoundFactory.mkContext 44100) "button_click" data 95%Q
            (SoundFactory.mkOptions None) eq_refl eq_refl eq_refl _).
  reflexivity.
Defined.

(** X26. The gain [generateFromFile] sets is never zero: a volume of 0
    in the options or in the implementation is falsy and passed over, so
    that the options' 0 gives the implementation's volume and two zeros
    give 1. *)
Theorem fileVolume_never_zero
        (impl : SoundFactory.Implementation) (o : SoundFactory.Options) :
  ~ (SoundFactory.fileVolume impl o == 0)%Q /\
  SoundFactory.fileVolume impl (SoundFactory.mkOptions (Some 0%Q))
  = SoundFactory.fileVolume impl (SoundFactory.mkOptions None) /\
  (SoundFactory.volume impl = Some 0%Q ->
   SoundFactory.fileVolume impl (SoundFactory.mkOptions (Some 0%Q)) = 1%Q).
Proof.
  split; [|split].
  - unfold SoundFactory.fileVolume.
    destruct (SoundFactory.option_volume o) as [v|].
    + destruct (Qeq_bool v 0) eqn:E.
      * destruct (SoundFactory.volume impl) as [w|]; [|discriminate].
        destruct (Qeq_bool w 0) eqn:E'; [discriminate|].
        apply Qeq_bool_neq, E'.
      * apply Qeq_bool_neq, E.
    + destruct (SoundFactory.volume impl) as [w|]; [|discriminate].
      destruct (Qeq_bool w 0) eqn:E'; [discriminate|].
      apply Qeq_bool_neq, E'.
  - reflexivity.
  - intros Hv. unfold SoundFactory.fileVolume. rewrite Hv. reflexivity.
Qed.

Lemma fileVolume_never_zero_witness :
  let impl := SoundFactory.mkImplementation (Some "file"%string) None None
                (Some "meow.mp3"%string) None None (Some 0%Q) false in
  SoundFactory.fileVolume impl (SoundFactory.mkOptions (Some 0%Q)) = 1%Q.
Proof.
  intros impl.
  exact (proj2 (proj2 (fileVolume_never_zero impl (SoundFactory.mkOptions None)))
           eq_refl).
Defined.

(** X27. An empty path is a string but falsy: [SoundFactory.initialize('')]
    fetches nothing and loads the default implementations, exactly as a call
    without argument does, while [SoundMappingSystem.initialize('')] takes the
    string branch, fetches the empty URL and, when that fails, returns
    [false] with the system unchanged. *)
Theorem empty_path_selects_defaults
        (fetchI : string -> JS.FetchResult SoundFactory.ImplementationsFile)
        (fetchM : string -> JS.FetchResult SoundMappingSystem.MappingsFile)
        (f : SoundFactory.State) (m : SoundMappingSystem.State) :
  JS.failed (fetchM ""%string) ->
  SoundFactory.initialize fetchI (SoundFactory.ConfigPath "") f
  = SoundFactory.initialize fetchI SoundFactory.NoConfig f /\
  SoundMappingSystem.initialize fetchM (SoundMappingSystem.ConfigPath "") m
  = (m, false).
Proof.
  intros Hf. split; [reflexivity|].
  unfold SoundMappingSystem.initialize, SoundMappingSystem.loadConfigFromFile.
  destruct (fetchM ""%string); try reflexivity. contradiction.
Qed.

Lemma empty_path_selects_defaults_witness :
  SoundFactory.initialize Desktop.fetchImplementations (SoundFactory.ConfigPath "")
    (SoundFactory.constructor None)
  = SoundFactory.initialize Desktop.fetchImplementations SoundFactory.NoConfig
      (SoundFactory.constructor None) /\
  SoundMappingSystem.initialize Desktop.fetchMappings
    (SoundMappingSystem.ConfigPath "") SoundMappingSystem.constructor
  = (SoundMappingSystem.constructor, false).
Proof.
  refine (empty_path_selects_defaults Desktop.fetchImplementations
            Desktop.fetchMappings (SoundFactory.constructor None)
            SoundMappingSystem.constructor _).
  exact I.
Defined.



(** ** More on the production page *)

(** X28. A production run takes exactly six ticks of the interval: the
    animation started by [launchProduction] is still armed after any smaller
    number of ticks, and at the sixth the interval is cleared with the card
    shown, [currentStep] at 5, [processConfig] untouched, and every step
    completed, no longer active, its connector active, at the opacity of its
    configured value. *)
Theorem production_run_takes_six_ticks (clk : Clock) (p : Page) :
  let start := UIController.launchProduction p in
  exists p',
    (forall n,
        ProductionController.runAnimation n clk start
        = if (n <? 6)%nat then None else Some p') /\
    productOutput_show (domCache p') = true /\
    currentStep (appState p') = 5%nat /\
    processConfig (appState p') = processConfig (appState p) /\
    forall ty,
      step_completed (get ty (steps (domCache p'))) = true /\
      step_active (get ty (steps (domCache p'))) = false /\
      connector_active (get ty (connectors (domCache p'))) = true /\
      step_opacity (get ty (steps (domCache p')))
      = get ty (processConfig (appState p)) # 100.
Proof.
  intros start. subst start. destruct p as [a d]; destruct a; destruct d.
  eexists. split; [|split; [|split; [|split]]].
  - intros n. do 6 (destruct n as [|n]; [reflexivity|]). reflexivity.
  - reflexivity.
  - reflexivity.
  - reflexivity.
  - intros ty. destruct ty; repeat split; reflexivity.
Qed.

(** X29. The cost label of the product card does not depend on the
    quality slider: [updateStats] averages the four other values, and the
    quality value only decides between its two own labels at 60. *)
Theorem cost_label_ignores_quality (p : Page) (v : Z) :
  let with_quality :=
    on_app (fun a => with_processConfig (set Quality v (processConfig a)) a) p in
  let st := stats (domCache (ProductionController.updateStats p)) in
  let st' := stats (domCache (ProductionController.updateStats with_quality)) in
  stat_cost st' = stat_cost st /\
  (forall ty, ty <> Quality -> get ty (stat_labels st') = get ty (stat_labels st)) /\
  get Quality (stat_labels st') = (if 60 <=? v then "通过"%string else "不通过"%string).
Proof.
  intros wq st st'. subst wq st st'. destruct p as [a d]; destruct a.
  split; [reflexivity|]. split; [|reflexivity].
  intros ty Hty. destruct ty; try reflexivity. contradiction.
Qed.

Lemma cost_label_ignores_quality_witness :
  let st := stats (domCache (ProductionController.updateStats loadedPage)) in
  let st' :=
    stats (domCache
             (ProductionController.updateStats
                (on_app (fun a => with_processConfig
                                    (set Quality 10 (processConfig a)) a)
                        loadedPage))) in
  get Recipe (stat_labels st') = get Recipe (stat_labels st).
Proof.
  intros st st'.
  refine (proj1 (proj2 (cost_label_ignores_quality loadedPage 10)) Recipe _).
  discriminate.
Defined.

(** X30. [resetSystem] is idempotent: a second reset changes nothing
    on the page. *)
Theorem resetSystem_idempotent (p : Page) :
  UIController.resetSystem (UIController.resetSystem p) = UIController.resetSystem p.
Proof.
  destruct p as [a d]; destruct a; destruct d.
  cbv -[map]. rewrite !map_map. reflexivity.
Qed.
